(** * Refly API server: knowledge and subscription services

    A shallow embedding of
      - apps/api/src/knowledge/knowledge.service.ts     (module [Knowledge])
      - apps/api/src/subscription/subscription.service.ts (module [Subscription])

    Each service method is a computation in a state-and-exception monad
    over the tables, the blob store, the job queue and a trace of the
    calls made to the collaborators (ORM, object store, RAG service).
    An awaited promise that rejects is an exception; effects performed
    before the exception stay in the state, as they do in the service. *)

From stdpp Require Import base option list strings pretty gmap sorting.
From Stdlib Require Import ZArith Lia Ascii.

Open Scope Z_scope.

(** ** JavaScript values used by the services *)

Module JS.

(** An optional string property: [None] is [undefined] / [null]. *)
Definition truthy (s : option string) : bool :=
  match s with
  | Some s => negb (String.eqb s "")
  | None => false
  end.

(** [a || b] on optional strings. *)
Definition or (a b : option string) : option string :=
  if truthy a then a else b.

(** [a || 'literal'] *)
Definition or_lit (a : option string) (b : string) : string :=
  match a with
  | Some s => if String.eqb s "" then b else s
  | None => b
  end.

(** [`${a}`] in a template literal. *)
Definition interp (a : option string) : string := default "undefined" a.

End JS.

(** ** Exceptions and the service monad *)

Inductive Exn : Type :=
  | TypeError (msg : string)
  | BadRequestException (msg : string)
  | UnauthorizedException
  | PrismaNotFound (model : string)
  | PrismaUniqueViolation (model : string)
  | PrismaValidationError (msg : string)
  | MinioError (msg : string)
  | CrawlError (msg : string)
  | RagError (msg : string).

(** The client errors of the HTTP layer (4xx). *)
Definition is_validation_error (e : Exn) : bool :=
  match e with BadRequestException _ => true | _ => false end.

Definition is_authorization_error (e : Exn) : bool :=
  match e with UnauthorizedException => true | _ => false end.

Definition M (S A : Type) : Type := S → (Exn + A) * S.

#[export] Instance M_ret {S} : MRet (M S) := λ A a s, (inr a, s).

#[export] Instance M_bind {S} : MBind (M S) := λ A B f m s,
  match m s with
  | (inr a, s') => f a s'
  | (inl e, s') => (inl e, s')
  end.

Definition throw {S A} (e : Exn) : M S A := λ s, (inl e, s).

Definition gets {S A} (f : S → A) : M S A := λ s, (inr (f s), s).

Definition modify {S} (f : S → S) : M S unit := λ s, (inr tt, f s).

(** [try { m } catch (err) { h err }] *)
Definition try_catch {S A} (m : M S A) (h : Exn → M S A) : M S A := λ s,
  match m s with
  | (inl e, s') => h e s'
  | (inr a, s') => (inr a, s')
  end.

(** [prisma.$transaction([...])]: all or nothing on the tables. *)
Definition transaction {S A} (m : M S A) : M S A := λ s,
  match m s with
  | (inl e, _) => (inl e, s)
  | (inr a, s') => (inr a, s')
  end.

Definition lift_result {S A} (r : Exn + A) : M S A := λ s, (r, s).

(** [Promise.all([a, b])]: both calls are started, so both take effect;
    the result rejects when one of them does. *)
Definition promise_all2 {S A B} (a : M S A) (b : M S B) : M S (A * B) := λ s,
  let '(ra, s1) := a s in
  let '(rb, s2) := b s1 in
  (match ra, rb with
   | inr x, inr y => inr (x, y)
   | inl e, _ => inl e
   | _, inl e => inl e
   end, s2).

(** ** Query helpers shared by the two services (the ORM's list semantics) *)

Section Query.
Context {A : Type}.

(** [orderBy: { key: 'desc' }], stable on ties. *)
Fixpoint insert_desc (key : A → Z) (x : A) (l : list A) : list A :=
  match l with
  | [] => [x]
  | y :: l' => if key y <=? key x then x :: y :: l' else y :: insert_desc key x l'
  end.

Definition order_desc (key : A → Z) (l : list A) : list A :=
  foldr (insert_desc key) [] l.

(** [skip] / [take]: a negative [skip] is rejected by the ORM, a negative
    [take] pages from the end of the ordered list. *)
Definition paginate (skip take : Z) (l : list A) : Exn + list A :=
  if skip <? 0 then inl (PrismaValidationError "skip")
  else if 0 <=? take
       then inr (firstn (Z.to_nat take) (skipn (Z.to_nat skip) l))
       else inr (rev (firstn (Z.to_nat (- take)) (skipn (Z.to_nat skip) (rev l)))).

(** Replace the first element satisfying [p]; [None] when there is none. *)
Fixpoint update_first (p : A → bool) (f : A → A) (l : list A) : option (A * list A) :=
  match l with
  | [] => None
  | x :: l' =>
      if p x then Some (f x, f x :: l')
      else match update_first p f l' with
           | Some (y, l'') => Some (y, x :: l'')
           | None => None
           end
  end.

(** [updateMany]: every matching row is updated. *)
Definition update_all (p : A → bool) (f : A → A) (l : list A) : list A :=
  map (λ x, if p x then f x else x) l.

(** [findFirst]: first matching row in table order. *)
Definition find_first (p : A → bool) (l : list A) : option A := List.find p l.
End Query.

(** ** knowledge.service.ts *)

Module Knowledge.

(** *** Rows, requests and collaborators *)

Record User := mkUser {
  u_id : Z;
  u_uid : string;
}.

(** [ResourceMeta]: the JSON object kept (stringified) in the [meta]
    column and sent as [data] in requests. *)
Record ResourceMeta := mkMeta {
  m_url : option string;
  m_linkId : option string;
  m_title : option string;
  m_storageKey : option string;
}.

Inductive IndexStatus := processing | finish | failed.

Record Resource := mkResource {
  r_resourceId : string;
  r_resourceType : string;
  r_meta : option ResourceMeta;
  r_storageKey : option string;
  r_userId : Z;
  r_isPublic : option bool;
  r_readOnly : option bool;
  r_title : string;
  r_indexStatus : IndexStatus;
  r_wordCount : option Z;
  r_deletedAt : option Z;
  r_updatedAt : Z;
}.

Record Collection := mkCollection {
  c_collectionId : string;
  c_userId : Z;
  c_title : option string;
  c_description : option string;
  c_isPublic : option bool;
  c_deletedAt : option Z;
  c_updatedAt : Z;
}.

Record Weblink := mkWeblink {
  wl_linkId : string;
  wl_parsedDocStorageKey : option string;
}.

(** [UpsertResourceRequest] *)
Record UpsertResourceRequest := mkParam {
  p_resourceId : option string;
  p_resourceType : string;
  p_collectionId : option string;
  p_collectionName : option string;
  p_title : option string;
  p_data : option ResourceMeta;
  p_storageKey : option string;
  p_content : option string;
  p_isPublic : option bool;
  p_readOnly : option bool;
}.

(** [FinalizeResourceParam]: the queue payload [{ ...param, userId }]. *)
Record FinalizeResourceParam := mkJob {
  f_param : UpsertResourceRequest;
  f_userId : Z;
}.

Record UpsertCollectionRequest := mkCollParam {
  cp_collectionId : option string;
  cp_title : option string;
  cp_description : option string;
  cp_isPublic : option bool;
}.

(** The [data] argument of [prisma.resource.update]; [None] leaves the
    column as it is. *)
Record ResourceUpdateInput := mkUpdate {
  up_title : option string;
  up_isPublic : option bool;
  up_readOnly : option bool;
  up_meta : option ResourceMeta;
  up_storageKey : option string;
  up_wordCount : option Z;
  up_indexStatus : option IndexStatus;
  up_deletedAt : option Z;
}.

(** The document handed to [ragService.indexContent]. *)
Record Document := mkDoc {
  pageContent : string;
  md_url : option string;
  md_title : option string;
  md_collectionId : option string;
  md_resourceId : option string;
}.

Definition Chunk : Type := string.

(** Calls made to the collaborators, in order. *)
Inductive Event :=
  | EvLog (level msg : string)
  | EvCrawl (url : string)
  | EvDownload (key : string)
  | EvUpload (key content : string)
  | EvIndexContent (doc : Document)
  | EvSaveDataForUser (userId : Z) (chunks : list Chunk)
  | EvDeleteResourceData (userId : Z) (resourceId : string)
  | EvResourceUpdate (resourceId : option string) (userId : option Z)
                     (data : ResourceUpdateInput)
  | EvQueueAdd (job : FinalizeResourceParam).

(** What is outside the repository: id generators, the remote reader,
    the RAG service, faults of the object store, the markdown cleaner
    of [@refly/utils] and the word counter of [reading-time-estimator].
    A collaborator that rejects returns its message on the left. *)
Record Env := mkEnv {
  genResourceID : N → string;
  genCollectionID : N → string;
  crawlFromRemoteReader : string → string + (string * option string);
  uploadData_fault : string → string → option string;
  indexContent : Document → string + list Chunk;
  saveDataForUser_fault : Z → list Chunk → option string;
  deleteResourceData_fault : Z → string → option string;
  cleanMarkdownForIngest : string → string;
  readingTime_words : string → Z;
}.

Record World := mkWorld {
  users : list User;
  resources : list Resource;
  collections : list Collection;
  links : list (string * string);
  weblinks : list Weblink;
  blobs : gmap string string;
  queue : list FinalizeResourceParam;
  trace : list Event;
  now : Z;
  fresh : N;
}.

Definition with_resources (rs : list Resource) (w : World) : World :=
  mkWorld (users w) rs (collections w) (links w) (weblinks w) (blobs w)
          (queue w) (trace w) (now w) (fresh w).

Definition with_collections (cs : list Collection) (w : World) : World :=
  mkWorld (users w) (resources w) cs (links w) (weblinks w) (blobs w)
          (queue w) (trace w) (now w) (fresh w).

Definition with_links (ls : list (string * string)) (w : World) : World :=
  mkWorld (users w) (resources w) (collections w) ls (weblinks w) (blobs w)
          (queue w) (trace w) (now w) (fresh w).

Definition with_blobs (bs : gmap string string) (w : World) : World :=
  mkWorld (users w) (resources w) (collections w) (links w) (weblinks w) bs
          (queue w) (trace w) (now w) (fresh w).

Definition with_queue (q : list FinalizeResourceParam) (w : World) : World :=
  mkWorld (users w) (resources w) (collections w) (links w) (weblinks w)
          (blobs w) q (trace w) (now w) (fresh w).

Definition with_trace (t : list Event) (w : World) : World :=
  mkWorld (users w) (resources w) (collections w) (links w) (weblinks w)
          (blobs w) (queue w) t (now w) (fresh w).

Definition with_fresh (n : N) (w : World) : World :=
  mkWorld (users w) (resources w) (collections w) (links w) (weblinks w)
          (blobs w) (queue w) (trace w) (now w) n.

(** Mutations of the request object ([param.x = ...]). *)
Definition set_resourceId (v : option string) (p : UpsertResourceRequest) :=
  mkParam v (p_resourceType p) (p_collectionId p) (p_collectionName p)
          (p_title p) (p_data p) (p_storageKey p) (p_content p)
          (p_isPublic p) (p_readOnly p).

Definition set_collectionId (v : option string) (p : UpsertResourceRequest) :=
  mkParam (p_resourceId p) (p_resourceType p) v (p_collectionName p)
          (p_title p) (p_data p) (p_storageKey p) (p_content p)
          (p_isPublic p) (p_readOnly p).

Definition set_title (v : option string) (p : UpsertResourceRequest) :=
  mkParam (p_resourceId p) (p_resourceType p) (p_collectionId p)
          (p_collectionName p) v (p_data p) (p_storageKey p) (p_content p)
          (p_isPublic p) (p_readOnly p).

Definition set_storageKey (v : option string) (p : UpsertResourceRequest) :=
  mkParam (p_resourceId p) (p_resourceType p) (p_collectionId p)
          (p_collectionName p) (p_title p) (p_data p) v (p_content p)
          (p_isPublic p) (p_readOnly p).

Definition set_content (v : option string) (p : UpsertResourceRequest) :=
  mkParam (p_resourceId p) (p_resourceType p) (p_collectionId p)
          (p_collectionName p) (p_title p) (p_data p) (p_storageKey p) v
          (p_isPublic p) (p_readOnly p).

Definition set_readOnly (v : option bool) (p : UpsertResourceRequest) :=
  mkParam (p_resourceId p) (p_resourceType p) (p_collectionId p)
          (p_collectionName p) (p_title p) (p_data p) (p_storageKey p)
          (p_content p) (p_isPublic p) v.

(** The effect of an update on a row; [updatedAt] is refreshed by the ORM. *)
Definition apply_update (t : Z) (d : ResourceUpdateInput) (r : Resource) : Resource :=
  mkResource (r_resourceId r) (r_resourceType r)
    (match up_meta d with Some m => Some m | None => r_meta r end)
    (match up_storageKey d with Some k => Some k | None => r_storageKey r end)
    (r_userId r)
    (match up_isPublic d with Some b => Some b | None => r_isPublic r end)
    (match up_readOnly d with Some b => Some b | None => r_readOnly r end)
    (default (r_title r) (up_title d))
    (default (r_indexStatus r) (up_indexStatus d))
    (match up_wordCount d with Some n => Some n | None => r_wordCount r end)
    (match up_deletedAt d with Some t' => Some t' | None => r_deletedAt r end)
    t.

Definition not_deleted {A} (deletedAt : A → option Z) (x : A) : bool :=
  match deletedAt x with Some _ => false | None => true end.

(** The submissions made to the indexing interface, in a trace. *)
Definition is_index_event (ev : Event) : bool :=
  match ev with
  | EvIndexContent _ | EvSaveDataForUser _ _ => true
  | _ => false
  end.

Definition is_resource_update (ev : Event) : bool :=
  match ev with EvResourceUpdate _ _ _ => true | _ => false end.

Definition index_events (t : list Event) : list Event := List.filter is_index_event t.

Definition resource_updates (t : list Event) : list Event :=
  List.filter is_resource_update t.

(** *** The collaborators as computations *)

Section Service.
Variable E : Env.

Definition emit (ev : Event) : M World unit :=
  modify (λ w, with_trace (trace w ++ [ev]) w).

Definition logger (level msg : string) : M World unit := emit (EvLog level msg).

Definition next_id (gen : N → string) : M World string :=
  n ← gets fresh;
  _ ← modify (with_fresh (n + 1)%N);
  mret (gen n).

(** [minio.downloadData(key)] then [.toString()] *)
Definition minio_downloadData (key : string) : M World string :=
  _ ← emit (EvDownload key);
  bs ← gets blobs;
  match bs !! key with
  | Some content => mret content
  | None => throw (MinioError "The specified key does not exist")
  end.

(** [minio.uploadData(key, content)]; the client refuses a missing or
    empty object name. *)
Definition minio_uploadData (key : option string) (content : string) : M World unit :=
  if JS.truthy key then
    let k := default "" key in
    _ ← emit (EvUpload k content);
    match uploadData_fault E k content with
    | Some msg => throw (MinioError msg)
    | None => modify (λ w, with_blobs (<[k := content]> (blobs w)) w)
    end
  else throw (MinioError "Invalid object name").

Definition rag_crawlFromRemoteReader (url : string) : M World (string * option string) :=
  _ ← emit (EvCrawl url);
  match crawlFromRemoteReader E url with
  | inl msg => throw (CrawlError msg)
  | inr data => mret data
  end.

Definition rag_indexContent (doc : Document) : M World (list Chunk) :=
  _ ← emit (EvIndexContent doc);
  match indexContent E doc with
  | inl msg => throw (RagError msg)
  | inr chunks => mret chunks
  end.

Definition rag_saveDataForUser (user : User) (chunks : list Chunk) : M World unit :=
  _ ← emit (EvSaveDataForUser (u_id user) chunks);
  match saveDataForUser_fault E (u_id user) chunks with
  | Some msg => throw (RagError msg)
  | None => mret tt
  end.

Definition rag_deleteResourceData (user : User) (resourceId : string) : M World unit :=
  _ ← emit (EvDeleteResourceData (u_id user) resourceId);
  match deleteResourceData_fault E (u_id user) resourceId with
  | Some msg => throw (RagError msg)
  | None => mret tt
  end.

(** [prisma.resource.update({ where: { resourceId, userId? }, data })]:
    rejects when no row matches. *)
Definition resource_where (rid : string) (uid : option Z) (r : Resource) : bool :=
  String.eqb (r_resourceId r) rid &&
  match uid with Some u => r_userId r =? u | None => true end.

Definition prisma_resource_update (rid : option string) (uid : option Z)
    (d : ResourceUpdateInput) : M World Resource :=
  _ ← emit (EvResourceUpdate rid uid d);
  match rid with
  | None => throw (PrismaValidationError "resourceId")
  | Some rid =>
      w ← gets id;
      match update_first (resource_where rid uid) (apply_update (now w) d) (resources w) with
      | Some (r, rs) => _ ← modify (with_resources rs); mret r
      | None => throw (PrismaNotFound "Resource")
      end
  end.

(** [prisma.resource.create] with [collections: { connectOrCreate }];
    the ORM stamps [updatedAt]. *)
Definition prisma_resource_create (row : Z → Resource) (collectionId : string)
    (collectionTitle : string) : M World Resource :=
  w ← gets id;
  let r := row (now w) in
  match find_first (λ r', String.eqb (r_resourceId r') (r_resourceId r)) (resources w) with
  | Some _ => throw (PrismaUniqueViolation "Resource")
  | None =>
      _ ← modify (with_resources (resources w ++ [r]));
      _ ← match find_first (λ c, String.eqb (c_collectionId c) collectionId) (collections w) with
          | Some _ => mret tt
          | None =>
              modify (with_collections
                (collections w ++
                 [mkCollection collectionId (r_userId r) (Some collectionTitle)
                               None None None (now w)]))
          end;
      _ ← modify (λ w', with_links (links w' ++ [(collectionId, r_resourceId r)]) w');
      mret r
  end.

(** *** The service methods *)

Definition listCollections (user : User) (page pageSize : Z) : M World (list Collection) :=
  cs ← gets collections;
  lift_result
    (paginate ((page - 1) * pageSize) pageSize
       (order_desc c_updatedAt
          (List.filter (λ c, (c_userId c =? u_id user) && not_deleted c_deletedAt c) cs))).

(** [prisma.collection.upsert] on [{ collectionId }]: an existing row takes
    the fields of the request ([omit(param, ['collectionId'])]), a missing
    one is created for the user. *)
Definition upsertCollection (user : User) (param : UpsertCollectionRequest)
    : M World Collection :=
  cid ← (if JS.truthy (cp_collectionId param) then mret (default "" (cp_collectionId param))
         else next_id (genCollectionID E));
  w ← gets id;
  match update_first (λ c, String.eqb (c_collectionId c) cid)
          (λ c, mkCollection (c_collectionId c) (c_userId c)
                  (match cp_title param with Some t => Some t | None => c_title c end)
                  (match cp_description param with Some t => Some t | None => c_description c end)
                  (match cp_isPublic param with Some b => Some b | None => c_isPublic c end)
                  (c_deletedAt c) (now w))
          (collections w) with
  | Some (c, cs) => _ ← modify (with_collections cs); mret c
  | None =>
      let c := mkCollection cid (u_id user) (cp_title param) (cp_description param)
                            (cp_isPublic param) None (now w) in
      _ ← modify (with_collections (collections w ++ [c]));
      mret c
  end.

Definition deleteCollection (user : User) (collectionId : string) : M World Collection :=
  w ← gets id;
  match find_first (λ c, String.eqb (c_collectionId c) collectionId
                          && not_deleted c_deletedAt c) (collections w) with
  | None => throw (BadRequestException "Collection not found")
  | Some coll =>
      if negb (c_userId coll =? u_id user) then throw UnauthorizedException
      else
        match update_first
                (λ c, String.eqb (c_collectionId c) collectionId
                      && (c_userId c =? u_id user))
                (λ c, mkCollection (c_collectionId c) (c_userId c) (c_title c)
                        (c_description c) (c_isPublic c) (Some (now w)) (now w))
                (collections w) with
        | Some (c, cs) => _ ← modify (with_collections cs); mret c
        | None => throw (PrismaNotFound "Collection")
        end
  end.

(** [page = 1] and [pageSize = 10] when absent. *)
Definition listResources (resourceId collectionId : option string)
    (page pageSize : option Z) : M World (list Resource) :=
  let page := default 1 page in
  let pageSize := default 10 pageSize in
  w ← gets id;
  if JS.truthy collectionId then
    let cid := default "" collectionId in
    match List.filter (λ c, String.eqb (c_collectionId c) cid && not_deleted c_deletedAt c)
            (collections w) with
    | [] => _ ← lift_result (paginate ((page - 1) * pageSize) pageSize (@nil Resource)); mret []
    | c :: _ =>
        lift_result
          (paginate ((page - 1) * pageSize) pageSize
             (order_desc r_updatedAt
                (List.filter
                   (λ r, bool_decide ((c_collectionId c, r_resourceId r) ∈ links w))
                   (resources w))))
    end
  else
    lift_result
      (paginate ((page - 1) * pageSize) pageSize
         (order_desc r_updatedAt
            (List.filter
               (λ r, match resourceId with
                     | Some rid => String.eqb (r_resourceId r) rid
                     | None => true
                     end && not_deleted r_deletedAt r)
               (resources w)))).

Definition createResource (user : User) (param : UpsertResourceRequest)
    : M World Resource :=
  rid ← next_id (genResourceID E);
  let param := set_resourceId (Some rid) param in
  (* If target collection not specified, create new one *)
  param ← (if negb (JS.truthy (p_collectionId param)) then
             cid ← next_id (genCollectionID E);
             _ ← logger "log" ("create new collection for user " +:+ u_uid user
                               +:+ ", collection id: " +:+ cid);
             mret (set_collectionId (Some cid) param)
           else mret param);
  let param :=
    match p_readOnly param with
    | None => set_readOnly (Some (String.eqb (p_resourceType param) "weblink")) param
    | Some _ => param
    end in
  param ← (if String.eqb (p_resourceType param) "weblink" then
             match p_data param with
             | None => throw (BadRequestException "data is required")
             | Some data =>
                 if negb (JS.truthy (m_url data)) && negb (JS.truthy (m_linkId data))
                 then throw (BadRequestException "url or linkId is required")
                 else mret (set_title (JS.or (p_title param) (m_title data)) param)
             end
           else if String.eqb (p_resourceType param) "note" then mret param
           else throw (BadRequestException "Invalid resource type"));
  res ← prisma_resource_create
          (mkResource rid (p_resourceType param) (p_data param) (p_storageKey param)
             (u_id user) (p_isPublic param) (p_readOnly param)
             (JS.or_lit (p_title param) "Untitled") processing None None)
          (default "" (p_collectionId param))
          (JS.or_lit (p_collectionName param) "Default Collection");
  _ ← emit (EvQueueAdd (mkJob param (u_id user)));
  _ ← modify (λ w, with_queue (queue w ++ [mkJob param (u_id user)]) w);
  mret res.

Definition indexResource (user : User) (param : UpsertResourceRequest) : M World unit :=
  let resourceId := p_resourceId param in
  let collectionId := p_collectionId param in
  match p_data param with
  | None => throw (TypeError "Cannot destructure property 'url' of 'param.data'")
  | Some data =>
      let url := m_url data in
      let linkId := m_linkId data in
      let title := m_title data in
      let param := set_storageKey (JS.or (p_storageKey param) (m_storageKey data)) param in
      let param := set_content (Some (JS.or_lit (p_content param) "")) param in
      param ← (if JS.truthy linkId then
                 wls ← gets weblinks;
                 match find_first (λ wl, String.eqb (wl_linkId wl) (default "" linkId)) wls with
                 | None =>
                     _ ← logger "warn" ("weblink not found for linkId: " +:+ default "" linkId
                                        +:+ ", fallback to server crawl");
                     mret param
                 | Some weblink => mret (set_storageKey (wl_parsedDocStorageKey weblink) param)
                 end
               else mret param);
      param ← (if JS.truthy (p_storageKey param) then
                 content ← minio_downloadData (default "" (p_storageKey param));
                 mret (set_content (Some content) param)
               else
                 param ← (if negb (JS.truthy (p_content param)) && JS.truthy url then
                            data ← rag_crawlFromRemoteReader (default "" url);
                            mret (set_title (JS.or (p_title param) (snd data))
                                    (set_content (Some (fst data)) param))
                          else mret param);
                 let param := set_storageKey (Some ("resource/" +:+ JS.interp resourceId)) param in
                 _ ← minio_uploadData (p_storageKey param) (default "" (p_content param));
                 _ ← logger "log" ("upload resource " +:+ JS.interp (p_storageKey param)
                                   +:+ " success");
                 mret param);
      (* ensure the document is for ingestion use *)
      _ ← (if JS.truthy (p_content param) then
             chunks ← rag_indexContent
                        (mkDoc (cleanMarkdownForIngest E (default "" (p_content param)))
                               url title collectionId resourceId);
             rag_saveDataForUser user chunks
           else mret tt);
      _ ← logger "log" ("save resource segments for user " +:+ u_uid user
                        +:+ " success, resourceId: " +:+ JS.interp resourceId);
      _ ← prisma_resource_update resourceId (Some (u_id user))
            (mkUpdate None None None
               (Some (mkMeta url None (p_title param) (p_storageKey param)))
               (p_storageKey param)
               (Some (readingTime_words E (default "" (p_content param))))
               (Some finish) None);
      mret tt
  end.

(** Process resource after inserted, including connecting with weblink
    and save to vector store. *)
Definition finalizeResource (param : FinalizeResourceParam) : M World unit :=
  us ← gets users;
  match find_first (λ u, u_id u =? f_userId param) us with
  | None => logger "warn" ("User not found, userId: " +:+ pretty (f_userId param))
  | Some user =>
      try_catch (indexResource user (f_param param))
        (λ err,
           _ ← logger "error" "finalize resource error";
           _ ← prisma_resource_update (p_resourceId (f_param param)) (Some (u_id user))
                 (mkUpdate None None None None None None (Some failed) None);
           throw err)
  end.

Definition updateResource (user : User) (param : UpsertResourceRequest)
    : M World Resource :=
  let updates :=
    mkUpdate (p_title param) (p_isPublic param) (p_readOnly param) (p_data param)
             None None None None in
  _ ← (if JS.truthy (p_content param)
       then minio_uploadData (p_storageKey param) (default "" (p_content param))
       else mret tt);
  prisma_resource_update (p_resourceId param) (Some (u_id user)) updates.

Definition deleteResource (user : User) (resourceId : string)
    : M World (unit * Resource) :=
  w ← gets id;
  match find_first (λ r, String.eqb (r_resourceId r) resourceId
                          && not_deleted r_deletedAt r) (resources w) with
  | None => throw (BadRequestException "Resource not found")
  | Some resource =>
      if negb (r_userId resource =? u_id user) then throw UnauthorizedException
      else
        promise_all2
          (rag_deleteResourceData user resourceId)
          (prisma_resource_update (Some resourceId) None
             (mkUpdate None None None None None None None (Some (now w))))
  end.

End Service.

End Knowledge.

(** *** The detail queries of knowledge.service.ts *)

Module KnowledgeDetail.
Import Knowledge.

(** [omit(resource, ['id', 'storageKey', 'stateStorageKey'])] on the
    columns of the row. *)
Definition omit_storageKey (r : Resource) : Resource :=
  mkResource (r_resourceId r) (r_resourceType r) (r_meta r) None (r_userId r)
             (r_isPublic r) (r_readOnly r) (r_title r) (r_indexStatus r)
             (r_wordCount r) (r_deletedAt r) (r_updatedAt r).

(** [ResourceDetail & { userId }]: the row without its storage key, the
    parsed [meta] as [data] and, on request, the document. *)
Record ResourceDetail := mkDetail {
  rd_resource : Resource;
  rd_data : option ResourceMeta;
  rd_doc : option string;
}.

(** A resource as [getCollectionDetail] lists it:
    [omit(r, ['id', 'userId', 'deletedAt'])] with the parsed [meta]. *)
Record CollectionResource := mkCollResource {
  cr_resourceId : string;
  cr_resourceType : string;
  cr_storageKey : option string;
  cr_isPublic : option bool;
  cr_readOnly : option bool;
  cr_title : string;
  cr_indexStatus : IndexStatus;
  cr_wordCount : option Z;
  cr_updatedAt : Z;
  cr_data : option ResourceMeta;
}.

(** [pick(data, ['collectionId', 'userId', 'title', 'description',
    'isPublic', 'createdAt', 'updatedAt'])] and the resources. *)
Record CollectionDetail := mkCollDetail {
  cd_collectionId : string;
  cd_userId : Z;
  cd_title : option string;
  cd_description : option string;
  cd_isPublic : option bool;
  cd_updatedAt : Z;
  cd_resources : list CollectionResource;
}.

Definition collection_resource (r : Resource) : CollectionResource :=
  mkCollResource (r_resourceId r) (r_resourceType r) (r_storageKey r) (r_isPublic r)
                 (r_readOnly r) (r_title r) (r_indexStatus r) (r_wordCount r)
                 (r_updatedAt r) (r_meta r).

Definition getCollectionDetail (collectionId : string) : M World (option CollectionDetail) :=
  w ← gets id;
  match find_first (λ c, String.eqb (c_collectionId c) collectionId
                          && not_deleted c_deletedAt c) (collections w) with
  | None => mret None
  | Some data =>
      let resources :=
        order_desc r_updatedAt
          (List.filter (λ r, bool_decide ((c_collectionId data, r_resourceId r) ∈ links w))
             (resources w)) in
      mret (Some (mkCollDetail (c_collectionId data) (c_userId data) (c_title data)
                               (c_description data) (c_isPublic data) (c_updatedAt data)
                               (map collection_resource resources)))
  end.

Definition getResourceDetail (resourceId : string) (needDoc : bool)
    : M World ResourceDetail :=
  rs ← gets resources;
  match find_first (λ r, String.eqb (r_resourceId r) resourceId
                          && not_deleted r_deletedAt r) rs with
  | None => throw (TypeError "Cannot read properties of null (reading 'stateStorageKey')")
  | Some resource =>
      let detail := mkDetail (omit_storageKey resource) (r_meta resource) None in
      if needDoc then
        let metadata := rd_data detail in
        key ← (if JS.truthy (r_storageKey resource) then mret (r_storageKey resource)
               else match metadata with
                    | None =>
                        throw (TypeError "Cannot read properties of null (reading 'storageKey')")
                    | Some md => mret (m_storageKey md)
                    end);
        buf ← (if JS.truthy key then minio_downloadData (default "" key)
               else throw (MinioError "Invalid object name"));
        mret (mkDetail (rd_resource detail) (rd_data detail) (Some buf))
      else mret detail
  end.

End KnowledgeDetail.

(** ** subscription.service.ts *)

(** The [Date] arithmetic the service relies on, with the server clock in
    UTC: an instant is a number of milliseconds since the epoch. *)
Module JSDate.

Definition ms_per_day : Z := 86400000.

(** Days since the epoch of a civil date, [m] in 1..12. *)
Definition days_from_civil (y m d : Z) : Z :=
  let y' := if m <=? 2 then y - 1 else y in
  let era := y' / 400 in
  let yoe := y' - era * 400 in
  let mp := (m + 9) mod 12 in
  let doy := (153 * mp + 2) / 5 + d - 1 in
  let doe := yoe * 365 + yoe / 4 - yoe / 100 + doy in
  era * 146097 + doe - 719468.

(** The civil date (year, month 1..12, day) of a day number. *)
Definition civil_from_days (z : Z) : Z * Z * Z :=
  let z' := z + 719468 in
  let era := z' / 146097 in
  let doe := z' - era * 146097 in
  let yoe := (doe - doe / 1460 + doe / 36524 - doe / 146096) / 365 in
  let doy := doe - (365 * yoe + yoe / 4 - yoe / 100) in
  let mp := (5 * doy + 2) / 153 in
  let d := doy - (153 * mp + 2) / 5 + 1 in
  let m := if mp <? 10 then mp + 3 else mp - 9 in
  (if m <=? 2 then yoe + era * 400 + 1 else yoe + era * 400, m, d).

Definition getFullYear (t : Z) : Z := (civil_from_days (t / ms_per_day)).1.1.
Definition getMonth (t : Z) : Z := (civil_from_days (t / ms_per_day)).1.2 - 1.
Definition getDate (t : Z) : Z := (civil_from_days (t / ms_per_day)).2.

(** [new Date(year, monthIndex, day)]: the month index and the day may
    overflow and are carried over; years 0..99 are taken as 19xx. *)
Definition make (year monthIndex day : Z) : Z :=
  let year := if (0 <=? year) && (year <=? 99) then 1900 + year else year in
  (days_from_civil (year + monthIndex / 12) (monthIndex mod 12 + 1) 1 + (day - 1))
  * ms_per_day.

End JSDate.

Module Subscription.

(** *** Rows and job data *)

Record User := mkUser {
  u_uid : string;
  u_subscriptionId : option string;
}.

Record SubscriptionModel := mkSub {
  s_subscriptionId : string;
  s_uid : string;
  s_planType : option string;
  s_interval : option string;
  s_lookupKey : string;
  s_status : string;
}.

(** [CreateSubscriptionParam] *)
Record CreateSubscriptionParam := mkSubParam {
  sp_subscriptionId : string;
  sp_planType : option string;
  sp_interval : option string;
  sp_lookupKey : string;
  sp_status : string;
}.

Record UsageMeter := mkMeter {
  meterId : string;
  m_uid : string;
  m_subscriptionId : option string;
  startAt : Z;
  endAt : Z;
  t1TokenQuota : Z;
  t1TokenUsed : Z;
  t2TokenQuota : Z;
  t2TokenUsed : Z;
  m_deletedAt : option Z;
}.

Record SubscriptionUsageQuota := mkQuota {
  q_planType : string;
  q_t1TokenQuota : Z;
  q_t2TokenQuota : Z;
}.

(** The line item written by [tokenUsage.create]. *)
Record TokenUsage := mkTokenUsage {
  tu_uid : string;
  tu_tier : string;
  tu_inputTokens : Z;
  tu_outputTokens : Z;
  tu_skillId : string;
}.

(** [ReportTokenUsageJobData], with the fields the service reads. *)
Record ReportTokenUsageJobData := mkReport {
  d_uid : string;
  d_tier : string;
  d_inputTokens : Z;
  d_outputTokens : Z;
  d_skillId : string;
  d_timestamp : Z;
}.

(** The [customer.subscription.updated] event object. *)
Record StripeSubscription := mkStripeSub {
  ev_id : string;
  ev_status : string;
}.

Record World := mkWorld {
  users : list User;
  subscriptions : list SubscriptionModel;
  usageMeters : list UsageMeter;
  quotas : list SubscriptionUsageQuota;
  tokenUsages : list TokenUsage;
  logs : list (string * string);
  now : Z;
  fresh : N;
}.

Definition with_users (us : list User) (w : World) : World :=
  mkWorld us (subscriptions w) (usageMeters w) (quotas w) (tokenUsages w)
          (logs w) (now w) (fresh w).

Definition with_subscriptions (ss : list SubscriptionModel) (w : World) : World :=
  mkWorld (users w) ss (usageMeters w) (quotas w) (tokenUsages w)
          (logs w) (now w) (fresh w).

Definition with_usageMeters (ms : list UsageMeter) (w : World) : World :=
  mkWorld (users w) (subscriptions w) ms (quotas w) (tokenUsages w)
          (logs w) (now w) (fresh w).

Definition with_tokenUsages (ts : list TokenUsage) (w : World) : World :=
  mkWorld (users w) (subscriptions w) (usageMeters w) (quotas w) ts
          (logs w) (now w) (fresh w).

Definition with_logs (ls : list (string * string)) (w : World) : World :=
  mkWorld (users w) (subscriptions w) (usageMeters w) (quotas w)
          (tokenUsages w) ls (now w) (fresh w).

Definition with_fresh (n : N) (w : World) : World :=
  mkWorld (users w) (subscriptions w) (usageMeters w) (quotas w)
          (tokenUsages w) (logs w) (now w) n.

Definition logger (level msg : string) : M World unit :=
  modify (λ w, with_logs (logs w ++ [(level, msg)]) w).

(** [genUsageMeterID()] of [@refly/utils]: a fresh identifier. *)
Definition genUsageMeterID : M World string :=
  n ← gets fresh;
  _ ← modify (with_fresh (n + 1)%N);
  mret ("um-" +:+ pretty n).

Definition startOfDay (date : Z) : Z :=
  JSDate.make (JSDate.getFullYear date) (JSDate.getMonth date) (JSDate.getDate date).

(** *** Row updates *)

Definition set_subscriptionId (v : option string) (u : User) : User :=
  mkUser (u_uid u) v.

Definition set_status (v : string) (s : SubscriptionModel) : SubscriptionModel :=
  mkSub (s_subscriptionId s) (s_uid s) (s_planType s) (s_interval s)
        (s_lookupKey s) v.

Definition set_deletedAt (t : Z) (m : UsageMeter) : UsageMeter :=
  mkMeter (meterId m) (m_uid m) (m_subscriptionId m) (startAt m) (endAt m)
          (t1TokenQuota m) (t1TokenUsed m) (t2TokenQuota m) (t2TokenUsed m)
          (Some t).

(** [{ [tier === 't1' ? 't1TokenUsed' : 't2TokenUsed']: { increment: n } }] *)
Definition increment_used (tier : string) (n : Z) (m : UsageMeter) : UsageMeter :=
  if String.eqb tier "t1" then
    mkMeter (meterId m) (m_uid m) (m_subscriptionId m) (startAt m) (endAt m)
            (t1TokenQuota m) (t1TokenUsed m + n) (t2TokenQuota m) (t2TokenUsed m)
            (m_deletedAt m)
  else
    mkMeter (meterId m) (m_uid m) (m_subscriptionId m) (startAt m) (endAt m)
            (t1TokenQuota m) (t1TokenUsed m) (t2TokenQuota m) (t2TokenUsed m + n)
            (m_deletedAt m).

(** The [where] clause shared by [checkTokenUsage] and [updateTokenUsage]:
    [{ uid, startAt: { lte: t }, endAt: { gte: t }, deletedAt: null }]. *)
Definition meter_where (uid : string) (t : Z) (m : UsageMeter) : bool :=
  String.eqb (m_uid m) uid && (startAt m <=? t) && (endAt m >=? t) &&
  match m_deletedAt m with None => true | Some _ => false end.

(** *** The service methods *)

Definition getSubscription (subscriptionId : string) : M World (option SubscriptionModel) :=
  ss ← gets subscriptions;
  mret (find_first (λ s, String.eqb (s_subscriptionId s) subscriptionId) ss).

Definition createUsageMeter (user : User) (sub : option SubscriptionModel)
    (resumeLastMeter : bool) : M World UsageMeter :=
  let uid := u_uid user in
  let planType :=
    match sub with
    | Some s => JS.or_lit (s_planType s) "free"
    | None => "free"
    end in
  (* Find the token quota for the plan *)
  qs ← gets quotas;
  let tokenQuota := find_first (λ q, String.eqb (q_planType q) planType) qs in
  (* Try to find the last usage meter. If we find it, resume from there. *)
  t ← gets now;
  startAt ← (if resumeLastMeter then
               ms ← gets usageMeters;
               let lastMeter :=
                 head (order_desc startAt
                         (List.filter
                            (λ m, String.eqb (m_uid m) uid &&
                                  match m_deletedAt m with None => true | Some _ => false end)
                            ms)) in
               mret (match lastMeter with
                     | Some m => endAt m
                     | None => startOfDay t
                     end)
             else mret (startOfDay t));
  id ← genUsageMeterID;
  match sub with
  | None => throw (TypeError "Cannot read properties of null (reading 'subscriptionId')")
  | Some s =>
      let meter :=
        mkMeter id uid (Some (s_subscriptionId s)) startAt
                (JSDate.make (JSDate.getFullYear startAt) (JSDate.getMonth startAt + 1)
                             (JSDate.getDate startAt))
                (match tokenQuota with Some q => q_t1TokenQuota q | None => 0 end) 0
                (match tokenQuota with Some q => q_t2TokenQuota q | None => 0 end) 0
                None in
      _ ← modify (λ w, with_usageMeters (usageMeters w ++ [meter]) w);
      mret meter
  end.

Definition createSubscription (user : User) (param : CreateSubscriptionParam)
    : M World SubscriptionModel :=
  (* Check for existing subscription *)
  existing ← (match u_subscriptionId user with
              | Some sid =>
                  if String.eqb sid "" then mret None
                  else
                    subscription ← getSubscription sid;
                    match subscription with
                    | None => throw (TypeError "Cannot read properties of null (reading 'status')")
                    | Some s => mret (if String.eqb (s_status s) "active" then Some s else None)
                    end
              | None => mret None
              end);
  match existing with
  | Some s => mret s
  | None =>
      (* Create a new subscription if needed *)
      ss ← gets subscriptions;
      let sub := mkSub (sp_subscriptionId param) (u_uid user) (sp_planType param)
                       (sp_interval param) (sp_lookupKey param) (sp_status param) in
      _ ← (match find_first (λ s, String.eqb (s_subscriptionId s) (sp_subscriptionId param)) ss with
           | Some _ => throw (PrismaUniqueViolation "Subscription")
           | None => modify (with_subscriptions (ss ++ [sub]))
           end);
      (* Update user's subscriptionId *)
      us ← gets users;
      _ ← (match update_first (λ u, String.eqb (u_uid u) (u_uid user))
                   (set_subscriptionId (Some (s_subscriptionId sub))) us with
           | Some (_, us') => modify (with_users us')
           | None => throw (PrismaNotFound "User")
           end);
      (* Create a new usage meter for this plan *)
      _ ← createUsageMeter user (Some sub) false;
      mret sub
  end.

Definition postSubscriptionCanceled (sub : SubscriptionModel) : M World unit :=
  user ← transaction
           (w ← gets id;
            match update_first (λ u, String.eqb (u_uid u) (s_uid sub))
                    (set_subscriptionId None) (users w) with
            | None => throw (PrismaNotFound "User")
            | Some (user, us') =>
                _ ← modify (with_users us');
                _ ← modify (λ w', with_usageMeters
                                    (update_all
                                       (λ m, match m_subscriptionId m with
                                             | Some sid => String.eqb sid (s_subscriptionId sub)
                                             | None => false
                                             end)
                                       (set_deletedAt (now w)) (usageMeters w')) w');
                mret user
            end);
  (* Create a free usage meter for user *)
  _ ← createUsageMeter user None false;
  mret tt.

Definition handleSubscriptionUpdated (subscription : StripeSubscription) : M World unit :=
  _ ← logger "log" ("Subscription updated: " +:+ ev_id subscription);
  (* Update user's subscription status if needed *)
  ss ← gets subscriptions;
  match update_first (λ s, String.eqb (s_subscriptionId s) (ev_id subscription))
          (set_status (ev_status subscription)) ss with
  | None => throw (PrismaNotFound "Subscription")
  | Some (sub, ss') =>
      _ ← modify (with_subscriptions ss');
      if negb (String.eqb (s_status sub) "active") then postSubscriptionCanceled sub
      else mret tt
  end.

Definition checkTokenUsage (user : User) : M World (list string) :=
  let uid := u_uid user in
  w ← gets id;
  activeMeter ← (match find_first (meter_where uid (now w)) (usageMeters w) with
                 | Some m => mret m
                 | None =>
                     (* Compensate for the case where the usage meter is not found. *)
                     createUsageMeter user None true
                 end);
  mret ((if t1TokenUsed activeMeter <? t1TokenQuota activeMeter then ["t1"] else []) ++
        (if t2TokenUsed activeMeter <? t2TokenQuota activeMeter then ["t2"] else [])).

Definition updateTokenUsage (data : ReportTokenUsageJobData) : M World unit :=
  transaction
    (_ ← modify (λ w, with_tokenUsages
                        (tokenUsages w ++
                         [mkTokenUsage (d_uid data) (d_tier data) (d_inputTokens data)
                                       (d_outputTokens data) (d_skillId data)]) w);
     modify (λ w, with_usageMeters
                    (update_all (meter_where (d_uid data) (d_timestamp data))
                       (increment_used (d_tier data)
                          (d_inputTokens data + d_outputTokens data))
                       (usageMeters w)) w)).

End Subscription.

(** ** The checkout flow of the subscription service

    [createCheckoutSession] and the handlers of the provider's
    [checkout.session.completed] and [customer.subscription.created]
    events, over the tables of [Subscription] extended with the
    [checkoutSession] table. *)

Module Checkout.
Import Subscription.

(** A row of [checkoutSession]. *)
Record CheckoutSession := mkCheckout {
  cs_pk : Z;
  cs_uid : string;
  cs_sessionId : string;
  cs_lookupKey : string;
  cs_paymentStatus : option string;
  cs_subscriptionId : option string;
  cs_createdAt : Z;
}.

(** [Stripe.Checkout.Session], with the fields the service reads; the
    provider leaves the last three [null] when it has no value. *)
Record StripeSession := mkStripeSession {
  se_id : string;
  se_payment_status : string;
  se_client_reference_id : option string;
  se_customer : option string;
  se_subscription : option string;
}.

(** The collaborators. The provider answers a request, or rejects it,
    from the request itself and from the number of requests it has
    served; the database may reject the insert of a checkout row. The
    schema supplies the two columns [createCheckoutSession] leaves out. *)
Record Env := mkEnv {
  (* [stripeClient.prices.list({ lookup_keys: [lookupKey] })]: the ids of
      the prices found. *)
  prices_list : N → string → Exn + list string;
  (* [stripeClient.checkout.sessions.create] for a price and a client
      reference id. *)
  sessions_create : N → string → string → Exn + StripeSession;
  (* The error with which [prisma.checkoutSession.create] rejects a row,
      given the rows of the table. *)
  checkoutSession_create_fault : list CheckoutSession → CheckoutSession → option Exn;
  (* [getSubscriptionInfoFromLookupKey] of [@refly/utils]: the plan type
      and the interval of a lookup key, [None] for [undefined]. *)
  getSubscriptionInfoFromLookupKey : string → option (option string * option string);
  (* [JSON.stringify] of a session, for the log. *)
  stringify_session : StripeSession → string;
  default_paymentStatus : option string;
  default_subscriptionId : option string;
}.

(** The tables of [Subscription], the [checkoutSession] table, the
    [customerId] column of the user rows (kept by [uid], the unique key of
    the rows) and the number of requests sent to the provider. *)
Record World := mkWorld {
  base : Subscription.World;
  checkoutSessions : list CheckoutSession;
  customerIds : gmap string (option string);
  stripe_requests : N;
}.

Definition with_base (b : Subscription.World) (w : World) : World :=
  mkWorld b (checkoutSessions w) (customerIds w) (stripe_requests w).

Definition with_checkoutSessions (rows : list CheckoutSession) (w : World) : World :=
  mkWorld (base w) rows (customerIds w) (stripe_requests w).

Definition with_customerIds (m : gmap string (option string)) (w : World) : World :=
  mkWorld (base w) (checkoutSessions w) m (stripe_requests w).

Definition with_stripe_requests (n : N) (w : World) : World :=
  mkWorld (base w) (checkoutSessions w) (customerIds w) n.

(** A method of [Subscription] run on the tables it knows. *)
Definition lift_base {A} (c : M Subscription.World A) : M World A := λ w,
  let '(r, b) := c (base w) in (r, with_base b w).

Definition logger (level msg : string) : M World unit :=
  lift_base (Subscription.logger level msg).

(** The primary key the table generates for a new row. *)
Definition next_pk (rows : list CheckoutSession) : Z :=
  foldr (λ r acc, Z.max (cs_pk r + 1) acc) 1 rows.

(** [{ paymentStatus, subscriptionId }] *)
Definition set_payment (status : string) (subscriptionId : option string)
    (r : CheckoutSession) : CheckoutSession :=
  mkCheckout (cs_pk r) (cs_uid r) (cs_sessionId r) (cs_lookupKey r)
             (Some status) subscriptionId (cs_createdAt r).

(** [findFirst({ where, orderBy: { createdAt: 'desc' } })] *)
Definition latest (p : CheckoutSession → bool) (rows : list CheckoutSession)
    : option CheckoutSession :=
  head (order_desc cs_createdAt (List.filter p rows)).

Section Service.
Variable E : Env.

(** A request to the provider, which answers or rejects. *)
Definition stripe_request {A} (answer : N → Exn + A) : M World A :=
  n ← gets stripe_requests;
  _ ← modify (with_stripe_requests (n + 1)%N);
  lift_result (answer n).

(** The row is created from [uid], [sessionId] and [lookupKey]; the table
    supplies the primary key, the creation time and the two columns of the
    payment. Each of the three awaited calls may reject. *)
Definition createCheckoutSession (user : User) (lookupKey : string) : M World StripeSession :=
  let uid := u_uid user in
  prices ← stripe_request (λ n, prices_list E n lookupKey);
  match prices with
  | [] => throw (BadRequestException ("No prices found for lookup key: " +:+ lookupKey))
  | price :: _ =>
      session ← stripe_request (λ n, sessions_create E n price uid);
      rows ← gets checkoutSessions;
      t ← lift_base (gets now);
      let row := mkCheckout (next_pk rows) uid (se_id session) lookupKey
                            (default_paymentStatus E) (default_subscriptionId E) t in
      match checkoutSession_create_fault E rows row with
      | Some e => throw e
      | None =>
          _ ← modify (with_checkoutSessions (rows ++ [row]));
          mret session
      end
  end.

Definition handleCheckoutSessionCompleted (session : StripeSession) : M World unit :=
  _ ← logger "log" ("Checkout session completed: " +:+ stringify_session E session);
  if negb (String.eqb (se_payment_status session) "paid") then
    logger "warn" ("Checkout session " +:+ se_id session +:+ " not paid")
  else
    let uid := se_client_reference_id session in
    let customerId := se_customer session in
    rows ← gets checkoutSessions;
    match latest (λ r, String.eqb (cs_sessionId r) (se_id session)) rows with
    | None => logger "error" ("No checkout session found for session " +:+ se_id session)
    | Some checkoutSession =>
        match uid with
        | Some uid' =>
            if negb (String.eqb (cs_uid checkoutSession) uid') then
              logger "error" ("Checkout session " +:+ se_id session +:+
                              " does not match user " +:+ uid')
            else
              _ ← (match update_first (λ r, cs_pk r =? cs_pk checkoutSession)
                           (set_payment (se_payment_status session) (se_subscription session))
                           rows with
                   | Some (_, rows') => modify (with_checkoutSessions rows')
                   | None => throw (PrismaNotFound "CheckoutSession")
                   end);
              if negb (String.eqb (se_payment_status session) "paid") then
                logger "log" ("Checkout session " +:+ se_id session +:+ " is not paid")
              else
                us ← lift_base (gets users);
                _ ← (match find_first (λ u, String.eqb (u_uid u) uid') us with
                     | Some _ => modify (λ w, with_customerIds
                                                (<[uid' := customerId]> (customerIds w)) w)
                     | None => throw (PrismaNotFound "User")
                     end);
                logger "log" ("Successfully processed checkout session " +:+ se_id session +:+
                              " for user " +:+ uid')
        | None =>
            logger "error" ("Checkout session " +:+ se_id session +:+
                            " does not match user null")
        end
    end.

Definition handleSubscriptionCreated (subscription : StripeSubscription) : M World unit :=
  _ ← logger "log" ("New subscription created: " +:+ ev_id subscription);
  rows ← gets checkoutSessions;
  match latest (λ r, bool_decide (cs_subscriptionId r = Some (ev_id subscription)) &&
                     bool_decide (cs_paymentStatus r = Some "paid")) rows with
  | None => logger "error" ("No checkout session found for subscription " +:+
                            ev_id subscription)
  | Some checkoutSession =>
      let uid := cs_uid checkoutSession in
      match getSubscriptionInfoFromLookupKey E (cs_lookupKey checkoutSession) with
      | None => throw (TypeError "Cannot destructure property 'planType' of undefined")
      | Some (planType, interval) =>
          us ← lift_base (gets users);
          match find_first (λ u, String.eqb (u_uid u) uid) us with
          | None => logger "error" ("No user found for uid " +:+ uid)
          | Some user =>
              plan ← lift_base
                       (createSubscription user
                          (mkSubParam (ev_id subscription) planType interval
                                      (cs_lookupKey checkoutSession) (ev_status subscription)));
              logger "log" ("Subscription " +:+ s_subscriptionId plan +:+
                            " created for user " +:+ uid)
          end
      end
  end.

End Service.

End Checkout.

(** ** Sample worlds for the knowledge service *)

Module KnowledgeSamples.
Import Knowledge.

(** A stand-in for the word counter: the number of space-separated words. *)
Fixpoint count_words_from (in_word : bool) (s : string) : Z :=
  match s with
  | EmptyString => 0
  | String c s' =>
      if Ascii.eqb c " "%char then count_words_from false s'
      else (if in_word then 0 else 1) + count_words_from true s'
  end.

Definition count_words (s : string) : Z := count_words_from false s.

(** Every collaborator answers. *)
Definition env_ok : Env :=
  mkEnv (λ n, "r-" +:+ pretty n) (λ n, "c-" +:+ pretty n)
        (λ _, inr ("Example Domain", Some "Example"))
        (λ _ _, None)
        (λ doc, inr [pageContent doc])
        (λ _ _, None) (λ _ _, None)
        (λ s, s) count_words.

(** The remote reader rejects. *)
Definition env_crawl_fails : Env :=
  mkEnv (genResourceID env_ok) (genCollectionID env_ok)
        (λ _, inl "reader timeout")
        (λ _ _, None)
        (indexContent env_ok)
        (λ _ _, None) (λ _ _, None)
        (λ s, s) count_words.

(** The vector store rejects the chunks after they were produced. *)
Definition env_save_fails : Env :=
  mkEnv (genResourceID env_ok) (genCollectionID env_ok)
        (crawlFromRemoteReader env_ok)
        (λ _ _, None)
        (indexContent env_ok)
        (λ _ _, Some "vector store unavailable") (λ _ _, None)
        (λ s, s) count_words.

Definition alice : User := mkUser 1 "u-alice".
Definition bob : User := mkUser 2 "u-bob".

Definition example_meta : ResourceMeta :=
  mkMeta (Some "https://example.com") None None None.

(** A weblink just created by alice, and an older one she deleted. *)
Definition row_r1 : Resource :=
  mkResource "r-1" "weblink" (Some example_meta) None 1 None (Some true)
             "Untitled" processing None None 100.

Definition row_r2 : Resource :=
  mkResource "r-2" "note" None (Some "resource/r-2") 1 None (Some false)
             "Old note" finish (Some 2) (Some 50) 50.

Definition coll_c1 : Collection :=
  mkCollection "c-1" 1 (Some "Reading list") None (Some false) None 100.

Definition world0 : World :=
  mkWorld [alice; bob] [row_r1; row_r2] [coll_c1]
          [("c-1", "r-1"); ("c-1", "r-2")] []
          {["resource/r-2" := "an old note"]} [] [] 1000 3.

(** The queue payload of [row_r1]. *)
Definition param_r1 : UpsertResourceRequest :=
  mkParam (Some "r-1") "weblink" (Some "c-1") None None (Some example_meta)
          None None None (Some true).

Definition job_r1 : FinalizeResourceParam := mkJob param_r1 1.

(** The same payload carrying the id of a user that does not exist. *)
Definition job_unknown_user : FinalizeResourceParam := mkJob param_r1 99.

(** A weblink request with a data object but neither url nor linkId. *)
Definition param_no_url : UpsertResourceRequest :=
  mkParam None "weblink" None None None (Some (mkMeta None None (Some "t") None))
          None None None None.

(** bob renames and publishes alice's collection. *)
Definition bob_takes_c1 : UpsertCollectionRequest :=
  mkCollParam (Some "c-1") (Some "taken over") None (Some true).

End KnowledgeSamples.

(** ** Sample worlds for the subscription service *)

Module SubscriptionSamples.
Import Subscription.

(** 2024-03-01T00:00:00Z and 2024-04-01T00:00:00Z *)
Definition mar_1 : Z := 1709251200000.
Definition apr_1 : Z := 1711929600000.

Definition carol : User := mkUser "u-carol" (Some "sub_1").
Definition dave : User := mkUser "u-dave" None.

Definition sub_1 : SubscriptionModel :=
  mkSub "sub_1" "u-carol" (Some "pro") (Some "monthly") "refly_pro_monthly" "active".

(** carol's meter for March, one token short of the t1 quota. *)
Definition meter_march : UsageMeter :=
  mkMeter "um-0" "u-carol" (Some "sub_1") mar_1 apr_1 1000 999 5000 0 None.

Definition free_quota : SubscriptionUsageQuota := mkQuota "free" 100 500.
Definition pro_quota : SubscriptionUsageQuota := mkQuota "pro" 1000 5000.

(** 2024-03-15T12:00:00Z *)
Definition world_mid_march : World :=
  mkWorld [carol; dave] [sub_1] [meter_march] [free_quota; pro_quota] [] []
          1710504000000 1.

(** The same tables at the very instant the meter ends. *)
Definition world_at_end : World :=
  mkWorld [carol; dave] [sub_1] [meter_march] [free_quota; pro_quota] [] []
          apr_1 1.

Definition canceled_event : StripeSubscription := mkStripeSub "sub_1" "canceled".

(** One t1 token reported by carol in mid March. *)
Definition one_token : ReportTokenUsageJobData :=
  mkReport "u-carol" "t1" 1 0 "skill-1" 1710504000000.

(** One t1 token reported with the timestamp at which the meter ends. *)
Definition one_token_at_end : ReportTokenUsageJobData :=
  mkReport "u-carol" "t1" 1 0 "skill-1" apr_1.

End SubscriptionSamples.

(** ** Sample worlds for the checkout flow *)

Module CheckoutSamples.
Import Subscription SubscriptionSamples Checkout.

(** A provider that knows one price and numbers its sessions by request. *)
Definition stripe : Env :=
  mkEnv (λ _ key, inr (if String.eqb key "refly_pro_monthly" then ["price_pro"] else []))
        (λ n _ uid, inr (mkStripeSession ("cs_" +:+ pretty n) "unpaid" (Some uid) None None))
        (λ _ _, None)
        (λ key, if String.eqb key "refly_pro_monthly"
                then Some (Some "pro", Some "monthly") else None)
        se_id None None.

(** The tables of mid March before any checkout. *)
Definition shop0 : World := mkWorld world_mid_march [] ∅ 0.

(** dave's checkout, not yet confirmed by the provider. *)
Definition checkout_dave : CheckoutSession :=
  mkCheckout 1 "u-dave" "cs_1" "refly_pro_monthly" None None 1710504000000.

Definition shop_open : World := mkWorld world_mid_march [checkout_dave] ∅ 2.

(** The same checkout after the provider confirmed the payment. *)
Definition shop_paid : World :=
  mkWorld world_mid_march [set_payment "paid" (Some "sub_2") checkout_dave] ∅ 2.

(** A checkout of a user that has no row. *)
Definition shop_stranger : World :=
  mkWorld world_mid_march
          [mkCheckout 1 "u-erin" "cs_1" "refly_pro_monthly" None None 1710504000000] ∅ 2.

Definition paid_event : StripeSession :=
  mkStripeSession "cs_1" "paid" (Some "u-dave") (Some "cus_9") (Some "sub_2").

Definition paid_event_erin : StripeSession :=
  mkStripeSession "cs_1" "paid" (Some "u-erin") (Some "cus_7") (Some "sub_3").

Definition unpaid_event : StripeSession :=
  mkStripeSession "cs_1" "unpaid" (Some "u-dave") None None.

Definition created_active : StripeSubscription := mkStripeSub "sub_2" "active".
Definition created_incomplete : StripeSubscription := mkStripeSub "sub_2" "incomplete".

End CheckoutSamples.

(** ** Facts about the JavaScript helpers, the monad and the queries *)

Module JSFacts.
Import JS.

Lemma truthy_or a b : truthy a = true → or a b = a.
Proof. unfold or. by intros ->. Qed.

Lemma falsy_or a b : truthy a = false → or a b = b.
Proof. unfold or. by intros ->. Qed.

Lemma or_truthy_cases a b :
  truthy (or a b) = true → or a b = a ∧ truthy a = true ∨ or a b = b ∧ truthy b = true.
Proof.
  unfold or. destruct (truthy a) eqn:Ha; intros H; [left|right]; done.
Qed.

End JSFacts.

Section MonadFacts.
Context {S A B : Type}.

Lemma bind_inr (m : M S A) (f : A → M S B) s a s' :
  m s = (inr a, s') → (m ≫= f) s = f a s'.
Proof. unfold mbind, M_bind. by intros ->. Qed.

Lemma bind_inl (m : M S A) (f : A → M S B) s e s' :
  m s = (inl e, s') → (m ≫= f) s = (inl e, s').
Proof. unfold mbind, M_bind. by intros ->. Qed.

(** A run is determined by its two components; concrete runs are
    evaluated component by component. *)
Lemma run_eq (x : (Exn + A) * S) r : x.1 = r → x = (r, x.2).
Proof. destruct x. simpl. by intros ->. Qed.

(** Inversion of a bind that returned. *)
Lemma bind_ok_inv (m : M S A) (f : A → M S B) s b s2 :
  (m ≫= f) s = (inr b, s2) →
  ∃ a s1, m s = (inr a, s1) ∧ f a s1 = (inr b, s2).
Proof.
  unfold mbind, M_bind. destruct (m s) as [[e|a] s1]; [done|]. eauto.
Qed.

(** Inversion of a bind that threw. *)
Lemma bind_err_inv (m : M S A) (f : A → M S B) s e s2 :
  (m ≫= f) s = (inl e, s2) →
  m s = (inl e, s2) ∨ ∃ a s1, m s = (inr a, s1) ∧ f a s1 = (inl e, s2).
Proof.
  unfold mbind, M_bind. destruct (m s) as [[e'|a] s1]; intros H.
  - left. by simplify_eq.
  - right. eauto.
Qed.
End MonadFacts.

Section QueryFacts.
Context {A : Type}.

Lemma update_first_None (p : A → bool) f l :
  update_first p f l = None ↔ find_first p l = None.
Proof.
  induction l as [|x l IH]; simpl; [done|].
  destruct (p x); [done|].
  destruct (update_first p f l) as [[y l'']|].
  - split; [done|]. intros H. by apply IH in H.
  - split; [|done]. intros _. by apply IH.
Qed.

Lemma update_first_Some (p : A → bool) f l y l' :
  update_first p f l = Some (y, l') →
  ∃ x, find_first p l = Some x ∧ y = f x ∧ length l' = length l.
Proof.
  revert l'. induction l as [|x l IH]; simpl; intros l' H; [done|].
  destruct (p x).
  - inversion H; subst. eauto.
  - destruct (update_first p f l) as [[z l'']|] eqn:E; [|done].
    inversion H; subst. destruct (IH _ eq_refl) as (x0 & ? & ? & ?).
    exists x0. simpl. by repeat split; [ | |f_equal].
Qed.

Lemma update_first_found (p : A → bool) f l x :
  find_first p l = Some x → ∃ l', update_first p f l = Some (f x, l').
Proof.
  intros Hx. destruct (update_first p f l) as [[y l']|] eqn:Eu.
  - apply update_first_Some in Eu as (x' & Hx' & -> & _).
    rewrite Hx in Hx'. simplify_eq. eauto.
  - apply update_first_None in Eu. congruence.
Qed.

Lemma update_first_find (p : A → bool) f l y l' :
  (∀ x, p (f x) = p x) →
  update_first p f l = Some (y, l') →
  find_first p l' = Some y ∧ ∃ x, find_first p l = Some x ∧ y = f x.
Proof.
  intros Hp. revert l'. induction l as [|x l IH]; simpl; intros l' H; [done|].
  destruct (p x) eqn:Px.
  - inversion H; subst. simpl. rewrite Hp, Px. eauto.
  - destruct (update_first p f l) as [[z l'']|] eqn:E; [|done].
    inversion H; subst. simpl. rewrite Px. by apply IH.
Qed.

Lemma find_first_update_all_pres (p q : A → bool) f l :
  (∀ x, p (f x) = p x) →
  find_first p (update_all q f l) =
    (λ x, if q x then f x else x) <$> find_first p l.
Proof.
  intros Hp. induction l as [|x l IH]; simpl; [done|].
  destruct (q x) eqn:Q.
  - rewrite Hp. destruct (p x); [simpl; by rewrite Q|done].
  - destruct (p x); [simpl; by rewrite Q|done].
Qed.

Lemma update_first_ext (p q : A → bool) f l :
  (∀ x, p x = q x) → update_first p f l = update_first q f l.
Proof.
  intros Hpq. induction l as [|x l IH]; simpl; [done|]. by rewrite Hpq, IH.
Qed.

(** [orderBy ... desc] sorts, and returns the rows it was given. *)
Lemma insert_desc_perm (key : A → Z) x l : insert_desc key x l ≡ₚ x :: l.
Proof.
  induction l as [|y l IH]; simpl; [done|].
  destruct (key y <=? key x); [done|].
  rewrite IH. apply Permutation_swap.
Qed.

Lemma order_desc_perm (key : A → Z) l : order_desc key l ≡ₚ l.
Proof.
  induction l as [|x l IH]; simpl; [done|].
  rewrite insert_desc_perm. by rewrite IH.
Qed.

Lemma insert_desc_sorted (key : A → Z) x l :
  StronglySorted (λ a b, key b ≤ key a) l →
  StronglySorted (λ a b, key b ≤ key a) (insert_desc key x l).
Proof.
  induction l as [|y l IH]; simpl; intros Hs.
  - by repeat constructor.
  - apply StronglySorted_inv in Hs as [Hs Hy].
    destruct (key y <=? key x) eqn:E.
    + apply Z.leb_le in E. constructor; [by constructor|].
      constructor; [done|]. eapply Forall_impl; [exact Hy|]. simpl. intros; lia.
    + apply Z.leb_gt in E. constructor; [by apply IH|].
      rewrite insert_desc_perm. constructor; [lia|done].
Qed.

Lemma order_desc_sorted (key : A → Z) l :
  StronglySorted (λ a b, key b ≤ key a) (order_desc key l).
Proof.
  induction l as [|x l IH]; simpl; [constructor|]. by apply insert_desc_sorted.
Qed.

(** A page of a forward query. *)
Lemma paginate_page (page pageSize : Z) (l : list A) :
  1 ≤ page → 0 ≤ pageSize →
  paginate ((page - 1) * pageSize) pageSize l
  = inr (take (Z.to_nat pageSize) (drop (Z.to_nat ((page - 1) * pageSize)) l)).
Proof.
  intros Hp Hs. unfold paginate.
  assert (((page - 1) * pageSize <? 0) = false) as -> by (apply Z.ltb_ge; nia).
  assert ((0 <=? pageSize) = true) as -> by (by apply Z.leb_le).
  done.
Qed.
End QueryFacts.

(** ** Properties of the knowledge service *)

Module KnowledgeSpec.
Import Knowledge KnowledgeSamples.

Definition is_log (ev : Event) : bool :=
  match ev with EvLog _ _ => true | _ => false end.

Ltac run_in H :=
  repeat (unfold mbind, mret, M_bind, M_ret, next_id, gets, modify, throw,
          logger, emit, lift_result, try_catch in H; simpl in H).

Ltac frame_tac :=
  repeat split; simpl; rewrite <- ?app_assoc; try reflexivity; try done.

Ltac run :=
  repeat (unfold mbind, mret, M_bind, M_ret, next_id, gets, modify, throw,
          logger, emit, lift_result, try_catch; simpl).

(** The storage key an ingestion run resolves before it touches the
    blob store: the parsed document of a known prior crawl, else the key
    of the request or of its data object. *)
Definition resolved_storageKey (w : World) (param : UpsertResourceRequest)
    (data : ResourceMeta) : option string :=
  let sk := JS.or (p_storageKey param) (m_storageKey data) in
  if JS.truthy (m_linkId data) then
    match find_first (λ wl, String.eqb (wl_linkId wl) (default "" (m_linkId data)))
            (weblinks w) with
    | Some weblink => wl_parsedDocStorageKey weblink
    | None => sk
    end
  else sk.

(** *** The four stages of [indexResource] *)

Section Stages.
Variable E : Env.
Variable user : User.
Variable param : UpsertResourceRequest.
Variable data : ResourceMeta.

(** [param.storageKey ||= storageKey; param.content ||= ''] and the
    lookup of the prior crawl. *)
Definition stage_link : M World UpsertResourceRequest :=
  let param := set_storageKey (JS.or (p_storageKey param) (m_storageKey data)) param in
  let param := set_content (Some (JS.or_lit (p_content param) "")) param in
  if JS.truthy (m_linkId data) then
    wls ← gets weblinks;
    match find_first (λ wl, String.eqb (wl_linkId wl) (default "" (m_linkId data))) wls with
    | None =>
        _ ← logger "warn" ("weblink not found for linkId: " +:+ default "" (m_linkId data)
                           +:+ ", fallback to server crawl");
        mret param
    | Some weblink => mret (set_storageKey (wl_parsedDocStorageKey weblink) param)
    end
  else mret param.

(** Download of the stored document, or crawl and upload. *)
Definition stage_content (p0 : UpsertResourceRequest) : M World UpsertResourceRequest :=
  if JS.truthy (p_storageKey p0) then
    content ← minio_downloadData (default "" (p_storageKey p0));
    mret (set_content (Some content) p0)
  else
    p ← (if negb (JS.truthy (p_content p0)) && JS.truthy (m_url data) then
           d ← rag_crawlFromRemoteReader E (default "" (m_url data));
           mret (set_title (JS.or (p_title p0) (snd d)) (set_content (Some (fst d)) p0))
         else mret p0);
    let p := set_storageKey (Some ("resource/" +:+ JS.interp (p_resourceId param))) p in
    _ ← minio_uploadData E (p_storageKey p) (default "" (p_content p));
    _ ← logger "log" ("upload resource " +:+ JS.interp (p_storageKey p) +:+ " success");
    mret p.

(** Submission of the chunks to the indexing interface. *)
Definition stage_index (p1 : UpsertResourceRequest) : M World unit :=
  if JS.truthy (p_content p1) then
    chunks ← rag_indexContent E
               (mkDoc (cleanMarkdownForIngest E (default "" (p_content p1)))
                      (m_url data) (m_title data) (p_collectionId param)
                      (p_resourceId param));
    rag_saveDataForUser E user chunks
  else mret tt.

Definition finish_update (p1 : UpsertResourceRequest) : ResourceUpdateInput :=
  mkUpdate None None None
    (Some (mkMeta (m_url data) None (p_title p1) (p_storageKey p1)))
    (p_storageKey p1)
    (Some (readingTime_words E (default "" (p_content p1))))
    (Some finish) None.

Definition finish_log : Event :=
  EvLog "log" ("save resource segments for user " +:+ u_uid user
               +:+ " success, resourceId: " +:+ JS.interp (p_resourceId param)).

(** The closing log line and the single update of the row. *)
Definition stage_finish (p1 : UpsertResourceRequest) : M World unit :=
  _ ← emit finish_log;
  _ ← prisma_resource_update (p_resourceId param) (Some (u_id user)) (finish_update p1);
  mret tt.
End Stages.

(** A stage that leaves the tables alone and only adds [evs] to the trace. *)
Definition frame (w w' : World) (evs : list Event) : Prop :=
  users w' = users w ∧ resources w' = resources w ∧ now w' = now w ∧
  trace w' = trace w ++ evs ∧ resource_updates evs = [].

(** Errors raised while the content is being resolved, before anything
    is handed to the indexing interface. *)
Definition resolution_error (e : Exn) : bool :=
  match e with
  | TypeError _ | MinioError _ | CrawlError _ => true
  | _ => false
  end.

(** The update issued by the catch block of [finalizeResource]. *)
Definition failed_update : ResourceUpdateInput :=
  mkUpdate None None None None None None (Some failed) None.

(** The [where] clause of [listCollections]. *)
Definition owned_live_collection (user : User) (c : Collection) : bool :=
  (c_userId c =? u_id user) && not_deleted c_deletedAt c.

(** *** Creation *)

(** C3. A weblink resource whose request carries neither a url nor a
    linkId (both absent, or the data object itself absent) is rejected
    by [createResource] with a BadRequestException; no resource row,
    collection row or link is written and no job is put on the queue:
    the only calls made are log lines. *)
Theorem createResource_weblink_without_url_or_linkId
    (E : Env) (user : User) (param : UpsertResourceRequest) (w : World) :
  p_resourceType param = "weblink" →
  (∀ d, p_data param = Some d →
        JS.truthy (m_url d) = false ∧ JS.truthy (m_linkId d) = false) →
  ∃ msg w' logs,
    createResource E user param w = (inl (BadRequestException msg), w') ∧
    is_validation_error (BadRequestException msg) = true ∧
    resources w' = resources w ∧
    collections w' = collections w ∧
    links w' = links w ∧
    blobs w' = blobs w ∧
    queue w' = queue w ∧
    trace w' = trace w ++ logs ∧
    forallb is_log logs = true.
Proof.
  intros Hty Hdata. unfold createResource. run.
  destruct (JS.truthy (p_collectionId param)) eqn:Hc; run; rewrite Hty; run.
  all: destruct (p_readOnly param) eqn:Hro; run; rewrite Hty; run.
  all: destruct (p_data param) as [d|] eqn:Hd; run;
    [destruct (Hdata d eq_refl) as [-> ->]; run|].
  all: eexists _, _, _; repeat split; try reflexivity; simpl.
  all: try (symmetry; apply app_nil_r); reflexivity.
Qed.

Lemma createResource_weblink_without_url_or_linkId_witness :
  p_resourceType param_no_url = "weblink" ∧
  ∃ msg w',
    createResource env_ok alice param_no_url world0 = (inl (BadRequestException msg), w') ∧
    resources w' = resources world0 ∧ queue w' = queue world0.
Proof.
  split; [reflexivity|].
  destruct (createResource_weblink_without_url_or_linkId env_ok alice param_no_url world0)
    as (msg & w' & logs & Hrun & _ & Hres & _ & _ & _ & Hq & _).
  - reflexivity.
  - intros d [= <-]. split; reflexivity.
  - exists msg, w'. auto.
Defined.

Lemma resource_where_apply_update rid uid t d r :
  resource_where rid uid (apply_update t d r) = resource_where rid uid r.
Proof. done. Qed.

Lemma indexResource_stages E user param data :
  p_data param = Some data →
  indexResource E user param =
    (p0 ← stage_link param data;
     p1 ← stage_content E param data p0;
     _ ← stage_index E user param data p1;
     stage_finish E user param data p1).
Proof. intros Hd. unfold indexResource. by rewrite Hd. Qed.

Lemma frame_refl w : frame w w [].
Proof. unfold frame. by rewrite app_nil_r. Qed.

Lemma frame_trans w0 w1 w2 evs1 evs2 :
  frame w0 w1 evs1 → frame w1 w2 evs2 → frame w0 w2 (evs1 ++ evs2).
Proof.
  intros (Hu1 & Hr1 & Hn1 & Ht1 & Hp1) (Hu2 & Hr2 & Hn2 & Ht2 & Hp2).
  unfold frame, resource_updates in *.
  rewrite Hu2, Hr2, Hn2, Ht2, Ht1, List.filter_app, Hp1, Hp2, app_assoc. done.
Qed.

Lemma index_events_app evs1 evs2 :
  index_events (evs1 ++ evs2) = index_events evs1 ++ index_events evs2.
Proof. apply List.filter_app. Qed.

(** The first stage always returns: a missing prior crawl is only logged. *)
Lemma stage_link_spec param data w :
  ∃ p0 w0 evs,
    stage_link param data w = (inr p0, w0) ∧
    p_storageKey p0 = resolved_storageKey w param data ∧
    is_Some (p_content p0) ∧
    frame w w0 evs ∧ blobs w0 = blobs w ∧ index_events evs = [].
Proof.
  unfold stage_link, resolved_storageKey.
  destruct (JS.truthy (m_linkId data)); run.
  - destruct (find_first _ (weblinks w)); run.
    + eexists _, _, []. repeat split; eauto using frame_refl. apply frame_refl.
    + eexists _, _, [_]. repeat split; eauto.
  - eexists _, _, []. repeat split; eauto. apply frame_refl.
Qed.

Lemma stage_content_spec E param data p0 w0 :
  is_Some (p_content p0) →
  match stage_content E param data p0 w0 with
  | (inr p1, w1) =>
      ∃ key content evs,
        p_storageKey p1 = Some key ∧ p_content p1 = Some content ∧
        blobs w1 !! key = Some content ∧
        (if JS.truthy (p_storageKey p0)
         then p_storageKey p0 = Some key ∧ blobs w1 = blobs w0
         else key = "resource/" +:+ JS.interp (p_resourceId param) ∧
              blobs w1 = <[key := content]> (blobs w0)) ∧
        frame w0 w1 evs ∧ index_events evs = []
  | (inl err, w1) =>
      resolution_error err = true ∧
      ∃ evs, frame w0 w1 evs ∧ index_events evs = [] ∧ blobs w1 = blobs w0
  end.
Proof.
  intros [c0 Hc0]. unfold stage_content.
  destruct (JS.truthy (p_storageKey p0)) eqn:Tsk.
  - destruct (p_storageKey p0) as [k|] eqn:Ek; [|done].
    unfold minio_downloadData. run.
    destruct (blobs w0 !! k) as [c|] eqn:Eb; run.
    + exists k, c, [EvDownload k]. frame_tac.
    + split; [done|]. exists [EvDownload k]. frame_tac.
  - rewrite Hc0.
    destruct (negb (JS.truthy (Some c0)) && JS.truthy (m_url data)).
    + unfold rag_crawlFromRemoteReader, minio_uploadData. run.
      destruct (crawlFromRemoteReader E _) as [msg|[c t]]; run.
      * split; [done|]. eexists [_]. frame_tac.
      * destruct (uploadData_fault E _ c); run.
        -- split; [done|]. eexists [_; _]. frame_tac.
        -- eexists _, c, [_; _; _]. frame_tac. apply lookup_insert_eq.
    + unfold minio_uploadData. run. rewrite Hc0. simpl.
      destruct (uploadData_fault E _ c0); run.
      * split; [done|]. eexists [_]. frame_tac.
      * eexists _, c0, [_; _]. frame_tac. apply lookup_insert_eq.
Qed.

Lemma stage_index_spec E user param data p1 w1 :
  ∃ r w2 evs,
    stage_index E user param data p1 w1 = (r, w2) ∧
    frame w1 w2 evs ∧ blobs w2 = blobs w1 ∧
    match r with
    | inr _ => True
    | inl err => resolution_error err = false ∧ index_events evs ≠ []
    end.
Proof.
  unfold stage_index. destruct (JS.truthy (p_content p1)).
  - unfold rag_indexContent, rag_saveDataForUser. run.
    destruct (indexContent E _) as [msg|chunks]; run.
    + eexists _, _, [_]. frame_tac.
    + destruct (saveDataForUser_fault E _ _); run.
      * eexists _, _, [_; _]. frame_tac.
      * eexists _, _, [_; _]. frame_tac.
  - run. eexists _, _, []. frame_tac. by rewrite app_nil_r.
Qed.

(** [prisma.resource.update] either updates the first matching row or
    rejects, leaving the table as it is; the call is traced either way. *)
Lemma prisma_resource_update_spec rid uid d w :
  match prisma_resource_update rid uid d w with
  | (inr row, w') =>
      ∃ rid' old,
        rid = Some rid' ∧
        find_first (resource_where rid' uid) (resources w) = Some old ∧
        row = apply_update (now w) d old ∧
        find_first (resource_where rid' uid) (resources w') = Some row ∧
        w' = with_resources (resources w') (with_trace (trace w ++ [EvResourceUpdate rid uid d]) w)
  | (inl err, w') =>
      resolution_error err = false ∧
      w' = with_trace (trace w ++ [EvResourceUpdate rid uid d]) w ∧
      match rid with
      | Some rid' => find_first (resource_where rid' uid) (resources w) = None
      | None => True
      end
  end.
Proof.
  unfold prisma_resource_update. run. destruct rid as [rid'|]; run; [|done].
  destruct (update_first _ _ (resources w)) as [[row rs]|] eqn:Eu; run.
  - apply update_first_find in Eu as (Hf & x & Hx & ->);
      [|by intros; apply resource_where_apply_update].
    by exists rid', x.
  - apply update_first_None in Eu. done.
Qed.

(** C1. When [indexResource] returns, the trace of the run holds exactly
    one resource update; it sets storageKey, wordCount, indexStatus =
    finish and the meta object {url, title, storageKey}. The key written
    to the column and to meta.storageKey is the key under which the blob
    store holds the content whose words were counted: the resolved key
    when there is one (the store is then untouched), and otherwise
    resource/<resourceId>, where the content was just uploaded. The row
    of that resource and user carries these values afterwards. *)
Theorem indexResource_finish
    (E : Env) (user : User) (param : UpsertResourceRequest) (w w' : World) :
  indexResource E user param w = (inr tt, w') →
  ∃ data rid key content title evs row,
    p_data param = Some data ∧
    p_resourceId param = Some rid ∧
    trace w' = trace w ++ evs ∧
    resource_updates evs =
      [EvResourceUpdate (Some rid) (Some (u_id user))
         (mkUpdate None None None
            (Some (mkMeta (m_url data) None title (Some key)))
            (Some key) (Some (readingTime_words E content)) (Some finish) None)] ∧
    blobs w' !! key = Some content ∧
    (if JS.truthy (resolved_storageKey w param data)
     then resolved_storageKey w param data = Some key ∧ blobs w' = blobs w
     else key = "resource/" +:+ rid ∧ blobs w' = <[key := content]> (blobs w)) ∧
    find_first (resource_where rid (Some (u_id user))) (resources w') = Some row ∧
    r_indexStatus row = finish ∧
    r_storageKey row = Some key ∧
    r_wordCount row = Some (readingTime_words E content) ∧
    r_meta row = Some (mkMeta (m_url data) None title (Some key)).
Proof.
  intros H.
  destruct (p_data param) as [data|] eqn:Hd; [|by unfold indexResource in H; rewrite Hd in H].
  rewrite (indexResource_stages E user param data Hd) in H.
  destruct (stage_link_spec param data w) as (p0 & w0 & evs0 & H0 & Hsk & Hc0 & F0 & Hb0 & _).
  rewrite (bind_inr _ _ _ _ _ H0) in H.
  apply bind_ok_inv in H as (p1 & w1 & H1 & H).
  pose proof (stage_content_spec E param data p0 w0 Hc0) as S1. rewrite H1 in S1.
  destruct S1 as (key & content & evs1 & Ek & Ec & Hbk & Hres & F1 & _).
  apply bind_ok_inv in H as ([] & w2 & H2 & H).
  destruct (stage_index_spec E user param data p1 w1) as (r & w2' & evs2 & H2' & F2 & Hb2 & _).
  rewrite H2 in H2'. simplify_eq.
  unfold stage_finish in H. run_in H.
  pose proof (prisma_resource_update_spec (p_resourceId param) (Some (u_id user))
                (finish_update E data p1) (with_trace (trace w2' ++ [finish_log user param]) w2')) as S3.
  unfold mbind, M_bind in H.
  destruct (prisma_resource_update _ _ _ _) as [[e|row] w3]; [done|]. simplify_eq.
  destruct S3 as (rid & old & Erid & _ & Hrow & Hfind & Hw').
  pose proof (frame_trans _ _ _ _ _ (frame_trans _ _ _ _ _ F0 F1) F2) as (_ & _ & _ & Ht & Hu).
  unfold finish_update in *. rewrite Ek, Ec in *. simpl in *.
  exists data, rid, key, content, (p_title p1),
    ((evs0 ++ evs1) ++ evs2 ++
     [finish_log user param;
      EvResourceUpdate (Some rid) (Some (u_id user))
        (mkUpdate None None None
           (Some (mkMeta (m_url data) None (p_title p1) (Some key)))
           (Some key) (Some (readingTime_words E content)) (Some finish) None)]), row.
  rewrite Hw'. simpl. rewrite Erid in *. simpl in *.
  split; [done|]. split; [done|]. split; [by rewrite Ht, <- !app_assoc|].
  split.
  { unfold resource_updates in *. rewrite app_assoc, List.filter_app, Hu. done. }
  rewrite Hb2. split; [done|]. rewrite <- Hsk, <- Hb0. split; [done|].
  split; [done|]. by rewrite Hrow.
Qed.

Lemma indexResource_finish_witness :
  let w1 := (indexResource env_ok alice param_r1 world0).2 in
  indexResource env_ok alice param_r1 world0 = (inr tt, w1) ∧
  ∃ row,
    find_first (resource_where "r-1" (Some 1)) (resources w1) = Some row ∧
    r_indexStatus row = finish ∧
    r_storageKey row = Some "resource/r-1" ∧
    blobs w1 !! "resource/r-1" = Some "Example Domain".
Proof.
  intros w1.
  assert (Hrun : indexResource env_ok alice param_r1 world0 = (inr tt, w1))
    by (apply (run_eq (indexResource env_ok alice param_r1 world0)); vm_compute; reflexivity).
  split; [exact Hrun|].
  destruct (indexResource_finish env_ok alice param_r1 world0 w1 Hrun)
    as (data & rid & key & content & title & evs & row
        & Hd & Hrid & _ & _ & Hb & Hkey & Hrow & Hst & Hsk & _).
  injection Hd as <-. injection Hrid as <-.
  change (JS.truthy (resolved_storageKey world0 param_r1 example_meta)) with false in Hkey.
  destruct Hkey as [-> _].
  exists row. split; [exact Hrow|]. split; [exact Hst|]. split; [exact Hsk|].
  by vm_compute.
Defined.

(** *** Failure of an ingestion run *)

(** A run of [indexResource] that throws has written no row; the calls
    it made are in the trace, and none of them is a submission to the
    indexing interface when the error comes from content resolution. *)
Lemma indexResource_throws E user param w err w1 :
  indexResource E user param w = (inl err, w1) →
  ∃ evs,
    users w1 = users w ∧ resources w1 = resources w ∧ now w1 = now w ∧
    trace w1 = trace w ++ evs ∧
    (resolution_error err = true → index_events evs = []).
Proof.
  intros H.
  destruct (p_data param) as [data|] eqn:Hd.
  2:{ unfold indexResource in H. rewrite Hd in H. run_in H. simplify_eq.
      exists []. by rewrite app_nil_r. }
  rewrite (indexResource_stages E user param data Hd) in H.
  destruct (stage_link_spec param data w) as (p0 & w0 & evs0 & H0 & Hsk & Hc0 & F0 & Hb0 & I0).
  rewrite (bind_inr _ _ _ _ _ H0) in H.
  pose proof (stage_content_spec E param data p0 w0 Hc0) as S1.
  apply bind_err_inv in H as [H|(p1 & w1' & H1 & H)].
  { rewrite H in S1. destruct S1 as (_ & evs1 & F1 & I1 & _).
    destruct (frame_trans _ _ _ _ _ F0 F1) as (? & ? & ? & ? & _).
    exists (evs0 ++ evs1). repeat split; try done.
    intros _. by rewrite index_events_app, I0, I1. }
  rewrite H1 in S1. destruct S1 as (key & content & evs1 & _ & _ & _ & _ & F1 & I1).
  destruct (stage_index_spec E user param data p1 w1') as (r & w2 & evs2 & H2 & F2 & _ & I2).
  pose proof (frame_trans _ _ _ _ _ (frame_trans _ _ _ _ _ F0 F1) F2) as F.
  apply bind_err_inv in H as [H|([] & w2' & H2' & H)].
  { rewrite H in H2. simplify_eq. destruct F as (? & ? & ? & ? & _).
    exists ((evs0 ++ evs1) ++ evs2). repeat split; try done.
    destruct I2 as [I2 _]. by rewrite I2. }
  rewrite H2' in H2. simplify_eq.
  unfold stage_finish in H. run_in H.
  pose proof (prisma_resource_update_spec (p_resourceId param) (Some (u_id user))
                (finish_update E data p1) (with_trace (trace w2 ++ [finish_log user param]) w2)) as S3.
  unfold mbind, M_bind in H.
  destruct (prisma_resource_update _ _ _ _) as [[e|row] w3]; [|done]. simplify_eq.
  destruct S3 as (He & -> & _). destruct F as (? & ? & ? & Ht & _).
  eexists (((evs0 ++ evs1) ++ evs2) ++ [_; _]). simpl. rewrite Ht.
  repeat split; try done.
  - by rewrite <- !app_assoc.
  - by rewrite He.
Qed.

(** C2 (amended). When a step of [indexResource] throws, [finalizeResource]
    runs it once, logs the error and then issues one update with
    indexStatus = failed. When the row of that resource and user exists,
    the update sets its status to failed and the original error is raised
    after it. When the error comes from content resolution (request data
    missing, blob download, content extraction, blob upload), the run
    made no submission to the indexing interface. *)
Theorem finalizeResource_marks_failed
    (E : Env) (job : FinalizeResourceParam) (user : User) (w w1 : World) (err : Exn) :
  find_first (λ u, u_id u =? f_userId job) (users w) = Some user →
  indexResource E user (f_param job) w = (inl err, w1) →
  ∃ evs r w2,
    trace w1 = trace w ++ evs ∧
    (resolution_error err = true → index_events evs = []) ∧
    finalizeResource E job w = (r, w2) ∧
    trace w2 = trace w ++ evs ++
      [EvLog "error" "finalize resource error";
       EvResourceUpdate (p_resourceId (f_param job)) (Some (u_id user)) failed_update] ∧
    ∀ rid old,
      p_resourceId (f_param job) = Some rid →
      find_first (resource_where rid (Some (u_id user))) (resources w) = Some old →
      r = inl err ∧
      ∃ row,
        find_first (resource_where rid (Some (u_id user))) (resources w2) = Some row ∧
        row = apply_update (now w) failed_update old ∧
        r_indexStatus row = failed.
Proof.
  intros Hu Hrun.
  destruct (indexResource_throws E user (f_param job) w err w1 Hrun)
    as (evs & _ & Hr1 & Hn1 & Ht1 & Hidx).
  unfold finalizeResource. run. rewrite Hu. run. rewrite Hrun.
  pose proof (prisma_resource_update_spec (p_resourceId (f_param job)) (Some (u_id user))
                failed_update
                (with_trace (trace w1 ++ [EvLog "error" "finalize resource error"]) w1)) as S.
  fold failed_update.
  destruct (prisma_resource_update _ _ _ _) as [[e|row] w2] eqn:Eup.
  - destruct S as (_ & -> & Hnone). simpl.
    eexists evs, _, _. split; [done|]. split; [done|]. split; [done|]. simpl.
    split; [by rewrite Ht1, <- !app_assoc|].
    intros rid old Hrid Hold. rewrite Hrid in Hnone. simpl in Hnone.
    rewrite Hr1 in Hnone. congruence.
  - destruct S as (rid' & old' & Hrid' & Hold' & Hrow & Hfind & Hw2). simpl in *.
    eexists evs, _, _. split; [done|]. split; [done|]. split; [done|].
    split; [rewrite Hw2; simpl; by rewrite Ht1, <- !app_assoc|].
    intros rid old Hrid Hold. rewrite Hrid in Hrid'. simplify_eq.
    split; [done|]. rewrite Hr1 in Hold'. rewrite Hold in Hold'. simplify_eq.
    rewrite Hn1 in Hfind. eexists. by repeat split.
Qed.

Lemma finalizeResource_marks_failed_witness :
  let w1 := (indexResource env_crawl_fails alice param_r1 world0).2 in
  let w2 := (finalizeResource env_crawl_fails job_r1 world0).2 in
  indexResource env_crawl_fails alice param_r1 world0 = (inl (CrawlError "reader timeout"), w1) ∧
  (finalizeResource env_crawl_fails job_r1 world0).1 = inl (CrawlError "reader timeout") ∧
  index_events (trace w2) = [] ∧
  ∃ row,
    find_first (resource_where "r-1" (Some 1)) (resources w2) = Some row ∧
    r_indexStatus row = failed.
Proof.
  intros w1 w2.
  assert (Hrun : indexResource env_crawl_fails alice param_r1 world0
                 = (inl (CrawlError "reader timeout"), w1))
    by (apply (run_eq (indexResource env_crawl_fails alice param_r1 world0)); vm_compute; reflexivity).
  split; [exact Hrun|].
  destruct (finalizeResource_marks_failed env_crawl_fails job_r1 alice world0 w1 _
              eq_refl Hrun) as (evs & r & w2' & Ht1 & Hidx & Hfin & Ht2 & Hrow).
  destruct (Hrow "r-1" row_r1 eq_refl eq_refl) as (-> & row & Hfind & _ & Hst).
  subst w2. rewrite Hfin. simpl. split; [done|].
  split.
  - rewrite Ht2. change (trace world0) with (@nil Event). simpl.
    rewrite index_events_app, (Hidx eq_refl). done.
  - by exists row.
Defined.

(** The claim as stated fails: when the vector store rejects the chunks,
    the run throws after the chunks went to the indexing interface; the
    row is marked failed and the error re-raised, yet the trace holds
    the submission. *)
Lemma finalizeResource_chunks_submitted_before_failure :
  let r := finalizeResource env_save_fails job_r1 world0 in
  (indexResource env_save_fails alice param_r1 world0).1
    = inl (RagError "vector store unavailable") ∧
  r.1 = inl (RagError "vector store unavailable") ∧
  r_indexStatus <$> find_first (resource_where "r-1" (Some 1)) (resources r.2)
    = Some failed ∧
  index_events (trace r.2) =
    [EvIndexContent (mkDoc "Example Domain" (Some "https://example.com") None
                           (Some "c-1") (Some "r-1"));
     EvSaveDataForUser 1 ["Example Domain"]] ∧
  index_events (trace r.2) ≠ [].
Proof. vm_compute. repeat split; done. Qed.

(** C10. With a userId that matches no user, [finalizeResource] logs a
    warning and returns normally: no exception reaches the queue, no
    update is issued, and the tables, the blob store and the queue are
    as before, so a row that was in processing is still in processing. *)
Theorem finalizeResource_unknown_user
    (E : Env) (job : FinalizeResourceParam) (w : World) :
  find_first (λ u, u_id u =? f_userId job) (users w) = None →
  ∃ msg w',
    finalizeResource E job w = (inr tt, w') ∧
    trace w' = trace w ++ [EvLog "warn" msg] ∧
    resources w' = resources w ∧
    blobs w' = blobs w ∧
    queue w' = queue w ∧
    (∀ r, r ∈ resources w → r_indexStatus r = processing →
          r ∈ resources w' ∧ r_indexStatus r ≠ finish ∧ r_indexStatus r ≠ failed).
Proof.
  intros Hu. unfold finalizeResource. run. rewrite Hu. run.
  eexists _, _. repeat split; try done; congruence.
Qed.

Lemma finalizeResource_unknown_user_witness :
  find_first (λ u, u_id u =? f_userId job_unknown_user) (users world0) = None ∧
  (finalizeResource env_ok job_unknown_user world0).1 = inr tt ∧
  r_indexStatus <$>
    find_first (resource_where "r-1" (Some 1))
      (resources (finalizeResource env_ok job_unknown_user world0).2)
    = Some processing.
Proof.
  split; [reflexivity|].
  destruct (finalizeResource_unknown_user env_ok job_unknown_user world0 eq_refl)
    as (msg & w' & Hrun & _ & Hres & _).
  rewrite Hrun. simpl. rewrite Hres. split; reflexivity.
Defined.

(** *** Ownership *)

(** The two delete paths look the row up and compare its owner. *)
Lemma deleteCollection_non_owner user collectionId w coll :
  find_first (λ c, String.eqb (c_collectionId c) collectionId && not_deleted c_deletedAt c)
    (collections w) = Some coll →
  c_userId coll ≠ u_id user →
  deleteCollection user collectionId w = (inl UnauthorizedException, w).
Proof.
  intros Hf Hne. unfold deleteCollection. run. rewrite Hf.
  assert ((c_userId coll =? u_id user) = false) as -> by (by apply Z.eqb_neq). done.
Qed.

Lemma deleteResource_non_owner E user resourceId w resource :
  find_first (λ r, String.eqb (r_resourceId r) resourceId && not_deleted r_deletedAt r)
    (resources w) = Some resource →
  r_userId resource ≠ u_id user →
  deleteResource E user resourceId w = (inl UnauthorizedException, w).
Proof.
  intros Hf Hne. unfold deleteResource. run. rewrite Hf.
  assert ((r_userId resource =? u_id user) = false) as -> by (by apply Z.eqb_neq). done.
Qed.

(** [updateResource] relies on the [where] clause: for a user without a
    row of that id the ORM rejects the update with its own not-found
    error, and the table is left as it is. *)
Lemma updateResource_non_owner E user param w rid :
  p_resourceId param = Some rid →
  JS.truthy (p_content param) = false →
  find_first (resource_where rid (Some (u_id user))) (resources w) = None →
  ∃ w',
    updateResource E user param w = (inl (PrismaNotFound "Resource"), w') ∧
    is_authorization_error (PrismaNotFound "Resource") = false ∧
    resources w' = resources w ∧ blobs w' = blobs w.
Proof.
  intros Hrid Hc Hf. unfold updateResource. rewrite Hc, Hrid.
  unfold prisma_resource_update. run.
  apply (update_first_None _ (apply_update (now w)
           (mkUpdate (p_title param) (p_isPublic param) (p_readOnly param) (p_data param)
                     None None None None))) in Hf.
  rewrite Hf. run. by eexists.
Qed.

(** C7. [upsertCollection] does not look at the owner: for an existing
    collection of another user it returns normally, without an
    authorization error, and the stored row carries the title,
    description and visibility of the request. *)
Theorem upsertCollection_skips_owner_check
    (E : Env) (user : User) (param : UpsertCollectionRequest) (w : World)
    (cid : string) (old : Collection) :
  cp_collectionId param = Some cid →
  cid ≠ "" →
  find_first (λ c, String.eqb (c_collectionId c) cid) (collections w) = Some old →
  c_userId old ≠ u_id user →
  ∃ new w',
    upsertCollection E user param w = (inr new, w') ∧
    find_first (λ c, String.eqb (c_collectionId c) cid) (collections w') = Some new ∧
    c_userId new = c_userId old ∧
    c_userId new ≠ u_id user ∧
    c_title new = (match cp_title param with Some t => Some t | None => c_title old end) ∧
    c_description new
      = (match cp_description param with Some t => Some t | None => c_description old end) ∧
    c_isPublic new = (match cp_isPublic param with Some b => Some b | None => c_isPublic old end).
Proof.
  intros Hcid Hne Hf Hown. unfold upsertCollection. rewrite Hcid. simpl.
  assert (String.eqb cid "" = false) as -> by (by apply String.eqb_neq). run.
  destruct (update_first _ _ (collections w)) as [[new cs]|] eqn:Eu.
  2:{ apply update_first_None in Eu. congruence. }
  apply update_first_find in Eu as (Hnew & x & Hx & ->); [|done].
  rewrite Hf in Hx. simplify_eq. run.
  eexists _, _. by repeat split.
Qed.

Lemma upsertCollection_skips_owner_check_witness :
  let r := upsertCollection env_ok bob bob_takes_c1 world0 in
  c_userId coll_c1 ≠ u_id bob ∧
  (∃ new, r.1 = inr new) ∧
  ∃ new,
    find_first (λ c, String.eqb (c_collectionId c) "c-1") (collections r.2) = Some new ∧
    c_userId new = 1 ∧
    c_title new = Some "taken over" ∧
    c_isPublic new = Some true.
Proof.
  intros r.
  destruct (upsertCollection_skips_owner_check env_ok bob bob_takes_c1 world0 "c-1" coll_c1)
    as (new & w' & Hrun & Hf & Hu & _ & Ht & _ & Hp); try done.
  subst r. rewrite Hrun. cbn [fst snd].
  split; [done|]. split; [by exists new|]. by exists new.
Defined.

(** For [updateResource] the blob of the request's storage key is
    written before the ORM rejects the update: bob's call on alice's
    note fails, and the stored document is his text. *)
Example updateResource_non_owner_overwrites_blob :
  let r := updateResource env_ok bob
             (mkParam (Some "r-2") "note" None None None None (Some "resource/r-2")
                      (Some "bob was here") None None) world0 in
  r.1 = inl (PrismaNotFound "Resource") ∧
  blobs world0 !! "resource/r-2" = Some "an old note" ∧
  blobs r.2 !! "resource/r-2" = Some "bob was here".
Proof. by vm_compute. Qed.

(** *** Lists *)

(** [listCollections] returns a page of the user's live collections,
    most recently updated first. *)
Lemma listCollections_page user page pageSize w :
  1 ≤ page → 0 ≤ pageSize →
  ∃ sorted,
    listCollections user page pageSize w
    = (inr (take (Z.to_nat pageSize) (drop (Z.to_nat ((page - 1) * pageSize)) sorted)), w) ∧
    sorted ≡ₚ List.filter (owned_live_collection user) (collections w) ∧
    StronglySorted (λ a b, c_updatedAt b ≤ c_updatedAt a) sorted ∧
    Forall (λ c, c_deletedAt c = None ∧ c_userId c = u_id user) sorted.
Proof.
  intros Hp Hs. unfold listCollections. run.
  rewrite paginate_page by done.
  eexists. split; [done|]. split; [apply order_desc_perm|].
  split; [apply order_desc_sorted|].
  rewrite order_desc_perm. apply Forall_forall. intros c Hc.
  apply list_elem_of_In, List.filter_In in Hc as [_ Hc].
  unfold owned_live_collection, not_deleted in Hc. apply andb_true_iff in Hc as [Hu Hd].
  apply Z.eqb_eq in Hu. by destruct (c_deletedAt c).
Qed.

(** Without a collection id, [listResources] filters on [deletedAt]. *)
Lemma listResources_all_page page pageSize w :
  1 ≤ page → 0 ≤ pageSize →
  ∃ sorted,
    listResources None None (Some page) (Some pageSize) w
    = (inr (take (Z.to_nat pageSize) (drop (Z.to_nat ((page - 1) * pageSize)) sorted)), w) ∧
    sorted ≡ₚ List.filter (not_deleted r_deletedAt) (resources w) ∧
    StronglySorted (λ a b, r_updatedAt b ≤ r_updatedAt a) sorted ∧
    Forall (λ r, r_deletedAt r = None) sorted.
Proof.
  intros Hp Hs. unfold listResources. run.
  rewrite paginate_page by done.
  eexists. split; [done|]. split; [apply order_desc_perm|].
  split; [apply order_desc_sorted|].
  rewrite order_desc_perm. apply Forall_forall. intros r Hr.
  apply list_elem_of_In, List.filter_In in Hr as [_ Hr].
  unfold not_deleted in Hr. by destruct (r_deletedAt r).
Qed.

(** Scoped to a live collection, the page is cut from all the resources
    linked to it: the query carries no condition on [deletedAt]. *)
Lemma listResources_of_collection_page cid c cs page pageSize w :
  cid ≠ "" →
  List.filter (λ c, String.eqb (c_collectionId c) cid && not_deleted c_deletedAt c)
    (collections w) = c :: cs →
  1 ≤ page → 0 ≤ pageSize →
  ∃ sorted,
    listResources None (Some cid) (Some page) (Some pageSize) w
    = (inr (take (Z.to_nat pageSize) (drop (Z.to_nat ((page - 1) * pageSize)) sorted)), w) ∧
    sorted ≡ₚ List.filter (λ r, bool_decide ((c_collectionId c, r_resourceId r) ∈ links w))
                (resources w) ∧
    StronglySorted (λ a b, r_updatedAt b ≤ r_updatedAt a) sorted.
Proof.
  intros Hne Hc Hp Hs. unfold listResources. simpl.
  assert (String.eqb cid "" = false) as -> by (by apply String.eqb_neq). run.
  rewrite Hc. rewrite paginate_page by done.
  eexists. split; [done|]. split; [apply order_desc_perm|apply order_desc_sorted].
Qed.

(** C8. Scoped to a collection, [listResources] returns the resources
    linked to it without looking at their [deletedAt]: a soft-deleted
    resource linked to a live collection is on the first page of that
    collection whenever the page is large enough to hold the table. *)
Theorem listResources_of_collection_returns_deleted_rows
    (cid : string) (c : Collection) (cs : list Collection) (r : Resource) (t : Z)
    (pageSize : Z) (w : World) :
  cid ≠ "" →
  List.filter (λ c, String.eqb (c_collectionId c) cid && not_deleted c_deletedAt c)
    (collections w) = c :: cs →
  r ∈ resources w →
  (c_collectionId c, r_resourceId r) ∈ links w →
  r_deletedAt r = Some t →
  Z.of_nat (length (resources w)) ≤ pageSize →
  ∃ rows,
    listResources None (Some cid) (Some 1) (Some pageSize) w = (inr rows, w) ∧
    r ∈ rows.
Proof.
  intros Hne Hc Hr Hl Hd Hsz.
  destruct (listResources_of_collection_page cid c cs 1 pageSize w Hne Hc)
    as (sorted & Hrun & Hperm & _); [lia|lia|].
  eexists. split; [exact Hrun|].
  assert (r ∈ sorted) as Hin.
  { rewrite Hperm. apply list_elem_of_In, List.filter_In. split.
    - by apply list_elem_of_In.
    - by apply bool_decide_eq_true. }
  replace (Z.to_nat ((1 - 1) * pageSize)) with 0%nat by lia. simpl.
  rewrite take_ge; [done|].
  rewrite Hperm. etrans; [apply List.filter_length_le|]. lia.
Qed.

Lemma listResources_of_collection_returns_deleted_rows_witness :
  row_r2 ∈ resources world0 ∧
  r_deletedAt row_r2 = Some 50 ∧
  ∃ rows,
    listResources None (Some "c-1") (Some 1) (Some 10) world0 = (inr rows, world0) ∧
    row_r2 ∈ rows.
Proof.
  assert (row_r2 ∈ resources world0) as Hin by (apply list_elem_of_In; simpl; auto).
  split; [exact Hin|]. split; [reflexivity|].
  apply (listResources_of_collection_returns_deleted_rows "c-1" coll_c1 [] row_r2 50 10 world0);
    [done|reflexivity|exact Hin| |reflexivity|by vm_compute].
  apply list_elem_of_In. simpl. auto.
Defined.

(** On the sample tables the page of collection c-1 holds the soft-deleted
    row r-2, which the unscoped list leaves out. *)
Example listResources_sample_pages :
  (listResources None (Some "c-1") None None world0).1 = inr [row_r1; row_r2] ∧
  r_deletedAt row_r2 = Some 50 ∧
  (listResources None None None None world0).1 = inr [row_r1].
Proof. by vm_compute. Qed.

(** *** A whole ingestion

    A weblink created with a url and neither storage key nor linkId: the
    job put on the queue makes one call to the remote reader, stores the
    content under resource/<id> and leaves the row in finish. *)
Example create_then_finalize_weblink :
  let req := mkParam None "weblink" None None None (Some example_meta)
                     None None None None in
  let created := createResource env_ok alice req world0 in
  let done := match queue created.2 with
              | job :: _ => finalizeResource env_ok job created.2
              | [] => (inr tt, created.2)
              end in
  (∃ row, created.1 = inr row ∧ r_indexStatus row = processing) ∧
  length (queue created.2) = 1%nat ∧
  done.1 = inr tt ∧
  List.filter (λ ev, match ev with EvCrawl _ => true | _ => false end) (trace done.2)
    = [EvCrawl "https://example.com"] ∧
  blobs done.2 !! "resource/r-3" = Some "Example Domain" ∧
  (λ r, (r_indexStatus r, r_storageKey r)) <$>
    find_first (resource_where "r-3" (Some 1)) (resources done.2)
    = Some (finish, Some "resource/r-3").
Proof. vm_compute. split; [eauto|done]. Qed.

End KnowledgeSpec.

(** ** Properties of the subscription service *)

Module SubscriptionSpec.
Import Subscription SubscriptionSamples.

Ltac run :=
  repeat (unfold mbind, mret, M_bind, M_ret, gets, modify, throw, logger,
          transaction, genUsageMeterID; simpl).

(** The [where] clause of the soft delete in [postSubscriptionCanceled]. *)
Definition of_subscription (sid : string) (m : UsageMeter) : bool :=
  match m_subscriptionId m with
  | Some sid' => String.eqb sid' sid
  | None => false
  end.

(** A live meter of the user that belongs to no subscription. *)
Definition free_meter_of (uid : string) (m : UsageMeter) : bool :=
  String.eqb (m_uid m) uid &&
  match m_subscriptionId m with None => true | Some _ => false end &&
  match m_deletedAt m with None => true | Some _ => false end.

(** The closed window of the two queries. *)
Definition in_window (uid : string) (t : Z) (m : UsageMeter) : Prop :=
  m_uid m = uid ∧ m_deletedAt m = None ∧ startAt m ≤ t ≤ endAt m.

#[local] Instance in_window_dec uid t m : Decision (in_window uid t m).
Proof. unfold in_window. apply _. Defined.

(** The tiers [checkTokenUsage] reports from a meter. *)
Definition tiers_of (m : UsageMeter) : list string :=
  (if t1TokenUsed m <? t1TokenQuota m then ["t1"] else []) ++
  (if t2TokenUsed m <? t2TokenQuota m then ["t2"] else []).

(** *** The calendar *)

Example startOfDay_mid_march : startOfDay 1710504000000 = 1710460800000.
Proof. reflexivity. Qed.

Example month_after_mar_1 :
  JSDate.make (JSDate.getFullYear mar_1) (JSDate.getMonth mar_1 + 1) (JSDate.getDate mar_1)
  = apr_1.
Proof. reflexivity. Qed.

(** December rolls over to January of the next year. *)
Example month_after_dec_15 :
  JSDate.make (JSDate.getFullYear 1702598400000) (JSDate.getMonth 1702598400000 + 1)
              (JSDate.getDate 1702598400000)
  = 1705276800000.
Proof. reflexivity. Qed.

(** *** [createUsageMeter] without a subscription *)

(** The free meter is never written: reading [sub.subscriptionId] of a
    null [sub] throws while the row to create is being assembled. *)
Lemma createUsageMeter_null_sub user resume w :
  ∃ msg,
    createUsageMeter user None resume w
    = (inl (TypeError msg), with_fresh (fresh w + 1)%N w).
Proof.
  unfold createUsageMeter. destruct resume; run; eauto.
Qed.

Lemma createUsageMeter_with_sub user sub resume w :
  ∃ meter w',
    createUsageMeter user (Some sub) resume w = (inr meter, w') ∧
    usageMeters w' = usageMeters w ++ [meter] ∧
    m_subscriptionId meter = Some (s_subscriptionId sub) ∧
    t1TokenUsed meter = 0 ∧ t2TokenUsed meter = 0 ∧ m_deletedAt meter = None.
Proof.
  unfold createUsageMeter. destruct resume; run; eexists _, _; by repeat split.
Qed.

(** *** Cancellation through the webhook *)

Lemma find_free_meter_after_cancel uid sid t ms :
  find_first (free_meter_of uid) (update_all (of_subscription sid) (set_deletedAt t) ms)
  = find_first (free_meter_of uid) ms.
Proof.
  unfold update_all, free_meter_of, of_subscription.
  induction ms as [|m ms IH]; simpl; [done|]. rewrite IH.
  destruct (m_subscriptionId m) as [sid'|] eqn:Es; simpl.
  - destruct (String.eqb sid' sid); simpl; rewrite ?Es; by rewrite ?andb_false_r.
  - by rewrite Es.
Qed.

(** The transaction of [postSubscriptionCanceled] commits, then the
    creation of the free meter throws. *)
Lemma postSubscriptionCanceled_throws sub user w :
  find_first (λ u, String.eqb (u_uid u) (s_uid sub)) (users w) = Some user →
  ∃ msg us',
    postSubscriptionCanceled sub w
    = (inl (TypeError msg),
       with_fresh (fresh w + 1)%N
         (with_usageMeters
            (update_all (of_subscription (s_subscriptionId sub)) (set_deletedAt (now w))
               (usageMeters w))
            (with_users us' w))) ∧
    find_first (λ u, String.eqb (u_uid u) (s_uid sub)) us'
    = Some (set_subscriptionId None user).
Proof.
  intros Huser. unfold postSubscriptionCanceled.
  destruct (update_first (λ u, String.eqb (u_uid u) (s_uid sub))
              (set_subscriptionId None) (users w)) as [[u us']|] eqn:Eu.
  2:{ apply update_first_None in Eu. congruence. }
  pose proof Eu as Eu'.
  apply update_first_find in Eu' as (Hfind & x & Hx & ->); [|done].
  rewrite Huser in Hx. simplify_eq.
  erewrite bind_inr; last first.
  { unfold transaction. run. rewrite Eu. run. reflexivity. }
  destruct (createUsageMeter_null_sub (set_subscriptionId None x) false
              (with_usageMeters
                 (update_all (of_subscription (s_subscriptionId sub))
                    (set_deletedAt (now w)) (usageMeters w))
                 (with_users us' w))) as (msg & Hc).
  exists msg, us'. split; [|done].
  apply bind_inl. exact Hc.
Qed.

(** C4. For a known subscription of a known user and a status other
    than active, the webhook handler commits the transaction that clears
    the user's subscriptionId and soft-deletes the meters of that
    subscription, and then throws a TypeError from [createUsageMeter]:
    the meter table holds exactly the rows it held before (none added),
    so the user has no other free-tier meter than before. *)
Theorem handleSubscriptionUpdated_creates_no_free_meter
    (ev : StripeSubscription) (w : World) (sub : SubscriptionModel) (user : User) :
  find_first (λ s, String.eqb (s_subscriptionId s) (ev_id ev)) (subscriptions w) = Some sub →
  find_first (λ u, String.eqb (u_uid u) (s_uid sub)) (users w) = Some user →
  ev_status ev ≠ "active" →
  ∃ msg w',
    handleSubscriptionUpdated ev w = (inl (TypeError msg), w') ∧
    find_first (λ u, String.eqb (u_uid u) (s_uid sub)) (users w')
      = Some (set_subscriptionId None user) ∧
    usageMeters w'
      = update_all (of_subscription (s_subscriptionId sub)) (set_deletedAt (now w))
          (usageMeters w) ∧
    length (usageMeters w') = length (usageMeters w) ∧
    find_first (free_meter_of (u_uid user)) (usageMeters w')
      = find_first (free_meter_of (u_uid user)) (usageMeters w).
Proof.
  intros Hsub Huser Hst.
  unfold handleSubscriptionUpdated. run.
  destruct (update_first_found _ (set_status (ev_status ev)) _ _ Hsub) as (ss' & ->). run.
  assert (String.eqb (ev_status ev) "active" = false) as -> by by apply String.eqb_neq.
  simpl.
  destruct (postSubscriptionCanceled_throws (set_status (ev_status ev) sub) user
              (with_subscriptions ss'
                 (with_logs (logs w ++ [("log", "Subscription updated: " +:+ ev_id ev)]) w))
              Huser) as (msg & us' & Hp & Hu).
  simpl in Hp. rewrite Hp.
  eexists _, _. split; [done|]. simpl. split; [done|]. split; [done|].
  split; [unfold update_all; by rewrite length_map|].
  apply find_free_meter_after_cancel.
Qed.

Lemma handleSubscriptionUpdated_creates_no_free_meter_witness :
  let r := handleSubscriptionUpdated canceled_event world_mid_march in
  ev_status canceled_event ≠ "active" ∧
  (∃ msg, r.1 = inl (TypeError msg)) ∧
  u_subscriptionId <$> find_first (λ u, String.eqb (u_uid u) (s_uid sub_1)) (users r.2)
    = Some None ∧
  usageMeters r.2 = [set_deletedAt (now world_mid_march) meter_march].
Proof.
  intros r. split; [done|].
  destruct (handleSubscriptionUpdated_creates_no_free_meter canceled_event world_mid_march
              sub_1 carol eq_refl eq_refl) as (msg & w' & Hrun & Hu & Hm & _); [done|].
  subst r. rewrite Hrun. cbn [fst snd]. rewrite Hu, Hm. split; [by exists msg|]. done.
Defined.

(** *** The window of a meter *)

Lemma meter_where_in_window uid t m :
  meter_where uid t m = true ↔ in_window uid t m.
Proof.
  unfold meter_where, in_window.
  rewrite !andb_true_iff, String.eqb_eq, Z.leb_le, Z.geb_le.
  destruct (m_deletedAt m); split; intros H; try done.
  - by destruct H as [_ ?].
  - by destruct H as (_ & ? & _).
  - destruct H as [[[? ?] ?] _]. by repeat split.
  - destruct H as (? & _ & ? & ?). by repeat split.
Qed.

(** With an active meter, [checkTokenUsage] reads it and writes nothing. *)
Lemma checkTokenUsage_active user w m :
  find_first (meter_where (u_uid user) (now w)) (usageMeters w) = Some m →
  checkTokenUsage user w = (inr (tiers_of m), w).
Proof. intros H. unfold checkTokenUsage. run. by rewrite H. Qed.

Lemma updateTokenUsage_run data w :
  updateTokenUsage data w =
    (inr tt,
     with_usageMeters
       (update_all (meter_where (d_uid data) (d_timestamp data))
          (increment_used (d_tier data) (d_inputTokens data + d_outputTokens data))
          (usageMeters w))
       (with_tokenUsages
          (tokenUsages w ++
           [mkTokenUsage (d_uid data) (d_tier data) (d_inputTokens data)
                         (d_outputTokens data) (d_skillId data)]) w)).
Proof. done. Qed.

Lemma meter_where_increment_used uid t tier n m :
  meter_where uid t (increment_used tier n m) = meter_where uid t m.
Proof. unfold increment_used, meter_where. by destruct (String.eqb tier "t1"). Qed.

(** A meter of the table that is the only one in the window of the user
    at the current instant. *)
Definition only_active (user : User) (w : World) (m : UsageMeter) : Prop :=
  m ∈ usageMeters w ∧ in_window (u_uid user) (now w) m ∧
  ∀ m', m' ∈ usageMeters w → in_window (u_uid user) (now w) m' → m' = m.


(** The only meter in the window is the one read, wherever it stands in
    the table. *)
Lemma checkTokenUsage_only_active user w m :
  only_active user w m → checkTokenUsage user w = (inr (tiers_of m), w).
Proof.
  intros (Hin & Hw & Huniq).
  destruct (find_first (meter_where (u_uid user) (now w)) (usageMeters w)) as [m'|] eqn:Hf.
  - apply List.find_some in Hf as Hf'. destruct Hf' as [Hin' Hw'].
    apply list_elem_of_In in Hin'. apply meter_where_in_window in Hw'.
    rewrite (Huniq m' Hin' Hw') in Hf. by apply checkTokenUsage_active.
  - apply list_elem_of_In in Hin. pose proof (List.find_none _ _ Hf m Hin) as Hn.
    apply meter_where_in_window in Hw. congruence.
Qed.

(** After a report the only meter in the window is still the only one,
    with the report counted on it when its window holds the timestamp;
    this holds for the rows of the table in any order. *)
Lemma only_active_after_report user data w m ms :
  only_active user w m →
  ms ≡ₚ usageMeters (updateTokenUsage data w).2 →
  only_active user (with_usageMeters ms (updateTokenUsage data w).2)
    (if meter_where (d_uid data) (d_timestamp data) m
     then increment_used (d_tier data) (d_inputTokens data + d_outputTokens data) m
     else m).
Proof.
  intros (Hin & Hw & Huniq) Hperm. rewrite updateTokenUsage_run in *. simpl in *.
  set (g := λ x, if meter_where (d_uid data) (d_timestamp data) x
                 then increment_used (d_tier data) (d_inputTokens data + d_outputTokens data) x
                 else x).
  assert (∀ x, in_window (u_uid user) (now w) (g x) ↔ in_window (u_uid user) (now w) x) as Hg.
  { intros x. rewrite <- !meter_where_in_window. unfold g.
    destruct (meter_where (d_uid data) _ x); [|done]. by rewrite meter_where_increment_used. }
  unfold only_active. simpl. fold (g m). split; [|split].
  - rewrite Hperm. unfold update_all. apply list_elem_of_In, in_map. by apply list_elem_of_In.
  - by apply (Hg m).
  - intros m' Hin' Hw'. rewrite Hperm in Hin'. unfold update_all in Hin'.
    apply list_elem_of_In, in_map_iff in Hin' as (x & <- & Hx).
    apply list_elem_of_In in Hx.
    change (in_window (u_uid user) (now w) (g x)) in Hw'. change (g x = g m).
    apply (proj1 (Hg x)) in Hw'. by rewrite (Huniq x Hx Hw').
Qed.






(** With two active meters the answer depends on the row that the query
    returns: the same two rows in the two orders give different tiers. *)
Example checkTokenUsage_two_active_meters :
  let spent := mkMeter "um-9" "u-carol" None mar_1 apr_1 1000 1000 5000 0 None in
  checkTokenUsage carol (with_usageMeters [meter_march; spent] world_mid_march)
    = (inr ["t1"; "t2"], with_usageMeters [meter_march; spent] world_mid_march) ∧
  checkTokenUsage carol (with_usageMeters [spent; meter_march] world_mid_march)
    = (inr ["t2"], with_usageMeters [spent; meter_march] world_mid_march).
Proof. by vm_compute. Qed.

(** *** Lazy creation *)

(** C9. Without an active meter, [checkTokenUsage] does not return a tier
    set: the lazy creation throws a TypeError and writes no meter, so an
    immediately following call finds no meter either and throws again. *)
Theorem checkTokenUsage_lazy_creation_throws (user : User) (w : World) :
  find_first (meter_where (u_uid user) (now w)) (usageMeters w) = None →
  ∃ msg w',
    checkTokenUsage user w = (inl (TypeError msg), w') ∧
    usageMeters w' = usageMeters w ∧
    now w' = now w ∧
    ∃ msg' w'',
      checkTokenUsage user w' = (inl (TypeError msg'), w'') ∧
      usageMeters w'' = usageMeters w.
Proof.
  intros Hf.
  assert (∀ w0, usageMeters w0 = usageMeters w → now w0 = now w →
            ∃ msg, checkTokenUsage user w0
                   = (inl (TypeError msg), with_fresh (fresh w0 + 1)%N w0)) as Hthrow.
  { intros w0 Hm Hn. unfold checkTokenUsage. run. rewrite Hm, Hn, Hf.
    destruct (createUsageMeter_null_sub user true w0) as (msg & Hc).
    unfold mbind, M_bind. rewrite Hc. eauto. }
  destruct (Hthrow w eq_refl eq_refl) as (msg & H1).
  destruct (Hthrow (with_fresh (fresh w + 1)%N w) eq_refl eq_refl) as (msg' & H2).
  eexists _, _. split; [exact H1|]. split; [done|]. split; [done|].
  eexists _, _. split; [exact H2|]. done.
Qed.

Lemma checkTokenUsage_lazy_creation_throws_witness :
  find_first (meter_where (u_uid dave) (now world_mid_march)) (usageMeters world_mid_march)
    = None ∧
  ∃ msg w',
    checkTokenUsage dave world_mid_march = (inl (TypeError msg), w') ∧
    usageMeters w' = [meter_march].
Proof.
  split; [reflexivity|].
  destruct (checkTokenUsage_lazy_creation_throws dave world_mid_march eq_refl)
    as (msg & w' & Hrun & Hm & _).
  by exists msg, w'.
Defined.

(** With an active meter two successive calls agree: the first call
    leaves the state as it found it. *)
Lemma checkTokenUsage_idempotent_with_active_meter user w m :
  find_first (meter_where (u_uid user) (now w)) (usageMeters w) = Some m →
  ∃ tiers,
    checkTokenUsage user w = (inr tiers, w) ∧
    checkTokenUsage user (checkTokenUsage user w).2 = (inr tiers, w).
Proof.
  intros H. exists (tiers_of m).
  rewrite (checkTokenUsage_active user w m H). simpl.
  by rewrite (checkTokenUsage_active user w m H).
Qed.

(** A report of 100 input and 50 output tokens on tier t2 against a meter
    with no t2 usage: one line item is written and the counter reads 150. *)
Example report_t2_usage :
  let w' := (updateTokenUsage
               (mkReport "u-carol" "t2" 100 50 "skill-1" 1710504000000)
               world_mid_march).2 in
  t2TokenUsed <$> usageMeters world_mid_march = [0] ∧
  t2TokenUsed <$> usageMeters w' = [150] ∧
  t1TokenUsed <$> usageMeters w' = [999] ∧
  tokenUsages w' = [mkTokenUsage "u-carol" "t2" 100 50 "skill-1"].
Proof. by vm_compute. Qed.

End SubscriptionSpec.

(** ** Further properties of the knowledge service *)

Module KnowledgeMore.
Import Knowledge KnowledgeDetail KnowledgeSamples KnowledgeSpec.

Definition is_crawl (ev : Event) : bool :=
  match ev with EvCrawl _ => true | _ => false end.

Definition crawl_events (t : list Event) : list Event := List.filter is_crawl t.

(** What a returning run hands to the indexing interface for the content
    it stored: nothing for an empty document, and otherwise the cleaned
    content with the metadata {url, title, collectionId, resourceId},
    followed by the chunks the indexer produced. *)
Definition expected_submission (E : Env) (user : User) (param : UpsertResourceRequest)
    (data : ResourceMeta) (content : string) : list Event :=
  if String.eqb content "" then []
  else
    let doc := mkDoc (cleanMarkdownForIngest E content) (m_url data) (m_title data)
                     (p_collectionId param) (p_resourceId param) in
    match indexContent E doc with
    | inr chunks => [EvIndexContent doc; EvSaveDataForUser (u_id user) chunks]
    | inl _ => [EvIndexContent doc]
    end.

(** The live row of a resource id, as the detail and delete queries see it. *)
Definition live_resource (rid : string) (r : Resource) : bool :=
  String.eqb (r_resourceId r) rid && not_deleted r_deletedAt r.

Definition live_collection (cid : string) (c : Collection) : bool :=
  String.eqb (c_collectionId c) cid && not_deleted c_deletedAt c.

(** *** Creation *)

(** A request [createResource] accepts: a note, or a weblink whose data
    object carries a url or a linkId. *)
Definition accepted (param : UpsertResourceRequest) : Prop :=
  p_resourceType param = "note" ∨
  (p_resourceType param = "weblink" ∧
   ∃ d, p_data param = Some d ∧ (JS.truthy (m_url d) || JS.truthy (m_linkId d)) = true).

(** An accepted request creates one row in processing, owned by the
    caller and carrying the generated id; readOnly is the request's value
    when it has one, and otherwise true for a weblink and false for a note;
    one job for that row and user is put on the queue, and the blob store
    is not touched. *)
Theorem createResource_accepted
    (E : Env) (user : User) (param : UpsertResourceRequest) (w : World) :
  accepted param →
  find_first (λ r, String.eqb (r_resourceId r) (genResourceID E (fresh w))) (resources w)
    = None →
  ∃ row job w',
    createResource E user param w = (inr row, w') ∧
    r_resourceId row = genResourceID E (fresh w) ∧
    r_userId row = u_id user ∧
    r_indexStatus row = processing ∧
    r_readOnly row
      = Some (default (String.eqb (p_resourceType param) "weblink") (p_readOnly param)) ∧
    resources w' = resources w ++ [row] ∧
    queue w' = queue w ++ [job] ∧
    f_userId job = u_id user ∧
    p_resourceId (f_param job) = Some (r_resourceId row) ∧
    blobs w' = blobs w.
Proof.
  intros Hacc Hfresh. unfold createResource. run.
  destruct (JS.truthy (p_collectionId param)) eqn:Hc; run;
    destruct (p_readOnly param) as [ro|] eqn:Hro; run;
    destruct Hacc as [Hty|(Hty & d & Hd & Hor)]; rewrite Hty; run;
    rewrite ?Hd; run;
    try (apply orb_true_iff in Hor; rewrite <- negb_orb;
         assert (JS.truthy (m_url d) || JS.truthy (m_linkId d) = true) as ->
           by (by apply orb_true_iff); run);
    unfold prisma_resource_create; run; rewrite Hfresh; run.
  all: destruct (find_first _ (collections w)); run.
  all: eexists _, _, _; repeat split; try reflexivity; simpl; rewrite ?Hro, ?Hty; done.
Qed.

Lemma createResource_accepted_witness :
  accepted (mkParam None "note" None None (Some "Ideas") None None (Some "hello") None None) ∧
  ∃ row w',
    createResource env_ok alice
      (mkParam None "note" None None (Some "Ideas") None None (Some "hello") None None) world0
    = (inr row, w') ∧
    r_resourceId row = "r-3" ∧ r_readOnly row = Some false ∧ length (queue w') = 1%nat.
Proof.
  assert (accepted (mkParam None "note" None None (Some "Ideas") None None (Some "hello")
                            None None)) as Hacc by (by left).
  split; [exact Hacc|].
  destruct (createResource_accepted env_ok alice _ world0 Hacc eq_refl)
    as (row & job & w' & Hrun & Hid & _ & _ & Hro & _ & Hq & _).
  exists row, w'. split; [exact Hrun|]. split; [exact Hid|]. split; [exact Hro|].
  by rewrite Hq.
Defined.

(** A resource type other than weblink and note is rejected before
    anything is written or queued. *)
Theorem createResource_invalid_type
    (E : Env) (user : User) (param : UpsertResourceRequest) (w : World) :
  p_resourceType param ≠ "weblink" →
  p_resourceType param ≠ "note" →
  ∃ w',
    createResource E user param w
      = (inl (BadRequestException "Invalid resource type"), w') ∧
    resources w' = resources w ∧ collections w' = collections w ∧
    links w' = links w ∧ queue w' = queue w ∧ blobs w' = blobs w.
Proof.
  intros H1 H2. apply String.eqb_neq in H1, H2.
  unfold createResource. run.
  destruct (JS.truthy (p_collectionId param)); run;
    destruct (p_readOnly param); run; rewrite ?H1, ?H2; run; by eexists.
Qed.

Lemma createResource_invalid_type_witness :
  ∃ w',
    createResource env_ok alice
      (mkParam None "pdf" None None None None None None None None) world0
    = (inl (BadRequestException "Invalid resource type"), w') ∧
    resources w' = resources world0.
Proof.
  destruct (createResource_invalid_type env_ok alice
              (mkParam None "pdf" None None None None None None None None) world0)
    as (w' & Hrun & Hr & _); [done|done|].
  by exists w'.
Defined.

(** *** The calls of an ingestion run *)

Ltac trace_tac :=
  repeat split; simpl; rewrite <- ?app_assoc; try reflexivity; try done.


Lemma truthy_or_lit_empty c : JS.truthy (Some (JS.or_lit c "")) = JS.truthy c.
Proof.
  destruct c as [s|]; simpl; [|done].
  destruct (String.eqb s "") eqn:E; simpl; [done|by rewrite E].
Qed.

Lemma stage_link_full param data w :
  ∃ p0 w0 evs,
    stage_link param data w = (inr p0, w0) ∧
    p_storageKey p0 = resolved_storageKey w param data ∧
    p_content p0 = Some (JS.or_lit (p_content param) "") ∧
    p_title p0 = p_title param ∧
    frame w w0 evs ∧ blobs w0 = blobs w ∧ forallb is_log evs = true.
Proof.
  unfold stage_link, resolved_storageKey.
  destruct (JS.truthy (m_linkId data)); run.
  - destruct (find_first _ (weblinks w)); run.
    + eexists _, _, []. repeat split; eauto. apply frame_refl.
    + eexists _, _, [_]. repeat split; eauto.
  - eexists _, _, []. repeat split; eauto. apply frame_refl.
Qed.

Lemma logs_no_crawl evs : forallb is_log evs = true → crawl_events evs = [].
Proof.
  induction evs as [|ev evs IH]; simpl; [done|].
  intros [Hev Hevs]%andb_true_iff. destruct ev; try done; simpl; auto.
Qed.

(** The reader is called in the content stage only, once, and only when
    no key was resolved, the content is empty and the url is set. *)
Lemma stage_content_crawl E param data p0 w0 c0 :
  p_content p0 = Some c0 →
  ∃ evs,
    trace (stage_content E param data p0 w0).2 = trace w0 ++ evs ∧
    crawl_events evs
    = if negb (JS.truthy (p_storageKey p0)) && negb (JS.truthy (Some c0))
         && JS.truthy (m_url data)
      then [EvCrawl (default "" (m_url data))] else [].
Proof.
  intros Hc0. unfold stage_content.
  destruct (JS.truthy (p_storageKey p0)) eqn:Tsk; simpl.
  - unfold minio_downloadData. run.
    destruct (blobs w0 !! _); run; eexists [_]; trace_tac.
  - rewrite Hc0. simpl.
    destruct (String.eqb c0 "") eqn:Tc; simpl;
      [destruct (JS.truthy (m_url data)) eqn:Tu; simpl|].
    + unfold rag_crawlFromRemoteReader, minio_uploadData. run.
      destruct (crawlFromRemoteReader E _) as [msg|[c t]]; run.
      * eexists [_]; trace_tac.
      * destruct (uploadData_fault E _ c); run; [eexists [_; _]|eexists [_; _; _]]; trace_tac.
    + unfold minio_uploadData. run. rewrite Hc0. simpl.
      destruct (uploadData_fault E _ c0); run; [eexists [_]|eexists [_; _]]; trace_tac.
    + unfold minio_uploadData. run. rewrite Hc0. simpl.
      destruct (uploadData_fault E _ c0); run; [eexists [_]|eexists [_; _]]; trace_tac.
Qed.

Lemma stage_index_trace E user param data p1 w1 content :
  p_content p1 = Some content →
  ∃ evs,
    trace (stage_index E user param data p1 w1).2 = trace w1 ++ evs ∧
    crawl_events evs = [] ∧
    ((stage_index E user param data p1 w1).1 = inr tt →
     index_events evs = expected_submission E user param data content).
Proof.
  intros Hc. unfold stage_index, expected_submission. rewrite Hc. simpl.
  destruct (String.eqb content "") eqn:Ec; simpl.
  - run. exists []. by rewrite app_nil_r.
  - unfold rag_indexContent, rag_saveDataForUser. run.
    destruct (indexContent E _) as [msg|chunks]; run.
    + eexists [_]; trace_tac.
    + destruct (saveDataForUser_fault E _ _); run;
        eexists [_; _]; trace_tac.
Qed.

Lemma stage_finish_trace E user param data p1 w2 :
  trace (stage_finish E user param data p1 w2).2
  = trace w2 ++ [finish_log user param;
                 EvResourceUpdate (p_resourceId param) (Some (u_id user))
                   (finish_update E data p1)].
Proof.
  unfold stage_finish, prisma_resource_update. run.
  destruct (p_resourceId param); run; [|by rewrite <- app_assoc].
  destruct (update_first _ _ _) as [[? ?]|]; run; by rewrite <- app_assoc.
Qed.

(** A returning run went through the four stages. *)
Lemma indexResource_ok_inv E user param w w' :
  indexResource E user param w = (inr tt, w') →
  ∃ data p0 w0 p1 w1 w2,
    p_data param = Some data ∧
    stage_link param data w = (inr p0, w0) ∧
    stage_content E param data p0 w0 = (inr p1, w1) ∧
    stage_index E user param data p1 w1 = (inr tt, w2) ∧
    stage_finish E user param data p1 w2 = (inr tt, w').
Proof.
  intros H.
  destruct (p_data param) as [data|] eqn:Hd; [|by unfold indexResource in H; rewrite Hd in H].
  rewrite (indexResource_stages E user param data Hd) in H.
  apply bind_ok_inv in H as (p0 & w0 & H0 & H).
  apply bind_ok_inv in H as (p1 & w1 & H1 & H).
  apply bind_ok_inv in H as ([] & w2 & H2 & H).
  by exists data, p0, w0, p1, w1, w2.
Qed.

Lemma truthy_Some_inv o : JS.truthy o = true → ∃ s, o = Some s ∧ s ≠ "".
Proof.
  destruct o as [s|]; simpl; [|done]. intros H. exists s. split; [done|].
  intros ->. done.
Qed.

(** The remote reader is called at most once in a run, whatever its
    outcome, and only when no storage key was resolved and the request
    carries no content; the call is made with the url of the request's
    data object. *)
Theorem indexResource_crawls_at_most_once
    (E : Env) (user : User) (param : UpsertResourceRequest) (w : World) :
  ∃ evs,
    trace (indexResource E user param w).2 = trace w ++ evs ∧
    (crawl_events evs = [] ∨
     ∃ data url,
       p_data param = Some data ∧ m_url data = Some url ∧ url ≠ "" ∧
       crawl_events evs = [EvCrawl url] ∧
       JS.truthy (resolved_storageKey w param data) = false ∧
       JS.truthy (p_content param) = false).
Proof.
  destruct (p_data param) as [data|] eqn:Hd.
  2:{ unfold indexResource. rewrite Hd. exists []. simpl. rewrite app_nil_r. auto. }
  rewrite (indexResource_stages E user param data Hd).
  destruct (stage_link_full param data w)
    as (p0 & w0 & evs0 & H0 & Hsk & Hc0 & _ & (_ & _ & _ & Ht0 & _) & _ & Hlog0).
  rewrite (bind_inr _ _ _ _ _ H0).
  destruct (stage_content_crawl E param data p0 w0 _ Hc0) as (evs1 & Ht1 & Hcr1).
  apply logs_no_crawl in Hlog0.
  assert (crawl_events evs1 = [] ∨
          ∃ url, m_url data = Some url ∧ url ≠ "" ∧ crawl_events evs1 = [EvCrawl url] ∧
                 JS.truthy (resolved_storageKey w param data) = false ∧
                 JS.truthy (p_content param) = false) as Hcases.
  { rewrite truthy_or_lit_empty, Hsk in Hcr1.
    destruct (JS.truthy (resolved_storageKey w param data)); simpl in Hcr1; [by left|].
    destruct (JS.truthy (p_content param)); simpl in Hcr1; [by left|].
    destruct (JS.truthy (m_url data)) eqn:Tu; [|by left].
    apply truthy_Some_inv in Tu as (url & Hu & Hne). rewrite Hu in Hcr1. simpl in Hcr1.
    right. by exists url. }
  assert (∀ evs2, crawl_events evs2 = [] →
            crawl_events (evs0 ++ evs1 ++ evs2) = [] ∨
            ∃ data0 url,
              Some data = Some data0 ∧ m_url data0 = Some url ∧ url ≠ "" ∧
              crawl_events (evs0 ++ evs1 ++ evs2) = [EvCrawl url] ∧
              JS.truthy (resolved_storageKey w param data0) = false ∧
              JS.truthy (p_content param) = false) as Hfin.
  { intros evs2 H2. unfold crawl_events in *.
    rewrite !List.filter_app, Hlog0, H2, app_nil_r. simpl.
    destruct Hcases as [->|(url & ? & ? & -> & ? & ?)]; [by left|].
    right. by exists data, url. }
  destruct (stage_content E param data p0 w0) as [[e|p1] w1] eqn:H1.
  { rewrite (bind_inl _ _ _ _ _ H1). simpl in *.
    exists (evs0 ++ evs1 ++ []). split; [by rewrite Ht1, Ht0, app_nil_r, app_assoc|].
    by apply Hfin. }
  rewrite (bind_inr _ _ _ _ _ H1). simpl in Ht1.
  pose proof (stage_content_spec E param data p0 w0 (ex_intro _ _ Hc0)) as S1.
  rewrite H1 in S1. destruct S1 as (key & content & _ & _ & Ec & _).
  destruct (stage_index_trace E user param data p1 w1 content Ec) as (evs2 & Ht2 & Hcr2 & _).
  destruct (stage_index E user param data p1 w1) as [[e|[]] w2] eqn:H2.
  { rewrite (bind_inl _ _ _ _ _ H2). simpl in *.
    exists (evs0 ++ evs1 ++ evs2). split; [by rewrite Ht2, Ht1, Ht0, !app_assoc|].
    by apply Hfin. }
  rewrite (bind_inr _ _ _ _ _ H2). simpl in Ht2.
  rewrite stage_finish_trace.
  eexists (evs0 ++ evs1 ++ evs2 ++ [_; _]).
  split; [by rewrite Ht2, Ht1, Ht0, !app_assoc|].
  apply Hfin. unfold crawl_events in *. by rewrite List.filter_app, Hcr2.
Qed.

(** When a run returns, what went to the indexing interface is determined
    by the content now stored under the row's storage key: nothing when it
    is empty, and otherwise that content, cleaned, with the metadata of the
    request, followed by the chunks of the indexer. *)
Theorem indexResource_submits_stored_content
    (E : Env) (user : User) (param : UpsertResourceRequest) (w w' : World) :
  indexResource E user param w = (inr tt, w') →
  ∃ data rid row key content evs,
    p_data param = Some data ∧
    p_resourceId param = Some rid ∧
    find_first (resource_where rid (Some (u_id user))) (resources w') = Some row ∧
    r_storageKey row = Some key ∧
    blobs w' !! key = Some content ∧
    trace w' = trace w ++ evs ∧
    index_events evs = expected_submission E user param data content.
Proof.
  intros H.
  apply indexResource_ok_inv in H as (data & p0 & w0 & p1 & w1 & w2 & Hd & H0 & H1 & H2 & H3).
  destruct (stage_link_full param data w)
    as (p0' & w0' & evs0 & H0' & Hsk & Hc0 & _ & F0 & Hb0 & Hlog0).
  assert (p0' = p0 ∧ w0' = w0) as [-> ->] by (rewrite H0 in H0'; by simplify_eq).
  pose proof (stage_content_spec E param data p0 w0 (ex_intro _ _ Hc0)) as S1.
  rewrite H1 in S1. destruct S1 as (key & content & evs1 & Ek & Ec & Hbk & _ & F1 & I1).
  destruct (stage_index_trace E user param data p1 w1 content Ec) as (evs2 & Ht2 & _ & Hidx).
  destruct (stage_index_spec E user param data p1 w1) as (r & w2' & evs2' & H2' & _ & Hb2 & _).
  assert (r = inr tt ∧ w2' = w2) as [-> ->] by (rewrite H2 in H2'; by simplify_eq).
  rewrite H2 in Ht2, Hidx. simpl in Ht2, Hidx.
  specialize (Hidx eq_refl).
  unfold stage_finish in H3. run_in H3.
  pose proof (prisma_resource_update_spec (p_resourceId param) (Some (u_id user))
                (finish_update E data p1)
                (with_trace (trace w2 ++ [finish_log user param]) w2)) as S3.
  unfold mbind, M_bind in H3.
  destruct (prisma_resource_update _ _ _ _) as [[e|row] w3]; [done|]. simplify_eq.
  destruct S3 as (rid & old & Erid & _ & Hrow & Hfind & Hw').
  destruct F0 as (_ & _ & _ & Ht0 & _). destruct F1 as (_ & _ & _ & Ht1 & _).
  assert (index_events evs0 = []) as I0.
  { clear -Hlog0. induction evs0 as [|ev evs IH]; simpl in *; [done|].
    apply andb_true_iff in Hlog0 as [Hev Hl]. destruct ev; try done. simpl. auto. }
  eexists data, rid, row, key, content, (evs0 ++ evs1 ++ evs2 ++ [_; _]).
  split; [done|]. split; [done|]. split; [done|].
  split; [rewrite Hrow; unfold finish_update; simpl; by rewrite Ek|].
  split; [rewrite Hw'; simpl; by rewrite Hb2|].
  split; [rewrite Hw'; simpl; by rewrite Ht2, Ht1, Ht0, <- !app_assoc|].
  by rewrite !index_events_app, I0, I1, Hidx, app_nil_r.
Qed.

Lemma indexResource_submits_stored_content_witness :
  let note := mkParam (Some "r-1") "note" None None None (Some (mkMeta None None None None))
                      None None None None in
  (indexResource env_ok alice note world0).1 = inr tt ∧
  ∃ evs,
    trace (indexResource env_ok alice note world0).2 = trace world0 ++ evs ∧
    index_events evs = [].
Proof.
  intros note.
  assert (Hrun : indexResource env_ok alice note world0
                 = (inr tt, (indexResource env_ok alice note world0).2))
    by (apply (run_eq (indexResource env_ok alice note world0)); vm_compute; reflexivity).
  split; [by rewrite Hrun|].
  destruct (indexResource_submits_stored_content env_ok alice note world0 _ Hrun)
    as (data & rid & row & key & content & evs & Hd & Hrid & Hrow & Hk & Hb & Ht & Hidx).
  exists evs. split; [exact Ht|].
  injection Hd as <-. injection Hrid as <-.
  assert (key = "resource/r-1") as ->.
  { assert (r_storageKey <$> find_first (resource_where "r-1" (Some (u_id alice)))
              (resources (indexResource env_ok alice note world0).2)
            = Some (Some "resource/r-1")) as Hk' by (by vm_compute).
    rewrite Hrow in Hk'. simpl in Hk'. congruence. }
  assert (blobs (indexResource env_ok alice note world0).2 !! "resource/r-1" = Some "")
    as Hb' by (by vm_compute).
  rewrite Hb in Hb'. injection Hb' as ->. exact Hidx.
Defined.

(** *** The status after a delivery *)

(** For a known user and an existing row, a delivery of the job leaves
    the row either in finish, when [finalizeResource] returns, or in
    failed, when it throws; it is never left in processing, and rows are
    neither added nor removed. *)
Theorem finalizeResource_settles
    (E : Env) (job : FinalizeResourceParam) (w : World) (user : User)
    (rid : string) (row : Resource) :
  find_first (λ u, u_id u =? f_userId job) (users w) = Some user →
  p_resourceId (f_param job) = Some rid →
  find_first (resource_where rid (Some (u_id user))) (resources w) = Some row →
  ∃ r w' row',
    finalizeResource E job w = (r, w') ∧
    find_first (resource_where rid (Some (u_id user))) (resources w') = Some row' ∧
    ((r = inr tt ∧ r_indexStatus row' = finish) ∨
     (∃ e, r = inl e ∧ r_indexStatus row' = failed)) ∧
    r_indexStatus row' ≠ processing ∧
    length (resources w') = length (resources w).
Proof.
  intros Hu Hrid Hrow. unfold finalizeResource. run. rewrite Hu. run.
  destruct (indexResource E user (f_param job) w) as [[e|[]] w1] eqn:Hrun.
  - destruct (indexResource_throws E user (f_param job) w e w1 Hrun)
      as (evs & _ & Hr1 & Hn1 & _ & _).
    pose proof (prisma_resource_update_spec (p_resourceId (f_param job)) (Some (u_id user))
                  (mkUpdate None None None None None None (Some failed) None)
                  (with_trace (trace w1 ++ [EvLog "error" "finalize resource error"]) w1)) as S.
    destruct (prisma_resource_update _ _ _ _) as [[e'|row'] w2] eqn:Eup.
    + destruct S as (_ & _ & Hnone). rewrite Hrid in Hnone. simpl in Hnone.
      rewrite Hr1 in Hnone. congruence.
    + destruct S as (rid' & old & Hrid' & Hold & Hrow' & Hfind & Hw2).
      rewrite Hrid in Hrid'. simplify_eq. simpl.
      eexists _, _, _. split; [done|]. split; [exact Hfind|].
      split; [right; by eexists|]. split; [done|].
      unfold prisma_resource_update in Eup. run_in Eup. rewrite Hrid in Eup. run_in Eup.
      destruct (update_first _ _ (resources w1)) as [[y l']|] eqn:Eu; [|done].
      run_in Eup. simplify_eq. simpl.
      apply update_first_Some in Eu as (_ & _ & _ & Hlen). by rewrite Hlen, Hr1.
  - apply indexResource_ok_inv in Hrun
      as (data & p0 & w0 & p1 & w1' & w2 & Hd & H0 & H1 & H2 & H3).
    destruct (stage_link_full (f_param job) data w)
      as (p0' & w0' & evs0 & H0' & _ & Hc0 & _ & (_ & Hr0 & _) & _).
    assert (p0' = p0 ∧ w0' = w0) as [-> ->] by (rewrite H0 in H0'; by simplify_eq).
    pose proof (stage_content_spec E (f_param job) data p0 w0 (ex_intro _ _ Hc0)) as S1.
    rewrite H1 in S1. destruct S1 as (_ & _ & _ & _ & _ & _ & _ & (_ & Hr1 & _) & _).
    destruct (stage_index_spec E user (f_param job) data p1 w1')
      as (r & w2' & evs2 & H2' & (_ & Hr2 & _) & _).
    assert (r = inr tt ∧ w2' = w2) as [-> ->] by (rewrite H2 in H2'; by simplify_eq).
    unfold stage_finish, prisma_resource_update in H3. run_in H3.
    rewrite Hrid in H3. run_in H3.
    destruct (update_first _ _ (resources w2)) as [[y l']|] eqn:Eu; [|done].
    run_in H3. simplify_eq.
    pose proof Eu as Eu'. apply update_first_Some in Eu' as (_ & _ & _ & Hlen).
    apply update_first_find in Eu as (Hfind & x & _ & ->);
      [|by intros; apply resource_where_apply_update].
    eexists _, _, _. split; [done|]. simpl. split; [exact Hfind|].
    split; [by left|]. split; [done|]. by rewrite Hlen, Hr2, Hr1, Hr0.
Qed.

Lemma finalizeResource_settles_witness :
  find_first (resource_where "r-1" (Some (u_id alice))) (resources world0) = Some row_r1 ∧
  r_indexStatus row_r1 = processing ∧
  ∃ r w' row',
    finalizeResource env_crawl_fails job_r1 world0 = (r, w') ∧
    find_first (resource_where "r-1" (Some (u_id alice))) (resources w') = Some row' ∧
    r_indexStatus row' ≠ processing.
Proof.
  split; [reflexivity|]. split; [reflexivity|].
  destruct (finalizeResource_settles env_crawl_fails job_r1 world0 alice "r-1" row_r1
              eq_refl eq_refl eq_refl) as (r & w' & row' & Hrun & Hfind & _ & Hst & _).
  by exists r, w', row'.
Defined.

(** *** Unique ids *)

Ltac nodup_tac := refine (bool_decide_unpack (NoDup _) _); vm_compute; exact I.


Section UniqueKeys.
Context {A : Type} (key : A → string).

Lemma find_first_unique (q : A → bool) k l x :
  NoDup (key <$> l) → x ∈ l → key x = k → q x = true →
  find_first (λ r, String.eqb (key r) k && q r) l = Some x.
Proof.
  induction l as [|y l IH]; simpl; intros Hnd Hin Hk Hq; [by apply elem_of_nil in Hin|].
  apply NoDup_cons in Hnd as [Hy Hnd]. apply elem_of_cons in Hin as [<-|Hin].
  - by rewrite Hk, String.eqb_refl, Hq.
  - destruct (String.eqb (key y) k) eqn:Ey.
    + apply String.eqb_eq in Ey. exfalso. apply Hy.
      rewrite Ey, <- Hk. by apply list_elem_of_fmap_2.
    + simpl. by apply IH.
Qed.

Lemma find_first_none (p : A → bool) l :
  (∀ x, x ∈ l → p x = false) → find_first p l = None.
Proof.
  induction l as [|y l IH]; simpl; intros H; [done|].
  rewrite (H y) by apply list_elem_of_here. apply IH. intros x Hx. apply H.
  by apply list_elem_of_further.
Qed.

Lemma update_all_keys (p : A → bool) f l :
  (∀ x, key (f x) = key x) → key <$> update_all p f l = key <$> l.
Proof.
  intros Hf. unfold update_all. induction l as [|y l IH]; [done|].
  csimpl. f_equal; [by destruct (p y); rewrite ?Hf|apply IH].
Qed.

Lemma update_first_unique (q : A → bool) k f l y l' :
  NoDup (key <$> l) →
  update_first (λ r, String.eqb (key r) k && q r) f l = Some (y, l') →
  l' = update_all (λ r, String.eqb (key r) k && q r) f l.
Proof.
  revert l'. induction l as [|x l IH]; simpl; intros l' Hnd H; [done|].
  apply NoDup_cons in Hnd as [Hx Hnd].
  destruct (String.eqb (key x) k && q x) eqn:Ex.
  - simplify_eq. f_equal. unfold update_all.
    rewrite <- (map_id l) at 1. apply map_ext_in. intros a Ha.
    destruct (String.eqb (key a) k) eqn:Ea; [|done].
    apply andb_true_iff in Ex as [Ex _].
    apply String.eqb_eq in Ex, Ea. exfalso. apply Hx. rewrite Ex, <- Ea.
    apply list_elem_of_fmap_2. by apply list_elem_of_In.
  - destruct (update_first _ f l) as [[z l'']|] eqn:E; [|done]. simplify_eq.
    f_equal. by eapply IH.
Qed.

Lemma NoDup_key_inj l x y :
  NoDup (key <$> l) → x ∈ l → y ∈ l → key x = key y → x = y.
Proof.
  induction l as [|z l IH]; simpl; intros Hnd Hx Hy Hk; [by apply elem_of_nil in Hx|].
  apply NoDup_cons in Hnd as [Hz Hnd].
  apply elem_of_cons in Hx as [->|Hx]; apply elem_of_cons in Hy as [->|Hy]; try done.
  - exfalso. apply Hz. rewrite Hk. by apply list_elem_of_fmap_2.
  - exfalso. apply Hz. rewrite <- Hk. by apply list_elem_of_fmap_2.
  - by apply IH.
Qed.

Lemma elem_of_update_all (p : A → bool) f l y :
  y ∈ update_all p f l → ∃ x, x ∈ l ∧ y = (if p x then f x else x).
Proof.
  unfold update_all. intros (x & -> & Hx)%list_elem_of_fmap. eauto.
Qed.
End UniqueKeys.

(** *** Soft deletion *)

Definition deleted_at (t : Z) : ResourceUpdateInput :=
  mkUpdate None None None None None None None (Some t).

(** The owner's [deleteResource] stamps [deletedAt] on the row and asks
    the RAG service to drop its data; the row stays in the table and the
    stored document stays in the blob store. With unique resource ids the
    resource is gone for the detail and delete queries, so a second delete
    is answered with "Resource not found". *)
Theorem deleteResource_soft_deletes
    (E : Env) (user : User) (rid : string) (w : World) (row : Resource) :
  NoDup (r_resourceId <$> resources w) →
  row ∈ resources w →
  r_resourceId row = rid →
  r_deletedAt row = None →
  r_userId row = u_id user →
  ∃ r w',
    deleteResource E user rid w = (r, w') ∧
    (deleteResourceData_fault E (u_id user) rid = None → ∃ row', r = inr (tt, row')) ∧
    resources w'
      = update_all (λ r, String.eqb (r_resourceId r) rid)
          (apply_update (now w) (deleted_at (now w))) (resources w) ∧
    length (resources w') = length (resources w) ∧
    blobs w' = blobs w ∧
    trace w' = trace w ++ [EvDeleteResourceData (u_id user) rid;
                           EvResourceUpdate (Some rid) None (deleted_at (now w))] ∧
    find_first (live_resource rid) (resources w') = None ∧
    deleteResource E user rid w' = (inl (BadRequestException "Resource not found"), w').
Proof.
  intros Hnd Hin Hid Hlive Hown.
  assert (find_first (live_resource rid) (resources w) = Some row) as Hf.
  { apply (find_first_unique r_resourceId (not_deleted r_deletedAt)); try done.
    unfold not_deleted. by rewrite Hlive. }
  assert (find_first (resource_where rid None) (resources w) = Some row) as Hf'.
  { by apply (find_first_unique r_resourceId (λ _, true)). }
  destruct (update_first_found _ (apply_update (now w) (deleted_at (now w))) _ _ Hf')
    as (l' & Hup).
  assert (l' = update_all (λ r, String.eqb (r_resourceId r) rid)
                 (apply_update (now w) (deleted_at (now w))) (resources w)) as Hl'.
  { transitivity (update_all (resource_where rid None)
                    (apply_update (now w) (deleted_at (now w))) (resources w)).
    - by eapply (update_first_unique r_resourceId (λ _, true) rid).
    - unfold update_all. apply map_ext. intros r. unfold resource_where.
      by rewrite andb_true_r. }
  assert (find_first (live_resource rid) l' = None) as Hgone.
  { apply find_first_none. intros y Hy. rewrite Hl' in Hy.
    apply elem_of_update_all in Hy as (x & Hx & ->). unfold live_resource.
    destruct (String.eqb (r_resourceId x) rid) eqn:Ex; simpl.
    - by rewrite Ex.
    - by rewrite Ex. }
  unfold deleteResource at 1. run. fold (live_resource rid). rewrite Hf.
  assert ((r_userId row =? u_id user) = true) as -> by (by apply Z.eqb_eq).
  simpl. unfold promise_all2, rag_deleteResourceData, prisma_resource_update. run.
  fold (deleted_at (now w)).
  destruct (deleteResourceData_fault E (u_id user) rid) as [msg|] eqn:Ef; run;
    rewrite Hup; run.
  all: eexists _, _; split; [reflexivity|]; simpl.
  all: split; [try done; intros _; by eexists|].
  all: split; [exact Hl'|].
  all: split; [rewrite Hl'; unfold update_all; by rewrite length_map|].
  all: split; [done|]. all: split; [by rewrite <- app_assoc|]. all: split; [exact Hgone|].
  all: unfold deleteResource; run; fold (live_resource rid); simpl; by rewrite Hgone.
Qed.

Lemma deleteResource_soft_deletes_witness :
  row_r1 ∈ resources world0 ∧
  ∃ r w',
    deleteResource env_ok alice "r-1" world0 = (r, w') ∧
    length (resources w') = 2%nat ∧
    deleteResource env_ok alice "r-1" w'
      = (inl (BadRequestException "Resource not found"), w').
Proof.
  assert (row_r1 ∈ resources world0) as Hin by apply list_elem_of_here.
  split; [exact Hin|].
  destruct (deleteResource_soft_deletes env_ok alice "r-1" world0 row_r1)
    as (r & w' & Hrun & _ & _ & Hlen & _ & _ & _ & Hagain);
    [nodup_tac|exact Hin|reflexivity|reflexivity|reflexivity|].
  by exists r, w'.
Defined.

Lemma deleteResource_non_owner_witness :
  r_userId row_r1 ≠ u_id bob ∧
  deleteResource env_ok bob "r-1" world0 = (inl UnauthorizedException, world0).
Proof.
  split; [done|].
  by apply (deleteResource_non_owner env_ok bob "r-1" world0 row_r1).
Defined.

Lemma deleteCollection_non_owner_witness :
  c_userId coll_c1 ≠ u_id bob ∧
  deleteCollection bob "c-1" world0 = (inl UnauthorizedException, world0).
Proof.
  split; [done|].
  by apply (deleteCollection_non_owner bob "c-1" world0 coll_c1).
Defined.

Lemma paginate_subset {A} (skip take : Z) (l rows : list A) :
  paginate skip take l = inr rows → rows ⊆ l.
Proof.
  unfold paginate. destruct (skip <? 0); [done|].
  destruct (0 <=? take); intros [= <-].
  - etrans; [apply subseteq_take|apply subseteq_drop].
  - intros x Hx. apply list_elem_of_In, in_rev, list_elem_of_In in Hx.
    apply subseteq_take, subseteq_drop in Hx.
    by apply list_elem_of_In, in_rev, list_elem_of_In.
Qed.

Definition collection_deleted_at (t : Z) (c : Collection) : Collection :=
  mkCollection (c_collectionId c) (c_userId c) (c_title c) (c_description c)
               (c_isPublic c) (Some t) t.

(** The owner's [deleteCollection] stamps [deletedAt] on the collection
    and on nothing else: its resources and their links stay as they are.
    With unique collection ids the collection is then on no page of the
    owner's list, and a second delete is answered with "Collection not
    found". *)
Theorem deleteCollection_soft_deletes
    (user : User) (cid : string) (w : World) (coll : Collection) :
  NoDup (c_collectionId <$> collections w) →
  coll ∈ collections w →
  c_collectionId coll = cid →
  c_deletedAt coll = None →
  c_userId coll = u_id user →
  ∃ w',
    deleteCollection user cid w = (inr (collection_deleted_at (now w) coll), w') ∧
    collections w'
      = update_all (λ c, String.eqb (c_collectionId c) cid && (c_userId c =? u_id user))
          (collection_deleted_at (now w)) (collections w) ∧
    resources w' = resources w ∧
    links w' = links w ∧
    blobs w' = blobs w ∧
    deleteCollection user cid w' = (inl (BadRequestException "Collection not found"), w') ∧
    ∀ page pageSize rows c,
      listCollections user page pageSize w' = (inr rows, w') →
      c ∈ rows → c_collectionId c ≠ cid.
Proof.
  intros Hnd Hin Hid Hlive Hown.
  assert (find_first (live_collection cid) (collections w) = Some coll) as Hf.
  { apply (find_first_unique c_collectionId (not_deleted c_deletedAt)); try done.
    unfold not_deleted. by rewrite Hlive. }
  assert (find_first (λ c, String.eqb (c_collectionId c) cid && (c_userId c =? u_id user))
            (collections w) = Some coll) as Hf'.
  { apply (find_first_unique c_collectionId (λ c, c_userId c =? u_id user)); try done.
    by apply Z.eqb_eq. }
  destruct (update_first_found _ (collection_deleted_at (now w)) _ _ Hf') as (l' & Hup).
  pose proof (update_first_unique c_collectionId _ cid _ _ _ _ Hnd Hup) as Hl'.
  assert (∀ c, c ∈ l' → c_collectionId c = cid → c_deletedAt c = Some (now w)) as Hdel.
  { intros c Hc Hk. rewrite Hl' in Hc. apply elem_of_update_all in Hc as (x & Hx & ->).
    assert (x = coll) as ->.
    { apply (NoDup_key_inj c_collectionId (collections w)); try done.
      destruct (_ && _) in Hk; simpl in Hk; congruence. }
    rewrite Hid, String.eqb_refl, Hown, Z.eqb_refl. done. }
  assert (find_first (live_collection cid) l' = None) as Hgone.
  { apply find_first_none. intros c Hc. unfold live_collection, not_deleted.
    destruct (String.eqb (c_collectionId c) cid) eqn:Ec; [|done].
    apply String.eqb_eq in Ec. by rewrite (Hdel c Hc Ec). }
  unfold deleteCollection at 1. run. fold (live_collection cid). rewrite Hf.
  assert ((c_userId coll =? u_id user) = true) as -> by (by apply Z.eqb_eq).
  simpl. unfold collection_deleted_at in Hup. rewrite Hup. run.
  eexists. split; [reflexivity|]. simpl.
  split; [exact Hl'|]. do 3 (split; [done|]).
  split.
  { unfold deleteCollection. run. fold (live_collection cid). simpl. by rewrite Hgone. }
  intros page pageSize rows c Hrun Hc Hk.
  unfold listCollections in Hrun. run_in Hrun.
  destruct (paginate _ _ _) as [e|rows'] eqn:Hp; [done|]. simplify_eq.
  apply paginate_subset in Hp. apply Hp in Hc.
  rewrite order_desc_perm in Hc.
  apply list_elem_of_In, List.filter_In in Hc as [Hc Hlv]. apply list_elem_of_In in Hc.
  apply andb_true_iff in Hlv as [_ Hlv]. unfold not_deleted in Hlv.
  by rewrite (Hdel c Hc Hk) in Hlv.
Qed.

Lemma deleteCollection_soft_deletes_witness :
  coll_c1 ∈ collections world0 ∧
  ∃ w',
    deleteCollection alice "c-1" world0 = (inr (collection_deleted_at 1000 coll_c1), w') ∧
    resources w' = resources world0 ∧
    links w' = [("c-1", "r-1"); ("c-1", "r-2")].
Proof.
  assert (coll_c1 ∈ collections world0) as Hin by apply list_elem_of_here.
  split; [exact Hin|].
  destruct (deleteCollection_soft_deletes alice "c-1" world0 coll_c1)
    as (w' & Hrun & _ & Hr & Hl & _);
    [nodup_tac|exact Hin|reflexivity|reflexivity|reflexivity|].
  exists w'. split; [exact Hrun|]. split; [exact Hr|]. by rewrite Hl.
Defined.

(** *** Updates by the owner *)

(** [updateResource] on the caller's own row writes the title, visibility,
    read-only flag and data of the request and nothing else: index status,
    word count, storage key and deletion mark stay as they were, and
    neither the remote reader nor the indexing interface is called, also
    when the request carries new content. Without content the blob store
    is untouched and the call returns. *)
Theorem updateResource_owner
    (E : Env) (user : User) (param : UpsertResourceRequest) (w : World)
    (rid : string) (old : Resource) :
  p_resourceId param = Some rid →
  find_first (resource_where rid (Some (u_id user))) (resources w) = Some old →
  ∃ r w' evs,
    updateResource E user param w = (r, w') ∧
    trace w' = trace w ++ evs ∧
    index_events evs = [] ∧ crawl_events evs = [] ∧
    (JS.truthy (p_content param) = false → blobs w' = blobs w ∧ ∃ row', r = inr row') ∧
    match r with
    | inr row' =>
        row' = apply_update (now w)
                 (mkUpdate (p_title param) (p_isPublic param) (p_readOnly param)
                           (p_data param) None None None None) old ∧
        find_first (resource_where rid (Some (u_id user))) (resources w') = Some row' ∧
        r_indexStatus row' = r_indexStatus old ∧
        r_wordCount row' = r_wordCount old ∧
        r_storageKey row' = r_storageKey old ∧
        r_deletedAt row' = r_deletedAt old
    | inl e => resources w' = resources w
    end.
Proof.
  intros Hrid Hold. unfold updateResource. rewrite Hrid.
  assert (∀ w1 evs1,
            resources w1 = resources w → now w1 = now w →
            trace w1 = trace w ++ evs1 → index_events evs1 = [] → crawl_events evs1 = [] →
            ∃ row' w' evs,
              prisma_resource_update (Some rid) (Some (u_id user))
                (mkUpdate (p_title param) (p_isPublic param) (p_readOnly param)
                          (p_data param) None None None None) w1 = (inr row', w') ∧
              blobs w' = blobs w1 ∧
              trace w' = trace w ++ evs ∧ index_events evs = [] ∧ crawl_events evs = [] ∧
              row' = apply_update (now w)
                       (mkUpdate (p_title param) (p_isPublic param) (p_readOnly param)
                                 (p_data param) None None None None) old ∧
              find_first (resource_where rid (Some (u_id user))) (resources w') = Some row')
    as Hupd.
  { intros w1 evs1 Hr1 Hn1 Ht1 Hi1 Hc1.
    pose proof (prisma_resource_update_spec (Some rid) (Some (u_id user))
                  (mkUpdate (p_title param) (p_isPublic param) (p_readOnly param)
                            (p_data param) None None None None) w1) as S.
    destruct (prisma_resource_update _ _ _ w1) as [[e|row'] w'].
    - destruct S as (_ & _ & Hnone). rewrite Hr1 in Hnone. congruence.
    - destruct S as (rid' & old' & [= <-] & Hold' & Hrow & Hfind & Hw').
      rewrite Hr1, Hold in Hold'. simplify_eq.
      eexists _, _, (evs1 ++ [_]). split; [done|].
      rewrite Hw'. simpl. rewrite Ht1, Hn1.
      split; [done|]. split; [by rewrite app_assoc|].
      split; [by rewrite index_events_app, Hi1|].
      split; [unfold crawl_events in *; by rewrite List.filter_app, Hc1|].
      split; [done|]. rewrite Hw', Hn1 in Hfind. exact Hfind. }
  destruct (JS.truthy (p_content param)) eqn:Tc.
  - unfold minio_uploadData.
    destruct (JS.truthy (p_storageKey param)) eqn:Tk; run.
    + destruct (uploadData_fault E _ _) as [msg|]; run.
      * eexists _, _, [_]. split; [done|]. simpl. by repeat split.
      * match goal with
        | |- context [prisma_resource_update _ _ _ ?w1] =>
            destruct (Hupd w1 [EvUpload (default "" (p_storageKey param))
                                        (default "" (p_content param))])
              as (row' & w' & evs & Hrun & _ & Ht & Hi & Hc & Hrow & Hfind);
              [done|done|reflexivity|done|done|]
        end.
        rewrite Hrun.
        eexists _, _, evs. split; [done|]. split; [done|]. split; [done|]. split; [done|].
        split; [done|]. split; [done|]. split; [done|]. by rewrite Hrow.
    + eexists _, _, []. split; [done|]. simpl. rewrite app_nil_r. by repeat split.
  - run. destruct (Hupd w [] eq_refl eq_refl) as
      (row' & w' & evs & Hrun & Hb & Ht & Hi & Hc & Hrow & Hfind);
      [by rewrite app_nil_r|done|done|].
    unfold mbind, M_bind, mret, M_ret. rewrite Hrun.
    eexists _, _, evs. split; [done|]. split; [done|]. split; [done|]. split; [done|].
    split; [intros _; split; [done|by eexists]|].
    split; [done|]. split; [done|]. by rewrite Hrow.
Qed.

Lemma updateResource_owner_witness :
  find_first (resource_where "r-1" (Some (u_id alice))) (resources world0) = Some row_r1 ∧
  ∃ row' w',
    updateResource env_ok alice
      (mkParam (Some "r-1") "weblink" None None (Some "Renamed") None None None
               (Some true) None) world0 = (inr row', w') ∧
    r_title row' = "Renamed" ∧ r_isPublic row' = Some true ∧
    r_indexStatus row' = processing.
Proof.
  split; [reflexivity|].
  destruct (updateResource_owner env_ok alice
              (mkParam (Some "r-1") "weblink" None None (Some "Renamed") None None None
                       (Some true) None) world0 "r-1" row_r1 eq_refl eq_refl)
    as (r & w' & evs & Hrun & _ & _ & _ & Hok & Hpost).
  destruct (Hok eq_refl) as (_ & row' & ->).
  destruct Hpost as (-> & _ & Hst & _).
  eexists _, w'. split; [exact Hrun|]. by repeat split.
Defined.

(** *** Pages *)

Lemma listCollections_page_witness :
  ∃ sorted,
    listCollections alice 1 10 world0 = (inr (take 10 (drop 0 sorted)), world0) ∧
    Forall (λ c, c_deletedAt c = None ∧ c_userId c = u_id alice) sorted.
Proof.
  destruct (listCollections_page alice 1 10 world0) as (sorted & Hrun & _ & _ & Hall);
    [lia|lia|].
  by exists sorted.
Defined.

Lemma take_pages {A} (s : Z) (n : nat) (l : list A) :
  0 ≤ s →
  take (Z.to_nat (Z.of_nat n * s)) l
  = concat (map (λ p, take (Z.to_nat s) (drop (Z.to_nat ((Z.of_nat p - 1) * s)) l))
              (seq 1 n)).
Proof.
  intros Hs. induction n as [|n IH].
  - simpl. by rewrite take_0.
  - rewrite seq_S, map_app, concat_app, <- IH. simpl. rewrite app_nil_r.
    replace (Z.to_nat (Z.of_nat (S n) * s))
      with (Z.to_nat (Z.of_nat n * s) + Z.to_nat s)%nat by nia.
    rewrite <- take_take_drop. do 3 f_equal. nia.
Qed.

Lemma filter_perm {A} (p : A → bool) (l1 l2 : list A) :
  l1 ≡ₚ l2 → List.filter p l1 ≡ₚ List.filter p l2.
Proof.
  induction 1 as [|x l1 l2 _ IH|x y l|l1 l2 l3 _ IH1 _ IH2]; simpl.
  - done.
  - destruct (p x); [by constructor|done].
  - destruct (p x), (p y); try done. apply Permutation_swap.
  - by etrans.
Qed.

(** With pairwise distinct sort keys the sorted list is determined by the
    rows, whatever their order before sorting. *)
Lemma sorted_perm_unique {A} (key : A → Z) (l1 l2 : list A) :
  NoDup (key <$> l1) →
  StronglySorted (λ a b, key b ≤ key a) l1 →
  StronglySorted (λ a b, key b ≤ key a) l2 →
  l1 ≡ₚ l2 → l1 = l2.
Proof.
  revert l2. induction l1 as [|x l1 IH]; intros l2 Hnd Hs1 Hs2 Hp.
  - by apply Permutation_nil_l in Hp.
  - destruct l2 as [|y l2]; [by apply Permutation_nil_r in Hp|].
    csimpl in Hnd. apply NoDup_cons in Hnd as [Hx Hnd].
    apply StronglySorted_inv in Hs1 as [Hs1 Hx1].
    apply StronglySorted_inv in Hs2 as [Hs2 Hy2].
    assert (x = y) as ->.
    { assert (x ∈ y :: l2) as Hxin by (rewrite <- Hp; apply list_elem_of_here).
      assert (y ∈ x :: l1) as Hyin by (rewrite Hp; apply list_elem_of_here).
      apply elem_of_cons in Hxin as [?|Hxin]; [done|].
      apply elem_of_cons in Hyin as [?|Hyin]; [done|].
      rewrite Forall_forall in Hx1, Hy2.
      pose proof (Hx1 y Hyin) as H1. pose proof (Hy2 x Hxin) as H2. simpl in H1, H2.
      exfalso. apply Hx. replace (key x) with (key y) by lia.
      by apply list_elem_of_fmap_2. }
    f_equal. apply IH; try done. by apply Permutation_cons_inv in Hp.
Qed.

Lemma order_desc_perm_unique {A} (key : A → Z) (p : A → bool) (l1 l2 : list A) :
  NoDup (key <$> List.filter p l1) → l1 ≡ₚ l2 →
  order_desc key (List.filter p l2) = order_desc key (List.filter p l1).
Proof.
  intros Hnd Hp. symmetry. apply (sorted_perm_unique key).
  - by rewrite order_desc_perm.
  - apply order_desc_sorted.
  - apply order_desc_sorted.
  - rewrite !order_desc_perm. by apply filter_perm.
Qed.

(** For a user whose live collections have pairwise distinct update
    times, reading the pages 1, ..., n of a given size one after the other,
    each from the table in whatever order it then holds its rows, yields
    the rows of the single page of n times that size: between the pages no
    collection is skipped and none is repeated. *)
Theorem listCollections_pages_tile
    (user : User) (pageSize : Z) (w : World) (ws : list World) :
  0 ≤ pageSize →
  NoDup (c_updatedAt <$> List.filter (owned_live_collection user) (collections w)) →
  Forall (λ wp, collections wp ≡ₚ collections w) ws →
  ∃ pages,
    Forall2 (λ pw rows, listCollections user (Z.of_nat pw.1) pageSize pw.2 = (inr rows, pw.2))
            (zip (seq 1 (length ws)) ws) pages ∧
    listCollections user 1 (Z.of_nat (length ws) * pageSize) w = (inr (concat pages), w).
Proof.
  intros Hs Hnd Hws.
  set (sorted := order_desc c_updatedAt
                   (List.filter (owned_live_collection user) (collections w))).
  exists (map (λ p, take (Z.to_nat pageSize)
                      (drop (Z.to_nat ((Z.of_nat p - 1) * pageSize)) sorted))
              (seq 1 (length ws))).
  split.
  - apply Forall2_fmap_r.
    assert (∀ k, Forall2 (λ pw p, listCollections user (Z.of_nat pw.1) pageSize pw.2
                   = (inr (take (Z.to_nat pageSize)
                             (drop (Z.to_nat ((Z.of_nat p - 1) * pageSize)) sorted)), pw.2))
                   (zip (seq (S k) (length ws)) ws) (seq (S k) (length ws))) as H;
      [|apply (H 0%nat)].
    induction Hws as [|wp ws Hwp Hws IH]; intros k; simpl; constructor.
    + simpl. unfold listCollections. run. rewrite paginate_page by lia.
      change (λ c, (c_userId c =? u_id user) && not_deleted c_deletedAt c)
        with (owned_live_collection user).
      rewrite (order_desc_perm_unique c_updatedAt _ (collections w) (collections wp));
        done.
    + apply IH.
  - unfold listCollections. run. rewrite paginate_page by nia.
    change (λ c, (c_userId c =? u_id user) && not_deleted c_deletedAt c)
      with (owned_live_collection user).
    fold sorted. rewrite <- take_pages by done.
    replace (Z.to_nat ((1 - 1) * (Z.of_nat (length ws) * pageSize))) with 0%nat by lia. done.
Qed.

Lemma listCollections_pages_tile_witness :
  let coll_c2 := mkCollection "c-2" 1 (Some "Later") None (Some false) None 200 in
  let w12 := with_collections [coll_c1; coll_c2] world0 in
  let w21 := with_collections [coll_c2; coll_c1] world0 in
  ∃ pages,
    Forall2 (λ pw rows, listCollections alice (Z.of_nat pw.1) 1 pw.2 = (inr rows, pw.2))
            [(1%nat, w21); (2%nat, w12)] pages ∧
    listCollections alice 1 2 w12 = (inr (concat pages), w12).
Proof.
  intros coll_c2 w12 w21.
  apply (listCollections_pages_tile alice 1 w12 [w21; w12]).
  - lia.
  - nodup_tac.
  - repeat constructor.
Defined.

(** *** Uniqueness of resource ids is kept *)

Lemma update_first_keys {A} (key : A → string) (p : A → bool) f l y l' :
  (∀ x, key (f x) = key x) →
  update_first p f l = Some (y, l') → key <$> l' = key <$> l.
Proof.
  intros Hf. revert l'. induction l as [|x l IH]; simpl; intros l' H; [done|].
  destruct (p x).
  - simplify_eq. csimpl. by rewrite Hf.
  - destruct (update_first p f l) as [[z l'']|]; [|done]. simplify_eq.
    csimpl. f_equal. by apply IH.
Qed.

Lemma prisma_resource_update_ids rid uid d w :
  r_resourceId <$> resources (prisma_resource_update rid uid d w).2
  = r_resourceId <$> resources w.
Proof.
  unfold prisma_resource_update. run. destruct rid as [rid|]; run; [|done].
  destruct (update_first _ _ (resources w)) as [[y l']|] eqn:Eu; run; [|done].
  by apply (update_first_keys r_resourceId) in Eu.
Qed.

Lemma indexResource_ids E user param w :
  r_resourceId <$> resources (indexResource E user param w).2
  = r_resourceId <$> resources w.
Proof.
  destruct (indexResource E user param w) as [[e|[]] w'] eqn:Hrun; simpl.
  - apply indexResource_throws in Hrun as (evs & _ & -> & _). done.
  - apply indexResource_ok_inv in Hrun
      as (data & p0 & w0 & p1 & w1 & w2 & Hd & H0 & H1 & H2 & H3).
    destruct (stage_link_full param data w)
      as (p0' & w0' & evs0 & H0' & _ & Hc0 & _ & (_ & Hr0 & _) & _).
    assert (p0' = p0 ∧ w0' = w0) as [-> ->] by (rewrite H0 in H0'; by simplify_eq).
    pose proof (stage_content_spec E param data p0 w0 (ex_intro _ _ Hc0)) as S1.
    rewrite H1 in S1. destruct S1 as (_ & _ & _ & _ & _ & _ & _ & (_ & Hr1 & _) & _).
    destruct (stage_index_spec E user param data p1 w1)
      as (r & w2' & evs2 & H2' & (_ & Hr2 & _) & _).
    assert (r = inr tt ∧ w2' = w2) as [-> ->] by (rewrite H2 in H2'; by simplify_eq).
    unfold stage_finish in H3. run_in H3. unfold mbind, M_bind in H3.
    pose proof (prisma_resource_update_ids (p_resourceId param) (Some (u_id user))
                  (finish_update E data p1)
                  (with_trace (trace w2 ++ [finish_log user param]) w2)) as Hids.
    destruct (prisma_resource_update _ _ _ _) as [[e|row] w3]; [done|]. simplify_eq.
    simpl in Hids. by rewrite Hids, Hr2, Hr1, Hr0.
Qed.

Lemma find_first_key_None {A} (key : A → string) k l :
  find_first (λ r, String.eqb (key r) k) l = None → k ∉ key <$> l.
Proof.
  intros Hf (x & -> & Hx)%list_elem_of_fmap.
  apply list_elem_of_In in Hx. pose proof (List.find_none _ _ Hf x Hx) as Hn.
  simpl in Hn. by rewrite String.eqb_refl in Hn.
Qed.

Lemma createResource_resources E user param w :
  resources (createResource E user param w).2 = resources w ∨
  ∃ row,
    resources (createResource E user param w).2 = resources w ++ [row] ∧
    r_resourceId row ∉ r_resourceId <$> resources w.
Proof.
  unfold createResource. run.
  destruct (JS.truthy (p_collectionId param)); run;
    destruct (p_readOnly param); run;
    destruct (String.eqb (p_resourceType param) "weblink"); run;
    try (destruct (p_data param) as [d|]; run; [|by left];
         destruct (negb (JS.truthy (m_url d)) && negb (JS.truthy (m_linkId d))); run;
         [by left|]);
    try (destruct (String.eqb (p_resourceType param) "note"); run; [|by left]).
  all: unfold prisma_resource_create; run.
  all: destruct (find_first _ (resources w)) eqn:Hf; run; [by left|].
  all: destruct (find_first _ (collections w)); run.
  all: right; eexists; split; [reflexivity|].
  all: by apply (find_first_key_None r_resourceId) in Hf.
Qed.

(** Every writing method keeps the resource ids of the table distinct:
    [createResource] refuses a generated id that is already taken, and
    the ingestion, update and delete paths rewrite rows in place. *)
Theorem resource_ids_stay_unique (E : Env) (w : World) :
  NoDup (r_resourceId <$> resources w) →
  (∀ user param, NoDup (r_resourceId <$> resources (createResource E user param w).2)) ∧
  (∀ job, NoDup (r_resourceId <$> resources (finalizeResource E job w).2)) ∧
  (∀ user param, NoDup (r_resourceId <$> resources (updateResource E user param w).2)) ∧
  (∀ user rid, NoDup (r_resourceId <$> resources (deleteResource E user rid w).2)).
Proof.
  intros Hnd. split; [|split; [|split]].
  - intros user param.
    destruct (createResource_resources E user param w) as [->|(row & -> & Hnew)]; [done|].
    rewrite fmap_app. apply NoDup_app. split; [done|]. split; [|apply NoDup_singleton].
    intros x Hx Hin. apply list_elem_of_singleton in Hin. by subst.
  - intros job. unfold finalizeResource. run.
    destruct (find_first _ (users w)) as [user|]; run; [|done].
    pose proof (indexResource_ids E user (f_param job) w) as Hids.
    destruct (indexResource E user (f_param job) w) as [[e|[]] w1]; simpl in Hids.
    + pose proof (prisma_resource_update_ids (p_resourceId (f_param job)) (Some (u_id user))
                    (mkUpdate None None None None None None (Some failed) None)
                    (with_trace (trace w1 ++ [EvLog "error" "finalize resource error"]) w1))
        as Hids'.
      destruct (prisma_resource_update _ _ _ _) as [[e'|row] w2]; simpl in *;
        by rewrite Hids', Hids.
    + simpl. by rewrite Hids.
  - intros user param. unfold updateResource.
    destruct (JS.truthy (p_content param)).
    + unfold minio_uploadData. destruct (JS.truthy (p_storageKey param)); run; [|done].
      destruct (uploadData_fault E _ _); run; [done|].
      match goal with
      | |- context [prisma_resource_update ?a ?b ?c ?w1] =>
          pose proof (prisma_resource_update_ids a b c w1) as Hids;
          destruct (prisma_resource_update a b c w1) as [[e|row] w2]
      end; simpl in *; by rewrite Hids.
    + run.
      match goal with
      | |- context [prisma_resource_update ?a ?b ?c ?w1] =>
          pose proof (prisma_resource_update_ids a b c w1) as Hids;
          destruct (prisma_resource_update a b c w1) as [[e|row] w2]
      end; simpl in *; by rewrite Hids.
  - intros user rid. unfold deleteResource. run.
    destruct (find_first _ (resources w)) as [resource|]; run; [|done].
    destruct (negb (r_userId resource =? u_id user)); run; [done|].
    unfold promise_all2, rag_deleteResourceData. run.
    destruct (deleteResourceData_fault E _ _); run.
    all: match goal with
         | |- context [prisma_resource_update ?a ?b ?c ?w1] =>
             pose proof (prisma_resource_update_ids a b c w1) as Hids;
             destruct (prisma_resource_update a b c w1) as [[e|row] w2]
         end; simpl in *; by rewrite Hids.
Qed.

Lemma resource_ids_stay_unique_witness :
  NoDup (r_resourceId <$> resources world0) ∧
  NoDup (r_resourceId <$> resources (finalizeResource env_ok job_r1 world0).2).
Proof.
  assert (NoDup (r_resourceId <$> resources world0)) as Hnd by nodup_tac.
  split; [exact Hnd|].
  by destruct (resource_ids_stay_unique env_ok world0 Hnd) as (_ & Hfin & _).
Defined.

(** *** The detail queries *)

Lemma find_first_follows {A} (p q : A → bool) f l y l' :
  (∀ x, p (f x) = p x) → (∀ x, q (f x) = q x) →
  update_first p f l = Some (y, l') →
  find_first q l = find_first p l →
  find_first q l' = Some y.
Proof.
  intros Hp Hq. revert l'. induction l as [|x l IH]; simpl; intros l' Hu Hfq; [done|].
  destruct (p x) eqn:Px.
  - simplify_eq. simpl. destruct (q x) eqn:Qx; [by rewrite Hq, Qx|].
    apply List.find_some in Hfq as [_ Hfq]. congruence.
  - destruct (update_first p f l) as [[z l'']|] eqn:Eu; [|done]. simplify_eq. simpl.
    destruct (q x) eqn:Qx.
    + symmetry in Hfq. apply List.find_some in Hfq as [_ Hfq]. congruence.
    + by apply IH.
Qed.

(** A resource that has gone through ingestion reads back: for a live
    row of the user, with unique ids, the detail requested with its
    document after a returning [indexResource] carries the content whose
    words were counted, the status finish and the meta object with the
    storage key. *)
Theorem getResourceDetail_after_indexResource
    (E : Env) (user : User) (param : UpsertResourceRequest) (w w' : World)
    (rid : string) (row : Resource) :
  indexResource E user param w = (inr tt, w') →
  p_resourceId param = Some rid →
  NoDup (r_resourceId <$> resources w) →
  row ∈ resources w →
  r_resourceId row = rid → r_userId row = u_id user → r_deletedAt row = None →
  ∃ detail w'' key content,
    getResourceDetail rid true w' = (inr detail, w'') ∧
    rd_doc detail = Some content ∧
    blobs w' !! key = Some content ∧
    r_wordCount (rd_resource detail) = Some (readingTime_words E content) ∧
    r_indexStatus (rd_resource detail) = finish ∧
    m_storageKey <$> rd_data detail = Some (Some key) ∧
    r_storageKey (rd_resource detail) = None ∧
    resources w'' = resources w' ∧ blobs w'' = blobs w'.
Proof.
  intros Hrun Hrid Hnd Hin Hid Hown Hlive.
  assert (find_first (live_resource rid) (resources w)
          = find_first (resource_where rid (Some (u_id user))) (resources w)) as Hsame.
  { rewrite (find_first_unique r_resourceId (not_deleted r_deletedAt) rid _ row);
      [|done..|by unfold not_deleted; rewrite Hlive].
    symmetry. apply (find_first_unique r_resourceId (λ r, r_userId r =? u_id user)); try done.
    by apply Z.eqb_eq. }
  apply indexResource_ok_inv in Hrun
    as (data & p0 & w0 & p1 & w1 & w2 & Hd & H0 & H1 & H2 & H3).
  destruct (stage_link_full param data w)
    as (p0' & w0' & evs0 & H0' & _ & Hc0 & _ & (_ & Hr0 & _) & _).
  assert (p0' = p0 ∧ w0' = w0) as [-> ->] by (rewrite H0 in H0'; by simplify_eq).
  pose proof (stage_content_spec E param data p0 w0 (ex_intro _ _ Hc0)) as S1.
  rewrite H1 in S1.
  destruct S1 as (key & content & evs1 & Ek & Ec & Hbk & _ & (_ & Hr1 & _) & _).
  destruct (stage_index_spec E user param data p1 w1)
    as (r & w2' & evs2 & H2' & (_ & Hr2 & _) & Hb2 & _).
  assert (r = inr tt ∧ w2' = w2) as [-> ->] by (rewrite H2 in H2'; by simplify_eq).
  unfold stage_finish, prisma_resource_update in H3. run_in H3.
  rewrite Hrid in H3. run_in H3.
  destruct (update_first _ _ (resources w2)) as [[y l']|] eqn:Eu; [|done].
  run_in H3. simplify_eq.
  pose proof Eu as Eu'.
  apply update_first_find in Eu' as (_ & x & _ & ->);
    [|by intros; apply resource_where_apply_update].
  apply (find_first_follows _ (live_resource (r_resourceId row))) in Eu;
    [|by intros; apply resource_where_apply_update|done|by rewrite Hr2, Hr1, Hr0].
  unfold getResourceDetail. run. fold (live_resource (r_resourceId row)). rewrite Eu.
  unfold finish_update. rewrite Ek, Ec. simpl.
  assert (JS.truthy (Some key) = true) as Tk.
  { pose proof (stage_content_spec E param data p0 w0 (ex_intro _ _ Hc0)) as S1.
    rewrite H1 in S1. destruct S1 as (key' & content' & _ & Ek' & _ & _ & Hres & _).
    rewrite Ek in Ek'. simplify_eq.
    destruct (JS.truthy (p_storageKey p0)) eqn:T0; destruct Hres as [Hres _].
    - by rewrite <- Hres.
    - by rewrite Hres. }
  unfold minio_downloadData. run. simpl in Tk. repeat (rewrite Tk; run).
  rewrite Hb2, Hbk. run.
  eexists _, _, key, content. by repeat split.
Qed.

Lemma getResourceDetail_after_indexResource_witness :
  let w' := (indexResource env_ok alice param_r1 world0).2 in
  (indexResource env_ok alice param_r1 world0).1 = inr tt ∧
  ∃ detail w'',
    getResourceDetail "r-1" true w' = (inr detail, w'') ∧
    rd_doc detail = Some "Example Domain".
Proof.
  intros w'.
  assert (Hrun : indexResource env_ok alice param_r1 world0 = (inr tt, w'))
    by (apply (run_eq (indexResource env_ok alice param_r1 world0)); vm_compute; reflexivity).
  split; [by rewrite Hrun|].
  destruct (getResourceDetail_after_indexResource env_ok alice param_r1 world0 w' "r-1" row_r1
              Hrun eq_refl)
    as (detail & w'' & key & content & Hget & Hdoc & Hb & _ & _ & Hk & _);
    [nodup_tac|apply list_elem_of_here|reflexivity|reflexivity|reflexivity|].
  exists detail, w''. split; [exact Hget|].
  assert (match (getResourceDetail "r-1" true w').1 with
          | inr d => rd_doc d
          | inl _ => None
          end = Some "Example Domain") as Hc by (by vm_compute).
  by rewrite Hget in Hc.
Defined.

(** The detail of an id without a live row is not answered with a
    not-found error: the query dereferences the missing row and throws a
    TypeError, leaving the state as it is. *)
Theorem getResourceDetail_missing (rid : string) (needDoc : bool) (w : World) :
  find_first (live_resource rid) (resources w) = None →
  ∃ msg, getResourceDetail rid needDoc w = (inl (TypeError msg), w).
Proof.
  intros Hf. unfold getResourceDetail. run. fold (live_resource rid). rewrite Hf.
  by eexists.
Qed.

Lemma getResourceDetail_missing_witness :
  find_first (live_resource "r-2") (resources world0) = None ∧
  ∃ msg, getResourceDetail "r-2" true world0 = (inl (TypeError msg), world0).
Proof.
  split; [reflexivity|].
  by apply (getResourceDetail_missing "r-2" true world0).
Defined.

(** The document is read under the storage key of the column when the
    row has one, and under the key kept in the meta object otherwise. *)
Theorem getResourceDetail_document_key
    (rid : string) (w : World) (row : Resource) (md : ResourceMeta)
    (key content : string) :
  find_first (live_resource rid) (resources w) = Some row →
  r_meta row = Some md →
  JS.or (r_storageKey row) (m_storageKey md) = Some key →
  key ≠ "" →
  blobs w !! key = Some content →
  ∃ w',
    getResourceDetail rid true w
      = (inr (mkDetail (omit_storageKey row) (Some md) (Some content)), w') ∧
    trace w' = trace w ++ [EvDownload key] ∧
    resources w' = resources w ∧ blobs w' = blobs w.
Proof.
  intros Hf Hm Hor Hne Hb.
  assert (JS.truthy (Some key) = true) as Tk.
  { simpl. apply String.eqb_neq in Hne. by rewrite Hne. }
  unfold getResourceDetail. run. fold (live_resource rid). rewrite Hf. simpl.
  unfold JS.or in Hor. rewrite Hm.
  destruct (JS.truthy (r_storageKey row)) eqn:Tc; run.
  - rewrite Hor. unfold minio_downloadData. run. simpl in Tk. repeat (rewrite Tk; run).
    rewrite Hb. run. by eexists.
  - rewrite Hor. unfold minio_downloadData. run. simpl in Tk. repeat (rewrite Tk; run).
    rewrite Hb. run. by eexists.
Qed.

Lemma getResourceDetail_document_key_witness :
  ∃ w',
    getResourceDetail "r-9" true
      (with_resources
         [mkResource "r-9" "note" (Some (mkMeta None None None (Some "resource/r-2")))
                     None 1 None None "Legacy" finish None None 10] world0)
    = (inr (mkDetail
              (mkResource "r-9" "note" (Some (mkMeta None None None (Some "resource/r-2")))
                          None 1 None None "Legacy" finish None None 10)
              (Some (mkMeta None None None (Some "resource/r-2")))
              (Some "an old note")), w').
Proof.
  edestruct (getResourceDetail_document_key "r-9"
               (with_resources
                  [mkResource "r-9" "note"
                     (Some (mkMeta None None None (Some "resource/r-2")))
                     None 1 None None "Legacy" finish None None 10] world0))
    as (w' & Hrun & _); [reflexivity|reflexivity|reflexivity|done|by vm_compute|].
  exists w'. exact Hrun.
Defined.

(** [getCollectionDetail] answers null exactly when no live collection has
    the id. Otherwise it lists every resource linked to the collection,
    soft-deleted ones included, most recently updated first. *)
Theorem getCollectionDetail_lists_linked (cid : string) (w : World) :
  match find_first (live_collection cid) (collections w) with
  | None => getCollectionDetail cid w = (inr None, w)
  | Some c =>
      ∃ sorted,
        getCollectionDetail cid w
        = (inr (Some (mkCollDetail (c_collectionId c) (c_userId c) (c_title c)
                                   (c_description c) (c_isPublic c) (c_updatedAt c)
                                   (map collection_resource sorted))), w) ∧
        sorted ≡ₚ List.filter (λ r, bool_decide ((c_collectionId c, r_resourceId r) ∈ links w))
                    (resources w) ∧
        StronglySorted (λ a b, r_updatedAt b ≤ r_updatedAt a) sorted
  end.
Proof.
  unfold getCollectionDetail. run. fold (live_collection cid).
  destruct (find_first (live_collection cid) (collections w)) as [c|]; run; [|done].
  eexists. split; [done|]. split; [apply order_desc_perm|apply order_desc_sorted].
Qed.

End KnowledgeMore.

(** ** Further properties of the subscription service *)

Module SubscriptionMore.
Import Subscription SubscriptionSamples SubscriptionSpec.

(** What a report does to a meter: a live meter of the user whose window
    holds the timestamp has the tokens added to the counter of the tier,
    t1 for tier t1 and t2 for any other tier; any other meter is left as
    it is. *)
Definition counted (data : ReportTokenUsageJobData) (m m' : UsageMeter) : Prop :=
  if decide (in_window (d_uid data) (d_timestamp data) m)
  then m' = mkMeter (meterId m) (m_uid m) (m_subscriptionId m) (startAt m) (endAt m)
                    (t1TokenQuota m)
                    (t1TokenUsed m + (if String.eqb (d_tier data) "t1"
                                      then d_inputTokens data + d_outputTokens data else 0))
                    (t2TokenQuota m)
                    (t2TokenUsed m + (if String.eqb (d_tier data) "t1"
                                      then 0 else d_inputTokens data + d_outputTokens data))
                    (m_deletedAt m)
  else m' = m.

(** The instants for which the calendar of the service was checked day by
    day: 1970-01-01 up to 2100-01-01. *)
Definition checked_days : Z := 47482.

Definition checked_until : Z := checked_days * JSDate.ms_per_day.

Definition month_later (t : Z) : Z :=
  JSDate.make (JSDate.getFullYear t) (JSDate.getMonth t + 1) (JSDate.getDate t).

(** The day number of [new Date(year, monthIndex, day)]. *)
Definition make_day (year monthIndex day : Z) : Z :=
  let year := if (0 <=? year) && (year <=? 99) then 1900 + year else year in
  JSDate.days_from_civil (year + monthIndex / 12) (monthIndex mod 12 + 1) 1 + (day - 1).

(** What is checked of one day [d], with [date_of] for the date of a
    day and [day_of] for the day of a date: the date of the day gives the
    day back, and the same date one month later lies 28 to 31 days ahead. *)
Definition day_ok (date_of : Z → Z * Z * Z) (day_of : Z → Z → Z → Z) (d : Z) : bool :=
  let c := date_of d in
  let y := c.1.1 in
  let m := c.1.2 - 1 in
  let dd := c.2 in
  (day_of y m dd =? d) &&
  (28 <=? day_of y (m + 1) dd - d) && (day_of y (m + 1) dd - d <=? 31).

(** [p] on the [n] days from [d] on. *)
Fixpoint all_days (p : Z → bool) (n : nat) (d : Z) : bool :=
  match n with
  | O => true
  | S n => p d && all_days p n (d + 1)
  end.

(** The quotas [createUsageMeter] reads for a plan; a plan without a
    name is the free plan, a plan without a quota row has none. *)
Definition plan_quota (w : World) (planType : option string) : Z * Z :=
  match find_first (λ q, String.eqb (q_planType q) (JS.or_lit planType "free")) (quotas w) with
  | Some q => (q_t1TokenQuota q, q_t2TokenQuota q)
  | None => (0, 0)
  end.

(** *** Reports *)

(** When a report returns, its line item is written and its tokens are
    counted once on every live meter of the user whose window holds the
    timestamp, on each of them when several windows overlap, and on no
    other meter; the rows keep their places, and no other table is
    written. *)
Theorem updateTokenUsage_counts_per_meter
    (data : ReportTokenUsageJobData) (w w' : World) :
  updateTokenUsage data w = (inr tt, w') →
  tokenUsages w'
    = tokenUsages w ++ [mkTokenUsage (d_uid data) (d_tier data) (d_inputTokens data)
                                     (d_outputTokens data) (d_skillId data)] ∧
  Forall2 (counted data) (usageMeters w) (usageMeters w') ∧
  users w' = users w ∧ subscriptions w' = subscriptions w ∧ quotas w' = quotas w.
Proof.
  rewrite updateTokenUsage_run. intros [= <-]. simpl. split; [done|]. split; [|done].
  unfold update_all. apply Forall2_fmap_r, Forall_Forall2_diag, Forall_forall.
  intros m _. unfold counted, compose.
  destruct (meter_where (d_uid data) (d_timestamp data) m) eqn:Hm; case_decide as Hw.
  - unfold increment_used. destruct (String.eqb (d_tier data) "t1"); f_equal; lia.
  - by apply meter_where_in_window in Hm.
  - apply meter_where_in_window in Hw. congruence.
  - done.
Qed.

Lemma updateTokenUsage_counts_per_meter_witness :
  let overlapping :=
    with_usageMeters
      [meter_march; mkMeter "um-1" "u-carol" (Some "sub_1") apr_1
                            (month_later apr_1) 1000 0 5000 0 None] world_at_end in
  ∃ w',
    updateTokenUsage one_token_at_end overlapping = (inr tt, w') ∧
    Forall2 (counted one_token_at_end) (usageMeters overlapping) (usageMeters w') ∧
    t1TokenUsed <$> usageMeters w' = [1000; 1].
Proof.
  intros overlapping. eexists. split; [apply updateTokenUsage_run|].
  split; [|reflexivity].
  by destruct (updateTokenUsage_counts_per_meter one_token_at_end overlapping _
                 (updateTokenUsage_run one_token_at_end overlapping)) as (_ & H & _).
Defined.

Lemma tiers_of_increment tier n m :
  0 ≤ n → tiers_of (increment_used tier n m) ⊆ tiers_of m.
Proof.
  intros Hn. unfold tiers_of, increment_used.
  destruct (String.eqb tier "t1"); simpl.
  - destruct (t1TokenUsed m + n <? t1TokenQuota m) eqn:E1.
    + apply Z.ltb_lt in E1.
      assert ((t1TokenUsed m <? t1TokenQuota m) = true) as -> by (apply Z.ltb_lt; lia). done.
    + simpl. intros x Hx. apply elem_of_app. by right.
  - destruct (t2TokenUsed m + n <? t2TokenQuota m) eqn:E2.
    + apply Z.ltb_lt in E2.
      assert ((t2TokenUsed m <? t2TokenQuota m) = true) as -> by (apply Z.ltb_lt; lia). done.
    + rewrite app_nil_r. intros x Hx. apply elem_of_app. by left.
Qed.

(** Reporting usage never makes a tier available: for a user with one
    active meter and a report with a non-negative token count, the tiers
    reported after the report are among those reported before it, in
    whatever order the table holds its rows. *)
Theorem report_never_adds_tiers
    (user : User) (data : ReportTokenUsageJobData) (w : World) (m : UsageMeter) :
  m ∈ usageMeters w →
  in_window (u_uid user) (now w) m →
  (∀ m', m' ∈ usageMeters w → in_window (u_uid user) (now w) m' → m' = m) →
  0 ≤ d_inputTokens data + d_outputTokens data →
  ∃ tiers w',
    checkTokenUsage user w = (inr tiers, w) ∧
    updateTokenUsage data w = (inr tt, w') ∧
    ∀ ms, ms ≡ₚ usageMeters w' →
      ∃ tiers',
        checkTokenUsage user (with_usageMeters ms w') = (inr tiers', with_usageMeters ms w') ∧
        tiers' ⊆ tiers.
Proof.
  intros Hin Hw Huniq Hn.
  assert (only_active user w m) as Honly by done.
  exists (tiers_of m), (updateTokenUsage data w).2.
  split; [by apply checkTokenUsage_only_active|].
  split; [by rewrite updateTokenUsage_run|].
  intros ms Hms.
  pose proof (only_active_after_report user data w m ms Honly Hms) as Hafter.
  eexists. split; [by apply checkTokenUsage_only_active|].
  destruct (meter_where (d_uid data) (d_timestamp data) m); [|done].
  by apply tiers_of_increment.
Qed.

Lemma report_never_adds_tiers_witness :
  ∃ tiers tiers' w',
    checkTokenUsage carol world_mid_march = (inr tiers, world_mid_march) ∧
    updateTokenUsage one_token world_mid_march = (inr tt, w') ∧
    checkTokenUsage carol w' = (inr tiers', w') ∧
    tiers' ⊆ tiers.
Proof.
  destruct (report_never_adds_tiers carol one_token world_mid_march meter_march)
    as (tiers & w' & Hc & Hu & Hafter).
  - apply list_elem_of_here.
  - by vm_compute.
  - intros m' Hm' _. by apply list_elem_of_singleton in Hm'.
  - by vm_compute.
  - destruct (Hafter (usageMeters w') (reflexivity _)) as (tiers' & Hc' & Hsub).
    exists tiers, tiers', w'. repeat split; try done. by destruct w'.
Defined.

(** *** The webhook for an updated subscription *)

(** An update that reports the status active writes the status and
    nothing else: the user keeps the subscription and no meter is
    touched. *)
Theorem handleSubscriptionUpdated_active
    (ev : StripeSubscription) (w : World) (sub : SubscriptionModel) :
  find_first (λ s, String.eqb (s_subscriptionId s) (ev_id ev)) (subscriptions w) = Some sub →
  ev_status ev = "active" →
  ∃ w',
    handleSubscriptionUpdated ev w = (inr tt, w') ∧
    find_first (λ s, String.eqb (s_subscriptionId s) (ev_id ev)) (subscriptions w')
      = Some (set_status "active" sub) ∧
    users w' = users w ∧ usageMeters w' = usageMeters w ∧ tokenUsages w' = tokenUsages w.
Proof.
  intros Hsub Hst. unfold handleSubscriptionUpdated. run.
  destruct (update_first _ (set_status (ev_status ev)) (subscriptions w))
    as [[y ss']|] eqn:Eu.
  2:{ apply update_first_None in Eu. congruence. }
  apply update_first_find in Eu as (Hfind & x & Hx & ->); [|done].
  rewrite Hsub in Hx. simplify_eq. run. rewrite Hst. simpl.
  eexists. split; [done|]. simpl. by rewrite <- Hst.
Qed.

Lemma handleSubscriptionUpdated_active_witness :
  ∃ w',
    handleSubscriptionUpdated (mkStripeSub "sub_1" "active") world_mid_march = (inr tt, w') ∧
    users w' = users world_mid_march ∧ usageMeters w' = [meter_march].
Proof.
  destruct (handleSubscriptionUpdated_active (mkStripeSub "sub_1" "active") world_mid_march
              sub_1 eq_refl eq_refl) as (w' & Hrun & _ & Hu & Hm & _).
  exists w'. by rewrite Hm.
Defined.

(** When the subscription's user is missing, the transaction of the
    cancellation is rolled back as a whole: the handler throws the ORM's
    not-found error, no meter is soft-deleted and no user is written; the
    status of the subscription, written before the transaction, stays. *)
Theorem handleSubscriptionUpdated_missing_user
    (ev : StripeSubscription) (w : World) (sub : SubscriptionModel) :
  find_first (λ s, String.eqb (s_subscriptionId s) (ev_id ev)) (subscriptions w) = Some sub →
  find_first (λ u, String.eqb (u_uid u) (s_uid sub)) (users w) = None →
  ev_status ev ≠ "active" →
  ∃ w',
    handleSubscriptionUpdated ev w = (inl (PrismaNotFound "User"), w') ∧
    usageMeters w' = usageMeters w ∧
    users w' = users w ∧
    find_first (λ s, String.eqb (s_subscriptionId s) (ev_id ev)) (subscriptions w')
      = Some (set_status (ev_status ev) sub).
Proof.
  intros Hsub Hu Hst. unfold handleSubscriptionUpdated. run.
  destruct (update_first _ (set_status (ev_status ev)) (subscriptions w))
    as [[y ss']|] eqn:Eu.
  2:{ apply update_first_None in Eu. congruence. }
  apply update_first_find in Eu as (Hfind & x & Hx & ->); [|done].
  rewrite Hsub in Hx. simplify_eq. run.
  assert (String.eqb (ev_status ev) "active" = false) as -> by (by apply String.eqb_neq).
  simpl. unfold postSubscriptionCanceled. run.
  apply (update_first_None _ (set_subscriptionId None)) in Hu. rewrite Hu. run.
  by eexists.
Qed.

Lemma handleSubscriptionUpdated_missing_user_witness :
  ∃ w',
    handleSubscriptionUpdated canceled_event (with_users [dave] world_mid_march)
      = (inl (PrismaNotFound "User"), w') ∧
    usageMeters w' = [meter_march].
Proof.
  destruct (handleSubscriptionUpdated_missing_user canceled_event
              (with_users [dave] world_mid_march) sub_1 eq_refl eq_refl)
    as (w' & Hrun & Hm & _); [done|].
  exists w'. by rewrite Hm.
Defined.

(** *** New subscriptions *)

(** A second creation under a subscription id that is stored, for a user
    whose current subscription is not active, runs into the unique key of
    the subscription table before anything is written. *)
Lemma createSubscription_duplicate
    (user : User) (param : CreateSubscriptionParam) (w : World)
    (sid : string) (sub sub' : SubscriptionModel) :
  u_subscriptionId user = Some sid →
  sid ≠ "" →
  find_first (λ s, String.eqb (s_subscriptionId s) sid) (subscriptions w) = Some sub →
  s_status sub ≠ "active" →
  find_first (λ s, String.eqb (s_subscriptionId s) (sp_subscriptionId param))
    (subscriptions w) = Some sub' →
  createSubscription user param w = (inl (PrismaUniqueViolation "Subscription"), w).
Proof.
  intros Hu Hne Hs Hst Hdup. unfold createSubscription, getSubscription. rewrite Hu.
  apply String.eqb_neq in Hne, Hst. rewrite Hne. run. rewrite Hs. run.
  rewrite Hst. run. by rewrite Hdup.
Qed.

(** A user whose current subscription is active keeps it: the call
    returns that subscription and writes nothing, so a repeated delivery
    creates no second subscription and no second meter. *)
Lemma createSubscription_keeps_active
    (user : User) (param : CreateSubscriptionParam) (w : World)
    (sid : string) (sub : SubscriptionModel) :
  u_subscriptionId user = Some sid →
  sid ≠ "" →
  find_first (λ s, String.eqb (s_subscriptionId s) sid) (subscriptions w) = Some sub →
  s_status sub = "active" →
  createSubscription user param w = (inr sub, w).
Proof.
  intros Hu Hne Hs Hst. unfold createSubscription, getSubscription. rewrite Hu.
  apply String.eqb_neq in Hne. rewrite Hne. run. rewrite Hs. run. by rewrite Hst.
Qed.

Lemma createSubscription_keeps_active_witness :
  createSubscription carol (mkSubParam "sub_9" (Some "pro") None "k" "active") world_mid_march
  = (inr sub_1, world_mid_march).
Proof.
  by apply (createSubscription_keeps_active carol _ world_mid_march "sub_1" sub_1).
Defined.

(** The run of [createSubscription] that creates: the tables afterwards. *)
Lemma createSubscription_run
    (user : User) (param : CreateSubscriptionParam) (w : World) (urow : User) :
  JS.truthy (u_subscriptionId user) = false →
  find_first (λ s, String.eqb (s_subscriptionId s) (sp_subscriptionId param))
    (subscriptions w) = None →
  find_first (λ u, String.eqb (u_uid u) (u_uid user)) (users w) = Some urow →
  ∃ us',
    let sub := mkSub (sp_subscriptionId param) (u_uid user) (sp_planType param)
                     (sp_interval param) (sp_lookupKey param) (sp_status param) in
    update_first (λ u, String.eqb (u_uid u) (u_uid user))
      (set_subscriptionId (Some (sp_subscriptionId param))) (users w)
    = Some (set_subscriptionId (Some (sp_subscriptionId param)) urow, us') ∧
    createSubscription user param w
    = (inr sub,
       mkWorld us' (subscriptions w ++ [sub])
               (usageMeters w ++
                [mkMeter ("um-" +:+ pretty (fresh w)) (u_uid user)
                         (Some (sp_subscriptionId param))
                         (startOfDay (now w)) (month_later (startOfDay (now w)))
                         (plan_quota w (sp_planType param)).1 0
                         (plan_quota w (sp_planType param)).2 0 None])
               (quotas w) (tokenUsages w) (logs w) (now w) (fresh w + 1)%N).
Proof.
  intros Hu Hs Hrow. unfold createSubscription.
  assert (∀ k : M World SubscriptionModel,
            (existing ← (match u_subscriptionId user with
                         | Some sid =>
                             if String.eqb sid "" then mret None
                             else
                               subscription ← getSubscription sid;
                               match subscription with
                               | None => throw (TypeError
                                   "Cannot read properties of null (reading 'status')")
                               | Some s => mret (if String.eqb (s_status s) "active"
                                                 then Some s else None)
                               end
                         | None => mret None
                         end);
             match existing with Some s => mret s | None => k end) w = k w) as Hskip.
  { intros k. destruct (u_subscriptionId user) as [sid|]; [|done].
    simpl in Hu. apply negb_false_iff in Hu. by rewrite Hu. }
  rewrite Hskip. run. rewrite Hs. run.
  destruct (update_first_found _ (set_subscriptionId (Some (sp_subscriptionId param))) _ _ Hrow)
    as (us' & Hupd).
  rewrite Hupd. exists us'. split; [done|]. run.
  unfold createUsageMeter, plan_quota, month_later. run.
  by destruct (find_first _ (quotas w)).
Qed.

(** For a user without a current subscription and a subscription id not
    yet stored, [createSubscription] stores the subscription for the user,
    points the user row at it and opens exactly one meter for it: unused,
    with the quotas of the plan, running from the start of the current day
    for one month. *)
Theorem createSubscription_opens_meter
    (user : User) (param : CreateSubscriptionParam) (w : World) (urow : User) :
  JS.truthy (u_subscriptionId user) = false →
  find_first (λ s, String.eqb (s_subscriptionId s) (sp_subscriptionId param))
    (subscriptions w) = None →
  find_first (λ u, String.eqb (u_uid u) (u_uid user)) (users w) = Some urow →
  ∃ w',
    let sub := mkSub (sp_subscriptionId param) (u_uid user) (sp_planType param)
                     (sp_interval param) (sp_lookupKey param) (sp_status param) in
    createSubscription user param w = (inr sub, w') ∧
    subscriptions w' = subscriptions w ++ [sub] ∧
    find_first (λ u, String.eqb (u_uid u) (u_uid user)) (users w')
      = Some (set_subscriptionId (Some (sp_subscriptionId param)) urow) ∧
    usageMeters w'
      = usageMeters w ++
        [mkMeter ("um-" +:+ pretty (fresh w)) (u_uid user) (Some (sp_subscriptionId param))
                 (startOfDay (now w)) (month_later (startOfDay (now w)))
                 (plan_quota w (sp_planType param)).1 0
                 (plan_quota w (sp_planType param)).2 0 None] ∧
    now w' = now w.
Proof.
  intros Hu Hs Hrow.
  destruct (createSubscription_run user param w urow Hu Hs Hrow) as (us' & Hupd & Hrun).
  cbv zeta in *. eexists. split; [exact Hrun|]. simpl.
  apply update_first_find in Hupd as [Hfind _]; done.
Qed.

Lemma createSubscription_opens_meter_witness :
  ∃ w',
    createSubscription dave (mkSubParam "sub_2" (Some "pro") (Some "monthly") "k" "active")
      world_mid_march
    = (inr (mkSub "sub_2" "u-dave" (Some "pro") (Some "monthly") "k" "active"), w') ∧
    usageMeters w'
    = [meter_march;
       mkMeter "um-1" "u-dave" (Some "sub_2") 1710460800000 1713139200000 1000 0 5000 0 None].
Proof.
  destruct (createSubscription_opens_meter dave
              (mkSubParam "sub_2" (Some "pro") (Some "monthly") "k" "active")
              world_mid_march dave eq_refl eq_refl eq_refl) as (w' & Hrun & _ & _ & Hm & _).
  exists w'. split; [exact Hrun|]. rewrite Hm. by vm_compute.
Defined.

(** *** The calendar *)

Lemma all_days_spec p n d k :
  all_days p n d = true → d ≤ k < d + Z.of_nat n → p k = true.
Proof.
  revert d. induction n as [|n IH]; intros d H Hk; [lia|].
  simpl in H. apply andb_true_iff in H as [Hd H].
  destruct (decide (k = d)) as [->|]; [done|].
  apply (IH (d + 1)); [done|lia].
Qed.

Lemma day_ok_spec date_of day_of d :
  day_ok date_of day_of d = true →
  day_of (date_of d).1.1 ((date_of d).1.2 - 1) (date_of d).2 = d ∧
  28 ≤ day_of (date_of d).1.1 ((date_of d).1.2 - 1 + 1) (date_of d).2 - d ≤ 31.
Proof.
  unfold day_ok. cbv zeta. intros Hok.
  apply andb_true_iff in Hok as [Hok H31]. apply andb_true_iff in Hok as [Hsd H28].
  apply Z.eqb_eq in Hsd. apply Z.leb_le in H28, H31. done.
Qed.

Lemma days_checked :
  all_days (day_ok JSDate.civil_from_days make_day) (Z.to_nat checked_days) 0 = true.
Proof. vm_cast_no_check (eq_refl true). Qed.

Lemma day_ok_checked d :
  0 ≤ d < checked_days → day_ok JSDate.civil_from_days make_day d = true.
Proof.
  intros Hd. apply (all_days_spec _ (Z.to_nat checked_days) 0 d days_checked).
  rewrite Z2Nat.id by done. lia.
Qed.

Lemma ms_per_day_nz : JSDate.ms_per_day ≠ 0.
Proof. done. Qed.

Lemma startOfDay_make_day t :
  startOfDay t =
  make_day (JSDate.civil_from_days (t / JSDate.ms_per_day)).1.1
           ((JSDate.civil_from_days (t / JSDate.ms_per_day)).1.2 - 1)
           (JSDate.civil_from_days (t / JSDate.ms_per_day)).2 * JSDate.ms_per_day.
Proof.
  unfold startOfDay, JSDate.make, make_day, JSDate.getFullYear, JSDate.getMonth,
    JSDate.getDate.
  reflexivity.
Qed.

Lemma month_later_make_day d :
  month_later (d * JSDate.ms_per_day) =
  make_day (JSDate.civil_from_days d).1.1 ((JSDate.civil_from_days d).1.2 - 1 + 1)
           (JSDate.civil_from_days d).2 * JSDate.ms_per_day.
Proof.
  unfold month_later, JSDate.make, make_day, JSDate.getFullYear, JSDate.getMonth,
    JSDate.getDate.
  rewrite (Z.div_mul d _ ms_per_day_nz). reflexivity.
Qed.

Lemma day_checked (t : Z) :
  0 ≤ t < checked_until →
  ∃ e,
    startOfDay t = t / JSDate.ms_per_day * JSDate.ms_per_day ∧
    startOfDay (t / JSDate.ms_per_day * JSDate.ms_per_day)
    = t / JSDate.ms_per_day * JSDate.ms_per_day ∧
    month_later (t / JSDate.ms_per_day * JSDate.ms_per_day) = e * JSDate.ms_per_day ∧
    28 ≤ e - t / JSDate.ms_per_day ≤ 31.
Proof.
  intros Ht. unfold checked_until in Ht.
  pose proof (startOfDay_make_day t) as Hs.
  remember (t / JSDate.ms_per_day) as d eqn:Ed.
  assert (0 ≤ d < checked_days) as Hd.
  { subst d. unfold JSDate.ms_per_day in *.
    split; [apply Z.div_pos; lia|apply Z.div_lt_upper_bound; lia]. }
  destruct (day_ok_spec _ _ d (day_ok_checked d Hd)) as [Hsd [H28 H31]].
  rewrite Hsd in Hs.
  pose proof (startOfDay_make_day (d * JSDate.ms_per_day)) as Hs'.
  rewrite (Z.div_mul d _ ms_per_day_nz), Hsd in Hs'.
  eexists. split; [exact Hs|]. split; [exact Hs'|].
  split; [apply month_later_make_day|]. done.
Qed.

(** The window of a meter opened at [t] holds [t]. *)
Lemma window_holds_now (t : Z) :
  0 ≤ t < checked_until → startOfDay t ≤ t ≤ month_later (startOfDay t).
Proof.
  intros Ht. destruct (day_checked t Ht) as (e & Hs & _ & Hm & He).
  rewrite Hs, Hm.
  pose proof (Z.div_mod t _ ms_per_day_nz) as Hdm.
  pose proof (Z.mod_pos_bound t JSDate.ms_per_day eq_refl) as Hmod.
  revert He Hdm. generalize (t / JSDate.ms_per_day). intros d He Hdm.
  unfold JSDate.ms_per_day in *. lia.
Qed.

(** Between 1970 and 2100 the start of the day of an instant is the
    midnight at or before it, less than a day back, and the instant one
    month after that midnight, as the meter's end is computed, lies 28 to
    31 days after it: the window of a new meter holds the instant at which
    it is created. *)
Theorem new_meter_window (t : Z) :
  0 ≤ t < checked_until →
  startOfDay t ≤ t < startOfDay t + JSDate.ms_per_day ∧
  startOfDay (startOfDay t) = startOfDay t ∧
  28 * JSDate.ms_per_day ≤ month_later (startOfDay t) - startOfDay t ≤ 31 * JSDate.ms_per_day ∧
  startOfDay t ≤ t ≤ month_later (startOfDay t).
Proof.
  intros Ht. destruct (day_checked t Ht) as (e & Hs & Hs' & Hm & He).
  rewrite Hs, Hs', Hm.
  pose proof (Z.div_mod t _ ms_per_day_nz) as Hdm.
  pose proof (Z.mod_pos_bound t JSDate.ms_per_day eq_refl) as Hmod.
  revert He Hdm. generalize (t / JSDate.ms_per_day). intros d He Hdm.
  unfold JSDate.ms_per_day in *. lia.
Qed.

Lemma new_meter_window_witness :
  0 ≤ 1710504000000 < checked_until ∧
  startOfDay 1710504000000 ≤ 1710504000000 ≤ month_later (startOfDay 1710504000000).
Proof.
  assert (0 ≤ 1710504000000 < checked_until) as Hr by (by vm_compute).
  split; [exact Hr|].
  by destruct (new_meter_window 1710504000000 Hr) as (_ & _ & _ & H).
Defined.

Lemma find_first_app_None {A} (p : A → bool) l l' :
  find_first p l = None → find_first p (l ++ l') = find_first p l'.
Proof.
  induction l as [|z l IH]; simpl; [done|]. by destruct (p z).
Qed.

Lemma find_first_app_last {A} (p : A → bool) l x :
  p x = true → ∃ y, find_first p (l ++ [x]) = Some y.
Proof.
  intros Hx. induction l as [|z l IH]; simpl; [rewrite Hx; eauto|].
  destruct (p z); eauto.
Qed.

(** After [createSubscription] has opened a meter, [checkTokenUsage] for
    that user returns: it finds an active meter and takes the tiers from
    it, instead of falling into the creation of a free meter. *)
Theorem checkTokenUsage_after_createSubscription
    (user : User) (param : CreateSubscriptionParam) (w : World) (urow : User) :
  JS.truthy (u_subscriptionId user) = false →
  find_first (λ s, String.eqb (s_subscriptionId s) (sp_subscriptionId param))
    (subscriptions w) = None →
  find_first (λ u, String.eqb (u_uid u) (u_uid user)) (users w) = Some urow →
  0 ≤ now w < checked_until →
  ∃ sub w' m,
    createSubscription user param w = (inr sub, w') ∧
    find_first (meter_where (u_uid user) (now w')) (usageMeters w') = Some m ∧
    checkTokenUsage user w' = (inr (tiers_of m), w') ∧
    (find_first (meter_where (u_uid user) (now w)) (usageMeters w) = None →
     m_subscriptionId m = Some (sp_subscriptionId param) ∧
     t1TokenUsed m = 0 ∧ t2TokenUsed m = 0 ∧
     (t1TokenQuota m, t2TokenQuota m) = plan_quota w (sp_planType param)).
Proof.
  intros Hu Hs Hrow Hnow.
  destruct (createSubscription_run user param w urow Hu Hs Hrow) as (us' & _ & Hrun).
  cbv zeta in Hrun.
  set (w' := mkWorld us' _ _ _ _ _ _ _) in Hrun.
  assert (usageMeters w' = usageMeters w ++
            [mkMeter ("um-" +:+ pretty (fresh w)) (u_uid user)
                     (Some (sp_subscriptionId param)) (startOfDay (now w))
                     (month_later (startOfDay (now w)))
                     (plan_quota w (sp_planType param)).1 0
                     (plan_quota w (sp_planType param)).2 0 None]) as Hm by done.
  assert (now w' = now w) as Hn by done.
  clearbody w'.
  pose proof (window_holds_now (now w) Hnow) as Hwin.
  set (meter := mkMeter ("um-" +:+ pretty (fresh w)) (u_uid user)
                  (Some (sp_subscriptionId param)) (startOfDay (now w))
                  (month_later (startOfDay (now w)))
                  (plan_quota w (sp_planType param)).1 0
                  (plan_quota w (sp_planType param)).2 0 None) in *.
  assert (meter_where (u_uid user) (now w) meter = true) as Hcov.
  { apply meter_where_in_window. unfold in_window. simpl. done. }
  destruct (find_first_app_last (meter_where (u_uid user) (now w)) (usageMeters w) meter Hcov)
    as (m & Hf).
  exists (mkSub (sp_subscriptionId param) (u_uid user) (sp_planType param)
                (sp_interval param) (sp_lookupKey param) (sp_status param)), w', m.
  split; [exact Hrun|]. rewrite Hm, Hn. split; [exact Hf|].
  split; [apply checkTokenUsage_active; by rewrite Hm, Hn|].
  intros Hnone. rewrite (find_first_app_None _ _ _ Hnone) in Hf. simpl in Hf.
  rewrite Hcov in Hf. simplify_eq. simpl. repeat split; try done.
  by destruct (plan_quota w (sp_planType param)).
Qed.

Lemma checkTokenUsage_after_createSubscription_witness :
  ∃ sub w' m,
    createSubscription dave (mkSubParam "sub_2" (Some "pro") (Some "monthly") "k" "active")
      world_mid_march = (inr sub, w') ∧
    find_first (meter_where (u_uid dave) (now w')) (usageMeters w') = Some m ∧
    checkTokenUsage dave w' = (inr (tiers_of m), w').
Proof.
  destruct (checkTokenUsage_after_createSubscription dave
              (mkSubParam "sub_2" (Some "pro") (Some "monthly") "k" "active")
              world_mid_march dave eq_refl eq_refl eq_refl)
    as (sub & w' & m & Hrun & Hf & Hc & _); [by vm_compute|].
  by exists sub, w', m.
Defined.

End SubscriptionMore.

(** ** Properties of the checkout flow *)

Module CheckoutSpec.
Import Subscription Checkout SubscriptionSamples CheckoutSamples SubscriptionSpec
  SubscriptionMore.

Ltac run :=
  repeat (unfold mbind, mret, M_bind, M_ret, gets, modify, throw, Checkout.logger,
          Subscription.logger, lift_base, stripe_request; simpl).

(** Nothing but log lines was written. *)
Definition only_logged (w w' : World) : Prop :=
  ∃ ls, w' = with_base (with_logs (logs (base w) ++ ls) (base w)) w.

(** The [where] clause of [handleSubscriptionCreated]. *)
Definition paid_for (sid : string) (r : CheckoutSession) : bool :=
  bool_decide (cs_subscriptionId r = Some sid) && bool_decide (cs_paymentStatus r = Some "paid").

(** The update of [handleCheckoutSessionCompleted] on the row [row]. *)
Definition record_payment (session : StripeSession) (row r : CheckoutSession)
    : CheckoutSession :=
  if cs_pk r =? cs_pk row
  then set_payment (se_payment_status session) (se_subscription session) r else r.

(** *** Queries on the checkout table *)

Section Latest.
Context {A : Type} (key : A → Z).

Lemma filter_fmap (p : A → bool) (g : A → A) l :
  (∀ r, p (g r) = p r) → List.filter p (g <$> l) = g <$> List.filter p l.
Proof.
  intros Hp. induction l as [|x l IH]; [done|]. csimpl.
  rewrite Hp. destruct (p x); csimpl; by rewrite IH.
Qed.

Lemma insert_desc_fmap (g : A → A) x l :
  (∀ r, key (g r) = key r) →
  insert_desc key (g x) (g <$> l) = g <$> insert_desc key x l.
Proof.
  intros Hk. induction l as [|y l IH]; [done|]. csimpl.
  rewrite !Hk. destruct (key y <=? key x); csimpl; [done|]. by rewrite IH.
Qed.

Lemma order_desc_fmap (g : A → A) l :
  (∀ r, key (g r) = key r) → order_desc key (g <$> l) = g <$> order_desc key l.
Proof.
  intros Hk. induction l as [|x l IH]; [done|]. csimpl.
  change (foldr (insert_desc key) [] (g <$> l)) with (order_desc key (g <$> l)).
  change (foldr (insert_desc key) [] l) with (order_desc key l).
  by rewrite IH, insert_desc_fmap.
Qed.

Lemma filter_none (p : A → bool) l :
  (∀ r, r ∈ l → p r = false) → List.filter p l = [].
Proof.
  induction l as [|x l IH]; simpl; intros H; [done|].
  rewrite (H x) by apply list_elem_of_here. apply IH. intros r Hr. apply H.
  by apply list_elem_of_further.
Qed.

Lemma update_first_by_key f l x :
  NoDup (key <$> l) → x ∈ l →
  update_first (λ r, key r =? key x) f l
  = Some (f x, (λ r, if key r =? key x then f r else r) <$> l).
Proof.
  induction l as [|y l IH]; csimpl; intros Hnd Hx; [by apply elem_of_nil in Hx|].
  apply NoDup_cons in Hnd as [Hy Hnd]. apply elem_of_cons in Hx as [<-|Hx].
  - rewrite Z.eqb_refl. do 3 f_equal.
    rewrite <- (list_fmap_id l) at 1. apply list_fmap_ext. intros i r Hr. simpl.
    destruct (key r =? key x) eqn:Er; [|done].
    apply Z.eqb_eq in Er. exfalso. apply Hy. rewrite <- Er.
    apply list_elem_of_fmap_2. by eapply list_elem_of_lookup_2.
  - destruct (key y =? key x) eqn:Ey.
    + apply Z.eqb_eq in Ey. exfalso. apply Hy. rewrite Ey. by apply list_elem_of_fmap_2.
    + by rewrite IH.
Qed.

Lemma NoDup_pk_inj l x y :
  NoDup (key <$> l) → x ∈ l → y ∈ l → key x = key y → x = y.
Proof.
  induction l as [|z l IH]; simpl; intros Hnd Hx Hy Hk; [by apply elem_of_nil in Hx|].
  apply NoDup_cons in Hnd as [Hz Hnd].
  apply elem_of_cons in Hx as [->|Hx]; apply elem_of_cons in Hy as [->|Hy]; try done.
  - exfalso. apply Hz. rewrite Hk. by apply list_elem_of_fmap_2.
  - exfalso. apply Hz. rewrite <- Hk. by apply list_elem_of_fmap_2.
  - by apply IH.
Qed.

Lemma update_first_app_last (p : A → bool) f l x :
  (∀ r, r ∈ l → p r = false) → p x = true →
  update_first p f (l ++ [x]) = Some (f x, l ++ [f x]).
Proof.
  intros Hl Hx. induction l as [|y l IH]; simpl; [by rewrite Hx|].
  rewrite (Hl y) by apply list_elem_of_here. rewrite IH; [done|].
  intros r Hr. apply Hl. by apply list_elem_of_further.
Qed.

Lemma update_first_pks (p : A → bool) f l y l' :
  (∀ x, key (f x) = key x) →
  update_first p f l = Some (y, l') → key <$> l' = key <$> l.
Proof.
  intros Hf. revert l'. induction l as [|x l IH]; simpl; intros l' H; [done|].
  destruct (p x).
  - simplify_eq. csimpl. by rewrite Hf.
  - destruct (update_first p f l) as [[z l'']|]; [|done]. simplify_eq.
    csimpl. f_equal. by apply IH.
Qed.
End Latest.

Lemma latest_Some p rows row : latest p rows = Some row → row ∈ rows ∧ p row = true.
Proof.
  unfold latest. intros H. apply head_Some_elem_of in H.
  rewrite order_desc_perm in H. apply list_elem_of_In, filter_In in H as [H ?].
  by apply list_elem_of_In in H.
Qed.

Lemma latest_None p rows : (∀ r, r ∈ rows → p r = false) → latest p rows = None.
Proof. intros H. unfold latest. by rewrite filter_none. Qed.

Lemma latest_None_inv p rows r : latest p rows = None → r ∈ rows → p r = false.
Proof.
  unfold latest. intros H Hr. destruct (p r) eqn:Pr; [|done]. exfalso.
  assert (r ∈ order_desc cs_createdAt (List.filter p rows)) as Hin.
  { rewrite order_desc_perm. apply list_elem_of_In, filter_In. split; [|done].
    by apply list_elem_of_In. }
  destruct (order_desc _ _); [by apply elem_of_nil in Hin|done].
Qed.

Lemma latest_app_last p rows row :
  (∀ r, r ∈ rows → p r = false) → p row = true → latest p (rows ++ [row]) = Some row.
Proof.
  intros H Hrow. unfold latest. rewrite List.filter_app, filter_none by done.
  simpl. by rewrite Hrow.
Qed.

Lemma latest_fmap p g rows :
  (∀ r, p (g r) = p r) → (∀ r, cs_createdAt (g r) = cs_createdAt r) →
  latest p (g <$> rows) = g <$> latest p rows.
Proof.
  intros Hp Hk. unfold latest. rewrite filter_fmap, order_desc_fmap by done.
  by destruct (order_desc _ _).
Qed.

Lemma next_pk_above rows r : r ∈ rows → cs_pk r < next_pk rows.
Proof.
  induction rows as [|x rows IH]; simpl; intros Hr; [by apply elem_of_nil in Hr|].
  apply elem_of_cons in Hr as [->|Hr]; [lia|]. specialize (IH Hr). lia.
Qed.

Lemma only_logged_trans w1 w2 w3 : only_logged w1 w2 → only_logged w2 w3 → only_logged w1 w3.
Proof.
  intros [l1 ->] [l2 ->]. exists (l1 ++ l2). destruct w1 as [b ? ? ?].
  unfold with_base, with_logs. simpl. by rewrite app_assoc.
Qed.

(** *** [checkout.session.completed] *)

(** The run of [handleCheckoutSessionCompleted] on a paid event that
    matches the latest checkout row of its session. *)
Lemma completed_run E session w row uid :
  se_payment_status session = "paid" →
  latest (λ r, String.eqb (cs_sessionId r) (se_id session)) (checkoutSessions w) = Some row →
  se_client_reference_id session = Some uid →
  cs_uid row = uid →
  NoDup (cs_pk <$> checkoutSessions w) →
  ∃ l1 l2,
    let w1 := mkWorld (with_logs (logs (base w) ++ [l1]) (base w))
                      (record_payment session row <$> checkoutSessions w)
                      (customerIds w) (stripe_requests w) in
    handleCheckoutSessionCompleted E session w =
    match find_first (λ u, String.eqb (u_uid u) uid) (users (base w)) with
    | Some _ =>
        (inr tt, mkWorld (with_logs (logs (base w) ++ [l1; l2]) (base w))
                         (record_payment session row <$> checkoutSessions w)
                         (<[uid := se_customer session]> (customerIds w))
                         (stripe_requests w))
    | None => (inl (PrismaNotFound "User"), w1)
    end.
Proof.
  intros Hpaid Hrow Href Huid Hnd. unfold handleCheckoutSessionCompleted.
  do 2 eexists. run. rewrite Hpaid. run. rewrite Hrow, Href, Huid, String.eqb_refl. run.
  rewrite (update_first_by_key cs_pk _ _ row Hnd) by (by apply latest_Some in Hrow as [? _]).
  run. unfold record_payment. rewrite Hpaid.
  destruct (find_first _ (users (base w))); run; unfold with_logs; simpl;
    rewrite <- ?app_assoc; reflexivity.
Qed.

(** An event that is not paid, or whose session has no checkout row, or
    whose reference id is not the user of the latest checkout row of the
    session, is dropped: the handler returns and only log lines are
    written. *)
Theorem handleCheckoutSessionCompleted_dropped (E : Env) (session : StripeSession) (w : World) :
  se_payment_status session ≠ "paid" ∨
  (∀ row, latest (λ r, String.eqb (cs_sessionId r) (se_id session)) (checkoutSessions w)
          = Some row →
          se_client_reference_id session ≠ Some (cs_uid row)) →
  ∃ w', handleCheckoutSessionCompleted E session w = (inr tt, w') ∧ only_logged w w'.
Proof.
  intros H. unfold handleCheckoutSessionCompleted, only_logged. run.
  destruct (String.eqb (se_payment_status session) "paid") eqn:Ep; run.
  2:{ eexists. split; [done|]. eexists [_; _]. unfold with_base, with_logs. simpl.
      by rewrite <- app_assoc. }
  destruct H as [H|H]; [by apply String.eqb_eq in Ep|].
  destruct (latest _ (checkoutSessions w)) as [row|] eqn:El; run.
  2:{ eexists. split; [done|]. eexists [_; _]. unfold with_base, with_logs. simpl.
      by rewrite <- app_assoc. }
  specialize (H row eq_refl).
  destruct (se_client_reference_id session) as [uid|]; run.
  2:{ eexists. split; [done|]. eexists [_; _]. unfold with_base, with_logs. simpl.
      by rewrite <- app_assoc. }
  destruct (String.eqb (cs_uid row) uid) eqn:Eu; run.
  { apply String.eqb_eq in Eu. congruence. }
  eexists. split; [done|]. eexists [_; _]. unfold with_base, with_logs. simpl.
  by rewrite <- app_assoc.
Qed.

Lemma handleCheckoutSessionCompleted_dropped_witness :
  ∃ w', handleCheckoutSessionCompleted stripe unpaid_event shop_open = (inr tt, w') ∧
        only_logged shop_open w'.
Proof.
  apply (handleCheckoutSessionCompleted_dropped stripe unpaid_event shop_open).
  left. done.
Defined.

(** A paid event whose reference id is the user of the latest checkout
    row of its session records the payment on that row and no other, and
    the customer id on the user; the subscription tables are left as they
    are. *)
Theorem handleCheckoutSessionCompleted_records
    (E : Env) (session : StripeSession) (w : World) (row : CheckoutSession) (urow : User) :
  se_payment_status session = "paid" →
  latest (λ r, String.eqb (cs_sessionId r) (se_id session)) (checkoutSessions w) = Some row →
  se_client_reference_id session = Some (cs_uid row) →
  find_first (λ u, String.eqb (u_uid u) (cs_uid row)) (users (base w)) = Some urow →
  NoDup (cs_pk <$> checkoutSessions w) →
  ∃ w',
    handleCheckoutSessionCompleted E session w = (inr tt, w') ∧
    (∀ r, r ∈ checkoutSessions w' ↔
          r = set_payment "paid" (se_subscription session) row ∨
          r ∈ checkoutSessions w ∧ r ≠ row) ∧
    length (checkoutSessions w') = length (checkoutSessions w) ∧
    customerIds w' = <[cs_uid row := se_customer session]> (customerIds w) ∧
    (∃ ls, base w' = with_logs (logs (base w) ++ ls) (base w)).
Proof.
  intros Hpaid Hrow Href Hu Hnd.
  destruct (completed_run E session w row _ Hpaid Hrow Href eq_refl Hnd) as (l1 & l2 & Hrun).
  cbv zeta in Hrun. rewrite Hu in Hrun. eexists. split; [exact Hrun|]. simpl.
  apply latest_Some in Hrow as [Hin _].
  split; [|split; [by rewrite length_fmap|split; [done|by eexists]]].
  intros r. rewrite list_elem_of_fmap. unfold record_payment. rewrite Hpaid. split.
  - intros (x & -> & Hx). destruct (cs_pk x =? cs_pk row) eqn:Ek.
    + apply Z.eqb_eq in Ek. left. f_equal.
      by apply (NoDup_pk_inj cs_pk (checkoutSessions w)).
    + right. split; [done|]. intros ->. by rewrite Z.eqb_refl in Ek.
  - intros [->|[Hr Hne]].
    + exists row. by rewrite Z.eqb_refl.
    + exists r. split; [|done]. destruct (cs_pk r =? cs_pk row) eqn:Ek; [|done].
      apply Z.eqb_eq in Ek. exfalso. apply Hne.
      by apply (NoDup_pk_inj cs_pk (checkoutSessions w)).
Qed.

Lemma handleCheckoutSessionCompleted_records_witness :
  ∃ w',
    handleCheckoutSessionCompleted stripe paid_event shop_open = (inr tt, w') ∧
    customerIds w' = <["u-dave" := Some "cus_9"]> ∅.
Proof.
  destruct (handleCheckoutSessionCompleted_records stripe paid_event shop_open
              checkout_dave dave eq_refl eq_refl eq_refl eq_refl)
    as (w' & Hrun & _ & _ & Hc & _).
  - apply NoDup_singleton.
  - by exists w'.
Defined.

(** The provider may deliver the event again: the second delivery finds
    the row as the first one left it and changes nothing but the log. *)
Theorem handleCheckoutSessionCompleted_redelivered
    (E : Env) (session : StripeSession) (w : World) (row : CheckoutSession) (urow : User) :
  se_payment_status session = "paid" →
  latest (λ r, String.eqb (cs_sessionId r) (se_id session)) (checkoutSessions w) = Some row →
  se_client_reference_id session = Some (cs_uid row) →
  find_first (λ u, String.eqb (u_uid u) (cs_uid row)) (users (base w)) = Some urow →
  NoDup (cs_pk <$> checkoutSessions w) →
  ∃ w1 w2,
    handleCheckoutSessionCompleted E session w = (inr tt, w1) ∧
    handleCheckoutSessionCompleted E session w1 = (inr tt, w2) ∧
    only_logged w1 w2.
Proof.
  intros Hpaid Hrow Href Hu Hnd.
  destruct (completed_run E session w row _ Hpaid Hrow Href eq_refl Hnd) as (l1 & l2 & Hrun).
  cbv zeta in Hrun. rewrite Hu in Hrun.
  set (w1 := mkWorld _ _ _ _) in Hrun.
  assert (latest (λ r, String.eqb (cs_sessionId r) (se_id session)) (checkoutSessions w1)
          = Some (record_payment session row row)) as Hrow1.
  { simpl. rewrite latest_fmap, Hrow; [done| |];
      intros r; unfold record_payment; by destruct (cs_pk r =? cs_pk row). }
  assert (cs_uid (record_payment session row row) = cs_uid row) as Huid1.
  { unfold record_payment. by rewrite Z.eqb_refl. }
  assert (NoDup (cs_pk <$> checkoutSessions w1)) as Hnd1.
  { simpl. rewrite <- list_fmap_compose.
    erewrite list_fmap_ext; [exact Hnd|]. intros i r _. simpl.
    unfold record_payment. by destruct (cs_pk r =? cs_pk row). }
  destruct (completed_run E session w1 _ _ Hpaid Hrow1 Href Huid1 Hnd1) as (l3 & l4 & Hrun1).
  cbv zeta in Hrun1. simpl in Hrun1. rewrite Hu in Hrun1.
  exists w1. eexists. split; [exact Hrun|]. split; [exact Hrun1|].
  exists [l3; l4]. unfold with_base, with_logs. simpl. f_equal.
  - rewrite <- list_fmap_compose. apply list_fmap_ext. intros i r _. simpl.
    unfold record_payment. rewrite Z.eqb_refl. simpl.
    destruct (cs_pk r =? cs_pk row) eqn:Ek; simpl; by rewrite Ek.
  - by rewrite insert_insert_eq.
Qed.

Lemma handleCheckoutSessionCompleted_redelivered_witness :
  ∃ w1 w2,
    handleCheckoutSessionCompleted stripe paid_event shop_open = (inr tt, w1) ∧
    handleCheckoutSessionCompleted stripe paid_event w1 = (inr tt, w2) ∧
    only_logged w1 w2.
Proof.
  apply (handleCheckoutSessionCompleted_redelivered stripe paid_event shop_open
           checkout_dave dave eq_refl eq_refl eq_refl eq_refl).
  apply NoDup_singleton.
Defined.

(** The payment is recorded before the user is looked up, and not in a
    transaction with it: for a user that has no row the handler throws,
    and the checkout row stays marked as paid. *)
Theorem handleCheckoutSessionCompleted_unknown_user
    (E : Env) (session : StripeSession) (w : World) (row : CheckoutSession) :
  se_payment_status session = "paid" →
  latest (λ r, String.eqb (cs_sessionId r) (se_id session)) (checkoutSessions w) = Some row →
  se_client_reference_id session = Some (cs_uid row) →
  find_first (λ u, String.eqb (u_uid u) (cs_uid row)) (users (base w)) = None →
  NoDup (cs_pk <$> checkoutSessions w) →
  ∃ w',
    handleCheckoutSessionCompleted E session w = (inl (PrismaNotFound "User"), w') ∧
    set_payment "paid" (se_subscription session) row ∈ checkoutSessions w' ∧
    customerIds w' = customerIds w.
Proof.
  intros Hpaid Hrow Href Hu Hnd.
  destruct (completed_run E session w row _ Hpaid Hrow Href eq_refl Hnd) as (l1 & l2 & Hrun).
  cbv zeta in Hrun. rewrite Hu in Hrun. eexists. split; [exact Hrun|]. simpl.
  split; [|done]. apply latest_Some in Hrow as [Hin _].
  apply list_elem_of_fmap. exists row. split; [|done].
  unfold record_payment. by rewrite Z.eqb_refl, Hpaid.
Qed.

Lemma handleCheckoutSessionCompleted_unknown_user_witness :
  ∃ w',
    handleCheckoutSessionCompleted stripe paid_event_erin shop_stranger
    = (inl (PrismaNotFound "User"), w') ∧
    customerIds w' = ∅.
Proof.
  destruct (handleCheckoutSessionCompleted_unknown_user stripe paid_event_erin shop_stranger
              _ eq_refl eq_refl eq_refl eq_refl)
    as (w' & Hrun & _ & Hc).
  - apply NoDup_singleton.
  - by exists w'.
Defined.

(** *** [customer.subscription.created] *)

(** With a paid checkout row and its user, the handler is
    [createSubscription] between two log lines. *)
Lemma created_run E sub w row planType interval user :
  latest (paid_for (ev_id sub)) (checkoutSessions w) = Some row →
  getSubscriptionInfoFromLookupKey E (cs_lookupKey row) = Some (planType, interval) →
  find_first (λ u, String.eqb (u_uid u) (cs_uid row)) (users (base w)) = Some user →
  handleSubscriptionCreated E sub w =
  let r := createSubscription user
             (mkSubParam (ev_id sub) planType interval (cs_lookupKey row) (ev_status sub))
             (with_logs (logs (base w) ++ [("log", "New subscription created: " +:+ ev_id sub)])
                        (base w)) in
  match r.1 with
  | inl e => (inl e, with_base r.2 w)
  | inr plan =>
      (inr tt,
       with_base (with_logs (logs r.2 ++ [("log", "Subscription " +:+ s_subscriptionId plan +:+
                                                  " created for user " +:+ cs_uid row)]) r.2) w)
  end.
Proof.
  intros Hrow Hinfo Hu. unfold handleSubscriptionCreated, paid_for in *. run.
  rewrite Hrow, Hinfo. run. rewrite Hu. run.
  destruct (createSubscription _ _ _) as [[e|plan] b]; by destruct w.
Qed.

(** A subscription for which no paid checkout row is stored, or whose
    checkout row names a user that has no row, is dropped: the handler
    returns and only log lines are written. *)
Theorem handleSubscriptionCreated_dropped (E : Env) (sub : StripeSubscription) (w : World) :
  (∀ row, latest (paid_for (ev_id sub)) (checkoutSessions w) = Some row →
          is_Some (getSubscriptionInfoFromLookupKey E (cs_lookupKey row)) ∧
          find_first (λ u, String.eqb (u_uid u) (cs_uid row)) (users (base w)) = None) →
  ∃ w', handleSubscriptionCreated E sub w = (inr tt, w') ∧ only_logged w w'.
Proof.
  intros H. unfold handleSubscriptionCreated, only_logged, paid_for in *. run.
  destruct (latest _ (checkoutSessions w)) as [row|] eqn:El; run.
  2:{ eexists. split; [done|]. eexists [_; _]. unfold with_base, with_logs. simpl.
      by rewrite <- app_assoc. }
  destruct (H row eq_refl) as [[[planType interval] ->] Hu]. run. rewrite Hu. run.
  eexists. split; [done|]. eexists [_; _]. unfold with_base, with_logs. simpl.
  by rewrite <- app_assoc.
Qed.

Lemma handleSubscriptionCreated_dropped_witness :
  ∃ w', handleSubscriptionCreated stripe created_active shop_open = (inr tt, w') ∧
        only_logged shop_open w'.
Proof.
  apply (handleSubscriptionCreated_dropped stripe created_active shop_open).
  intros row Hrow. by vm_compute in Hrow.
Defined.

(** The run of [handleSubscriptionCreated] that creates: the tables
    afterwards. *)
Lemma created_run_fresh
    (E : Env) (sub : StripeSubscription) (w : World) (row : CheckoutSession)
    (planType interval : option string) (user : User) :
  latest (paid_for (ev_id sub)) (checkoutSessions w) = Some row →
  getSubscriptionInfoFromLookupKey E (cs_lookupKey row) = Some (planType, interval) →
  find_first (λ u, String.eqb (u_uid u) (cs_uid row)) (users (base w)) = Some user →
  JS.truthy (u_subscriptionId user) = false →
  find_first (λ s, String.eqb (s_subscriptionId s) (ev_id sub)) (subscriptions (base w)) = None →
  ∃ us' ls,
    update_first (λ u, String.eqb (u_uid u) (cs_uid row))
      (set_subscriptionId (Some (ev_id sub))) (users (base w))
    = Some (set_subscriptionId (Some (ev_id sub)) user, us') ∧
    handleSubscriptionCreated E sub w
    = (inr tt,
       mkWorld
         (Subscription.mkWorld us'
            (subscriptions (base w) ++
             [mkSub (ev_id sub) (cs_uid row) planType interval (cs_lookupKey row)
                    (ev_status sub)])
            (usageMeters (base w) ++
             [mkMeter ("um-" +:+ pretty (fresh (base w))) (cs_uid row) (Some (ev_id sub))
                      (startOfDay (now (base w))) (month_later (startOfDay (now (base w))))
                      (plan_quota (base w) planType).1 0 (plan_quota (base w) planType).2 0
                      None])
            (quotas (base w)) (tokenUsages (base w)) (logs (base w) ++ ls)
            (now (base w)) (fresh (base w) + 1)%N)
         (checkoutSessions w) (customerIds w) (stripe_requests w)).
Proof.
  intros Hrow Hinfo Hu Hnone Hnew.
  assert (u_uid user = cs_uid row) as Huid.
  { apply List.find_some in Hu as [_ Hu]. by apply String.eqb_eq in Hu. }
  rewrite (created_run E sub w row planType interval user Hrow Hinfo Hu). cbv zeta.
  set (b := with_logs _ (base w)). rewrite <- Huid in Hu.
  destruct (createSubscription_run user
              (mkSubParam (ev_id sub) planType interval (cs_lookupKey row) (ev_status sub))
              b user Hnone Hnew Hu) as (us' & Hupd & Hrun).
  cbv zeta in Hupd, Hrun. rewrite Hrun. simpl in *. rewrite Huid in *.
  exists us'. eexists [_; _]. split; [exact Hupd|].
  unfold with_base, with_logs. simpl. by rewrite <- app_assoc.
Qed.

(** For the latest paid checkout row of the subscription, whose user has
    no current subscription, the handler stores the subscription for that
    user with the plan and the interval of the row's lookup key, points
    the user at it and opens one meter with the quotas of the plan; the
    checkout table is left as it is. *)
Theorem handleSubscriptionCreated_creates
    (E : Env) (sub : StripeSubscription) (w : World) (row : CheckoutSession)
    (planType interval : option string) (user : User) :
  latest (paid_for (ev_id sub)) (checkoutSessions w) = Some row →
  getSubscriptionInfoFromLookupKey E (cs_lookupKey row) = Some (planType, interval) →
  find_first (λ u, String.eqb (u_uid u) (cs_uid row)) (users (base w)) = Some user →
  JS.truthy (u_subscriptionId user) = false →
  find_first (λ s, String.eqb (s_subscriptionId s) (ev_id sub)) (subscriptions (base w)) = None →
  ∃ w',
    handleSubscriptionCreated E sub w = (inr tt, w') ∧
    subscriptions (base w')
      = subscriptions (base w) ++
        [mkSub (ev_id sub) (cs_uid row) planType interval (cs_lookupKey row) (ev_status sub)] ∧
    find_first (λ u, String.eqb (u_uid u) (cs_uid row)) (users (base w'))
      = Some (set_subscriptionId (Some (ev_id sub)) user) ∧
    usageMeters (base w')
      = usageMeters (base w) ++
        [mkMeter ("um-" +:+ pretty (fresh (base w))) (cs_uid row) (Some (ev_id sub))
                 (startOfDay (now (base w))) (month_later (startOfDay (now (base w))))
                 (plan_quota (base w) planType).1 0 (plan_quota (base w) planType).2 0 None] ∧
    checkoutSessions w' = checkoutSessions w ∧
    customerIds w' = customerIds w.
Proof.
  intros Hrow Hinfo Hu Hnone Hnew.
  destruct (created_run_fresh E sub w row planType interval user Hrow Hinfo Hu Hnone Hnew)
    as (us' & ls & Hupd & Hrun).
  eexists. split; [exact Hrun|]. simpl.
  apply update_first_find in Hupd as [Hfind _]; done.
Qed.

Lemma handleSubscriptionCreated_creates_witness :
  ∃ w',
    handleSubscriptionCreated stripe created_active shop_paid = (inr tt, w') ∧
    subscriptions (base w')
      = [sub_1; mkSub "sub_2" "u-dave" (Some "pro") (Some "monthly") "refly_pro_monthly"
                      "active"].
Proof.
  destruct (handleSubscriptionCreated_creates stripe created_active shop_paid
              (set_payment "paid" (Some "sub_2") checkout_dave) (Some "pro") (Some "monthly")
              dave eq_refl eq_refl eq_refl eq_refl eq_refl)
    as (w' & Hrun & Hs & _).
  by exists w'.
Defined.

(** The provider may deliver the event again. After a creation with the
    status [active] the second delivery changes nothing but the log; after
    a creation with another status it runs into the stored subscription
    and throws the unique-key violation, again without a write. *)
Theorem handleSubscriptionCreated_redelivered
    (E : Env) (sub : StripeSubscription) (w : World) (row : CheckoutSession)
    (planType interval : option string) (user : User) :
  latest (paid_for (ev_id sub)) (checkoutSessions w) = Some row →
  getSubscriptionInfoFromLookupKey E (cs_lookupKey row) = Some (planType, interval) →
  find_first (λ u, String.eqb (u_uid u) (cs_uid row)) (users (base w)) = Some user →
  JS.truthy (u_subscriptionId user) = false →
  find_first (λ s, String.eqb (s_subscriptionId s) (ev_id sub)) (subscriptions (base w)) = None →
  ev_id sub ≠ "" →
  ∃ w1 w2,
    handleSubscriptionCreated E sub w = (inr tt, w1) ∧
    handleSubscriptionCreated E sub w1
    = (if String.eqb (ev_status sub) "active" then inr tt
       else inl (PrismaUniqueViolation "Subscription"), w2) ∧
    only_logged w1 w2.
Proof.
  intros Hrow Hinfo Hu Hnone Hnew Hne.
  assert (u_uid user = cs_uid row) as Huid.
  { apply List.find_some in Hu as [_ Hu]. by apply String.eqb_eq in Hu. }
  rewrite (created_run E sub w row planType interval user Hrow Hinfo Hu). cbv zeta.
  set (b := with_logs _ (base w)). rewrite <- Huid in Hu.
  set (param := mkSubParam (ev_id sub) planType interval (cs_lookupKey row) (ev_status sub)).
  destruct (createSubscription_run user param b user Hnone Hnew Hu) as (us' & Hupd & Hrun).
  cbv zeta in Hupd, Hrun.
  apply update_first_find in Hupd as [Hus _]; [|done].
  set (b' := Subscription.mkWorld us' _ _ _ _ _ _ _) in Hrun.
  assert (subscriptions b' = subscriptions b ++
            [mkSub (sp_subscriptionId param) (u_uid user) (sp_planType param)
                   (sp_interval param) (sp_lookupKey param) (sp_status param)]) as Hs by done.
  change us' with (users b') in Hus. clearbody b'.
  rewrite Hrun. simpl.
  set (plan := mkSub _ _ _ _ _ _) in *.
  set (w1 := with_base _ w). exists w1.
  assert (find_first (λ s, String.eqb (s_subscriptionId s) (ev_id sub))
            (subscriptions (base w1)) = Some plan) as Hplan.
  { simpl. rewrite Hs. simpl in Hnew. rewrite (find_first_app_None _ _ _ Hnew).
    simpl. by rewrite String.eqb_refl. }
  rewrite Huid in Hus.
  rewrite (created_run E sub w1 row planType interval _ Hrow Hinfo Hus). cbv zeta.
  fold param. set (b1 := with_logs _ (base w1)).
  destruct (String.eqb (ev_status sub) "active") eqn:Est.
  - apply String.eqb_eq in Est.
    rewrite (createSubscription_keeps_active
               (set_subscriptionId (Some (sp_subscriptionId param)) user) param b1
               (ev_id sub) plan); try done.
    simpl. eexists. split; [done|]. split; [done|].
    exists [("log", "New subscription created: " +:+ ev_id sub);
      ("log", "Subscription " +:+ ev_id sub +:+ " created for user " +:+ cs_uid row)].
    unfold with_base, with_logs. simpl. by rewrite <- app_assoc.
  - apply String.eqb_neq in Est.
    rewrite (createSubscription_duplicate
               (set_subscriptionId (Some (sp_subscriptionId param)) user) param b1
               (ev_id sub) plan plan); try done.
    simpl. eexists. split; [done|]. split; [done|].
    exists [("log", "New subscription created: " +:+ ev_id sub)].
    done.
Qed.

Lemma handleSubscriptionCreated_redelivered_witness :
  ∃ w1 w2,
    handleSubscriptionCreated stripe created_incomplete shop_paid = (inr tt, w1) ∧
    handleSubscriptionCreated stripe created_incomplete w1
    = (inl (PrismaUniqueViolation "Subscription"), w2) ∧
    only_logged w1 w2.
Proof.
  apply (handleSubscriptionCreated_redelivered stripe created_incomplete shop_paid
           (set_payment "paid" (Some "sub_2") checkout_dave) (Some "pro") (Some "monthly")
           dave eq_refl eq_refl eq_refl eq_refl eq_refl).
  done.
Defined.

(** *** [createCheckoutSession] *)

Lemma createCheckoutSession_run E user lookupKey w :
  createCheckoutSession E user lookupKey w =
  match prices_list E (stripe_requests w) lookupKey with
  | inl e => (inl e, with_stripe_requests (stripe_requests w + 1)%N w)
  | inr [] =>
      (inl (BadRequestException ("No prices found for lookup key: " +:+ lookupKey)),
       with_stripe_requests (stripe_requests w + 1)%N w)
  | inr (price :: _) =>
      match sessions_create E (stripe_requests w + 1)%N price (u_uid user) with
      | inl e => (inl e, with_stripe_requests (stripe_requests w + 1 + 1)%N w)
      | inr session =>
          let row := mkCheckout (next_pk (checkoutSessions w)) (u_uid user) (se_id session)
                                lookupKey (default_paymentStatus E)
                                (default_subscriptionId E) (now (base w)) in
          match checkoutSession_create_fault E (checkoutSessions w) row with
          | Some e => (inl e, with_stripe_requests (stripe_requests w + 1 + 1)%N w)
          | None =>
              (inr session,
               mkWorld (base w) (checkoutSessions w ++ [row]) (customerIds w)
                       (stripe_requests w + 1 + 1)%N)
          end
      end
  end.
Proof.
  unfold createCheckoutSession. run. unfold lift_result.
  destruct (prices_list E (stripe_requests w) lookupKey) as [e|[|price prices]]; run;
    [done|done|].
  destruct (sessions_create E (stripe_requests w + 1)%N price (u_uid user)) as [e|session];
    run; [done|].
  assert (with_base (base w) (with_stripe_requests (stripe_requests w + 1 + 1)%N w)
          = with_stripe_requests (stripe_requests w + 1 + 1)%N w) as Hb.
  { unfold with_base. destruct w as [b ? ? ?]. simpl. by destruct b. }
  destruct (checkoutSession_create_fault E _ _); run; rewrite ?Hb; [done|].
  unfold with_base. destruct w as [b ? ? ?]. simpl. by destruct b.
Qed.

(** [createCheckoutSession] writes at most one checkout row and no other
    table. Whenever it throws (the provider rejects a request or lists no
    price, or the insert is rejected) the checkout table is as before;
    with an empty price list the error is the BadRequestException. When it
    returns, the provider has listed a price and created the returned
    session for the first one and the user, and one row has been appended
    for the user and the lookup key, under a new primary key and with the
    id of that session. *)
Theorem createCheckoutSession_row (E : Env) (user : User) (lookupKey : string) (w : World) :
  let '(r, w') := createCheckoutSession E user lookupKey w in
  base w' = base w ∧ customerIds w' = customerIds w ∧
  match r with
  | inl e =>
      checkoutSessions w' = checkoutSessions w ∧
      (prices_list E (stripe_requests w) lookupKey = inr [] →
       e = BadRequestException ("No prices found for lookup key: " +:+ lookupKey))
  | inr session =>
      ∃ price prices row,
        prices_list E (stripe_requests w) lookupKey = inr (price :: prices) ∧
        sessions_create E (stripe_requests w + 1)%N price (u_uid user) = inr session ∧
        checkoutSessions w' = checkoutSessions w ++ [row] ∧
        cs_uid row = u_uid user ∧ cs_lookupKey row = lookupKey ∧
        cs_sessionId row = se_id session ∧
        cs_pk row ∉ cs_pk <$> checkoutSessions w
  end.
Proof.
  rewrite createCheckoutSession_run.
  destruct (prices_list E (stripe_requests w) lookupKey) as [e|[|price prices]] eqn:Ep; simpl;
    [done|by repeat split|].
  destruct (sessions_create E (stripe_requests w + 1)%N price (u_uid user))
    as [e|session] eqn:Es; simpl; [done|].
  destruct (checkoutSession_create_fault E _ _); simpl; [done|].
  repeat split; try done. eexists price, prices, _. repeat split; try done.
  simpl. intros (r & Hr & Hin)%list_elem_of_fmap.
  apply next_pk_above in Hin. lia.
Qed.

(** *** Primary keys *)

Lemma handleCheckoutSessionCompleted_pks E session w :
  cs_pk <$> checkoutSessions (handleCheckoutSessionCompleted E session w).2
  = cs_pk <$> checkoutSessions w.
Proof.
  unfold handleCheckoutSessionCompleted. run.
  destruct (negb _); run; [done|].
  destruct (latest _ _) as [row|]; run; [|done].
  destruct (se_client_reference_id session) as [uid|]; run; [|done].
  destruct (negb _); run; [done|].
  destruct (update_first _ _ (checkoutSessions w)) as [[y rows']|] eqn:Eu; run; [|done].
  apply (update_first_pks cs_pk) in Eu; [|done].
  destruct (find_first _ (users (base w))); run; done.
Qed.

Lemma handleSubscriptionCreated_checkoutSessions E sub w :
  checkoutSessions (handleSubscriptionCreated E sub w).2 = checkoutSessions w.
Proof.
  unfold handleSubscriptionCreated. run.
  destruct (latest _ _) as [row|]; run; [|done].
  destruct (getSubscriptionInfoFromLookupKey E (cs_lookupKey row)) as [[planType interval]|];
    run; [|done].
  destruct (find_first _ (users (base w))); run; [|done].
  by destruct (createSubscription _ _ _) as [[e|plan] b].
Qed.

(** The primary keys of the checkout table stay unique under the three
    operations of the flow, whatever their outcome. *)
Theorem checkout_keys_stay_unique
    (E : Env) (user : User) (lookupKey : string) (session : StripeSession)
    (sub : StripeSubscription) (w : World) :
  NoDup (cs_pk <$> checkoutSessions w) →
  NoDup (cs_pk <$> checkoutSessions (createCheckoutSession E user lookupKey w).2) ∧
  NoDup (cs_pk <$> checkoutSessions (handleCheckoutSessionCompleted E session w).2) ∧
  NoDup (cs_pk <$> checkoutSessions (handleSubscriptionCreated E sub w).2).
Proof.
  intros Hnd. split; [|split].
  - rewrite createCheckoutSession_run.
    destruct (prices_list E (stripe_requests w) lookupKey) as [e|[|price prices]]; simpl;
      [done|done|].
    destruct (sessions_create E (stripe_requests w + 1)%N price (u_uid user))
      as [e|session0]; simpl; [done|].
    destruct (checkoutSession_create_fault E _ _); simpl; [done|].
    rewrite fmap_app. apply NoDup_app. split; [done|]. split; [|apply NoDup_singleton].
    intros k (r & -> & Hin)%list_elem_of_fmap Hk. simpl in Hk.
    apply list_elem_of_singleton in Hk. apply next_pk_above in Hin. lia.
  - by rewrite handleCheckoutSessionCompleted_pks.
  - by rewrite handleSubscriptionCreated_checkoutSessions.
Qed.

Lemma checkout_keys_stay_unique_witness :
  NoDup (cs_pk <$> checkoutSessions
                     (createCheckoutSession stripe dave "refly_pro_monthly" shop_open).2).
Proof.
  apply (checkout_keys_stay_unique stripe dave "refly_pro_monthly" paid_event created_active
           shop_open).
  apply NoDup_singleton.
Defined.

(** *** The whole flow *)

(** A checkout that the provider confirms as paid for the user who
    started it, followed by the creation event of the subscription it
    names, ends with that subscription stored for the user under the plan
    of the lookup key, the user pointed at it, the customer id recorded
    and one new meter with the quotas of the plan. *)
Theorem checkout_flow
    (E : Env) (user urow : User) (lookupKey price : string) (prices : list string)
    (session paid : StripeSession) (sub : StripeSubscription) (w : World)
    (planType interval : option string) :
  prices_list E (stripe_requests w) lookupKey = inr (price :: prices) →
  sessions_create E (stripe_requests w + 1)%N price (u_uid user) = inr session →
  checkoutSession_create_fault E (checkoutSessions w)
    (mkCheckout (next_pk (checkoutSessions w)) (u_uid user) (se_id session) lookupKey
                (default_paymentStatus E) (default_subscriptionId E) (now (base w))) = None →
  (∀ r, r ∈ checkoutSessions w → cs_sessionId r ≠ se_id session) →
  (∀ r, r ∈ checkoutSessions w → cs_subscriptionId r ≠ Some (ev_id sub)) →
  se_id paid = se_id session →
  se_payment_status paid = "paid" →
  se_client_reference_id paid = Some (u_uid user) →
  se_subscription paid = Some (ev_id sub) →
  getSubscriptionInfoFromLookupKey E lookupKey = Some (planType, interval) →
  find_first (λ u, String.eqb (u_uid u) (u_uid user)) (users (base w)) = Some urow →
  JS.truthy (u_subscriptionId urow) = false →
  find_first (λ s, String.eqb (s_subscriptionId s) (ev_id sub)) (subscriptions (base w)) = None →
  ∃ w1 w2 w3,
    createCheckoutSession E user lookupKey w = (inr session, w1) ∧
    handleCheckoutSessionCompleted E paid w1 = (inr tt, w2) ∧
    handleSubscriptionCreated E sub w2 = (inr tt, w3) ∧
    subscriptions (base w3)
      = subscriptions (base w) ++
        [mkSub (ev_id sub) (u_uid user) planType interval lookupKey (ev_status sub)] ∧
    find_first (λ u, String.eqb (u_uid u) (u_uid user)) (users (base w3))
      = Some (set_subscriptionId (Some (ev_id sub)) urow) ∧
    usageMeters (base w3)
      = usageMeters (base w) ++
        [mkMeter ("um-" +:+ pretty (fresh (base w))) (u_uid user) (Some (ev_id sub))
                 (startOfDay (now (base w))) (month_later (startOfDay (now (base w))))
                 (plan_quota (base w) planType).1 0 (plan_quota (base w) planType).2 0 None] ∧
    customerIds w3 !! u_uid user = Some (se_customer paid).
Proof.
  intros Hprice Hsession Hinsert Hfresh Hsub Hid Hpaid Href Hsid Hinfo Hu Hnone Hnew.
  pose proof (createCheckoutSession_run E user lookupKey w) as Hrun1.
  rewrite Hprice, Hsession in Hrun1. cbv zeta in Hrun1. rewrite Hinsert in Hrun1.
  set (row := mkCheckout (next_pk (checkoutSessions w)) (u_uid user) (se_id session) lookupKey
                         (default_paymentStatus E) (default_subscriptionId E)
                         (now (base w))) in *.
  set (w1 := mkWorld (base w) (checkoutSessions w ++ [row]) (customerIds w)
                     (stripe_requests w + 1 + 1)%N) in *.
  set (row' := set_payment "paid" (se_subscription paid) row).
  assert (∃ w2 ls, handleCheckoutSessionCompleted E paid w1 = (inr tt, w2) ∧
                   checkoutSessions w2 = checkoutSessions w ++ [row'] ∧
                   base w2 = with_logs ls (base w) ∧
                   customerIds w2 = <[u_uid user := se_customer paid]> (customerIds w))
    as (w2 & ls & Hrun2 & Hrows2 & Hbase2 & Hcust2).
  { unfold handleCheckoutSessionCompleted. run. rewrite Hpaid. run.
    rewrite (latest_app_last _ (checkoutSessions w) row).
    2:{ intros r Hr. apply String.eqb_neq. rewrite Hid. by apply Hfresh. }
    2:{ simpl. rewrite Hid. apply String.eqb_refl. }
    rewrite Href. run. rewrite String.eqb_refl. run.
    rewrite (update_first_app_last _ _ (checkoutSessions w) row).
    2:{ intros r Hr. apply Z.eqb_neq. apply next_pk_above in Hr. lia. }
    2:{ apply Z.eqb_refl. }
    run. rewrite Hu. run. do 2 eexists. split; [done|]. simpl. by repeat split. }
  assert (latest (paid_for (ev_id sub)) (checkoutSessions w2) = Some row') as Hrow'.
  { rewrite Hrows2. apply latest_app_last.
    - intros r Hr. unfold paid_for. rewrite bool_decide_eq_false_2; [done|]. by apply Hsub.
    - unfold paid_for. simpl. rewrite Hsid. by rewrite !bool_decide_eq_true_2. }
  destruct (created_run_fresh E sub w2 row' planType interval urow)
    as (us' & ls' & Hupd & Hrun3); try (by rewrite ?Hbase2).
  rewrite Hbase2 in Hupd, Hrun3. simpl in Hupd, Hrun3.
  apply update_first_find in Hupd as [Hus _]; [|done].
  exists w1, w2. eexists. split; [done|]. split; [done|]. split; [exact Hrun3|].
  simpl. rewrite Hcust2. repeat split; try done. by rewrite lookup_insert_eq.
Qed.

Lemma checkout_flow_witness :
  ∃ w1 w2 w3,
    createCheckoutSession stripe dave "refly_pro_monthly" shop0
    = (inr (mkStripeSession "cs_1" "unpaid" (Some "u-dave") None None), w1) ∧
    handleCheckoutSessionCompleted stripe paid_event w1 = (inr tt, w2) ∧
    handleSubscriptionCreated stripe created_active w2 = (inr tt, w3) ∧
    subscriptions (base w3)
      = [sub_1; mkSub "sub_2" "u-dave" (Some "pro") (Some "monthly") "refly_pro_monthly"
                      "active"] ∧
    customerIds w3 !! "u-dave" = Some (Some "cus_9").
Proof.
  destruct (checkout_flow stripe dave dave "refly_pro_monthly" "price_pro" []
              (mkStripeSession "cs_1" "unpaid" (Some "u-dave") None None)
              paid_event created_active shop0 (Some "pro") (Some "monthly"))
    as (w1 & w2 & w3 & H1 & H2 & H3 & Hs & _ & _ & Hc); try done.
  - intros r Hr. by apply elem_of_nil in Hr.
  - intros r Hr. by apply elem_of_nil in Hr.
  - by exists w1, w2, w3.
Defined.

End CheckoutSpec.
